(** * The U-Net wrapper of [model/unet.py]

    A shallow embedding of the [UNet] class: the layer graph built by
    [build], the callbacks configured by [checkpoint] and [tensorboard],
    the argument evaluation and history persistence of [train], and
    [evaluate].  Python values, exceptions and the few library functions
    the class calls ([os.path.join], [open], [pickle.dump], [str.format],
    the Keras shape rules) are modelled as far as the class depends on
    them. *)

From Stdlib Require Import ZArith QArith Qabs String Ascii List Bool Lia DecimalString.
From stdpp Require Import base option gmap strings.

Import ListNotations.
Local Open Scope Z_scope.
Local Open Scope string_scope.

(** ** Python values and exceptions *)

(** The floats that are not a number: [-0.0], the infinities and [nan]. *)
Inductive Special :=
| NegZero
| Inf (negative : bool)
| NaN.

(** The values that can sit in the configuration mapping and in the
    hyper-parameter fields.  A finite float is [VFloat q], [q] being its
    exact value ([0.0] for [q == 0]); the other floats are [VSpecial].
    The operators round their results to binary64, see [Py.nearest]. *)
Inductive PyVal :=
| VNone
| VInt (z : Z)
| VFloat (q : Q)
| VStr (s : string)
| VSpecial (s : Special).

Inductive Exn :=
| KeyError (key : string)
| AttributeError (msg : string)
| TypeError (msg : string)
| ValueError (msg : string)
| ZeroDivisionError (msg : string)
| FileNotFoundError (path : string)
| FileExistsError (path : string)
| UnsupportedOperation (msg : string)
| FrameworkError (msg : string)
| OverflowError (msg : string).

Inductive Outcome (A : Type) :=
| Ok (a : A)
| Raise (e : Exn).
Arguments Ok {A} a.
Arguments Raise {A} e.

#[global] Instance Outcome_ret : MRet Outcome := fun _ a => Ok a.
#[global] Instance Outcome_bind : MBind Outcome := fun _ _ f o =>
  match o with
  | Ok a => f a
  | Raise e => Raise e
  end.

(** ** Keras layers and symbolic tensors *)

Module Keras.

Inductive Padding := VALID | SAME.

(** [str.lower] on one character. *)
Definition ascii_lower (c : ascii) : ascii :=
  let n := nat_of_ascii c in
  if (Nat.leb 65 n && Nat.leb n 90)%bool then ascii_of_nat (n + 32) else c.

Fixpoint lower (s : string) : string :=
  match s with
  | EmptyString => EmptyString
  | String c r => String (ascii_lower c) (lower r)
  end.

(** [conv_utils.normalize_padding], restricted to what a 2-D layer takes. *)
Definition normalize_padding (value : string) : Outcome Padding :=
  let padding := lower value in
  if String.eqb padding "valid" then Ok VALID
  else if String.eqb padding "same" then Ok SAME
  else Raise (ValueError "invalid padding").

Inductive Layer :=
| LConv2D (filters kernel_size : Z) (padding : Padding)
| LBatchNormalization
| LActivation (fn : string)
| LMaxPooling2D (pool_size : Z)
| LUpSampling2D (size : Z * Z)
| LConcatenate
| LConv2DTranspose (filters kernel_size : Z) (padding : Padding).

(** The layer constructors, with the defaults the source leaves implicit
    (stride 1, [padding="valid"]).  Of the checks Keras makes on the
    arguments, the one of the padding is modelled; sizes are taken to be
    positive, as they are at every call in [build]. *)
Definition Conv2D (filters kernel_size : Z) (padding : string) : Outcome Layer :=
  p ← normalize_padding padding; Ok (LConv2D filters kernel_size p).
Definition Conv2DTranspose (filters kernel_size : Z) (padding : string) : Outcome Layer :=
  p ← normalize_padding padding; Ok (LConv2DTranspose filters kernel_size p).
Definition BatchNormalization : Outcome Layer := Ok LBatchNormalization.
Definition Activation (fn : string) : Outcome Layer := Ok (LActivation fn).
Definition MaxPooling2D (pool_size : Z) : Outcome Layer := Ok (LMaxPooling2D pool_size).
Definition UpSampling2D (size : Z * Z) : Outcome Layer := Ok (LUpSampling2D size).
Definition Concatenate : Outcome Layer := Ok LConcatenate.

(** Shapes leave the batch axis out: (height, width, channels). *)
Definition Shape := list Z.

(** The graph behind a symbolic tensor: the input placeholder, or a layer
    applied to earlier tensors. *)
#[warnings="-register-all"]
Inductive Node :=
| InputLayer (shape : Shape)
| Call (l : Layer) (args : list Node).

Record KerasTensor := { kt_shape : Shape; kt_history : Node }.

(** [conv_utils.conv_output_length] (dilation 1). *)
Definition conv_output_length (input_length filter_size : Z) (padding : Padding)
    (stride : Z) : Z :=
  let output_length :=
    match padding with
    | SAME => input_length
    | VALID => input_length - filter_size + 1
    end in
  (output_length + stride - 1) / stride.

(** [conv_utils.deconv_output_length] (no output padding, dilation 1). *)
Definition deconv_output_length (input_length filter_size : Z) (padding : Padding)
    (stride : Z) : Z :=
  match padding with
  | VALID => input_length * stride + Z.max (filter_size - stride) 0
  | SAME => input_length * stride
  end.

Definition positive_dims (s : Shape) : bool := forallb (fun d => (0 <? d)%Z) s.

Definition checked (s : Shape) : Outcome Shape :=
  if positive_dims s then Ok s
  else Raise (ValueError "output dimension is not positive").

(** Concatenation along the last axis: every other axis must agree. *)
Fixpoint concat_shapes (acc : Z * Z * Z) (rest : list Shape) : Outcome Shape :=
  match rest with
  | [] => let '(h, w, c) := acc in Ok [h; w; c]
  | [h'; w'; c'] :: rest' =>
      let '(h, w, c) := acc in
      if ((h =? h')%Z && (w =? w')%Z)%bool then concat_shapes (h, w, c + c') rest'
      else Raise (ValueError "Concatenate: inputs with matching shapes except for the concat axis")
  | _ :: _ => Raise (ValueError "Concatenate: inputs of different rank")
  end.

(** [compute_output_shape] of each layer. *)
Definition compute_output_shape (l : Layer) (ins : list Shape) : Outcome Shape :=
  match l, ins with
  | LConv2D filters k p, [[h; w; _]] =>
      checked [conv_output_length h k p 1; conv_output_length w k p 1; filters]
  | LConv2DTranspose filters k p, [[h; w; _]] =>
      checked [deconv_output_length h k p 1; deconv_output_length w k p 1; filters]
  | LBatchNormalization, [s] => Ok s
  | LActivation _, [s] => Ok s
  | LMaxPooling2D pool, [[h; w; c]] =>
      checked [conv_output_length h pool VALID pool; conv_output_length w pool VALID pool; c]
  | LUpSampling2D (sh, sw), [[h; w; c]] => Ok [sh * h; sw * w; c]
  | LConcatenate, [h; w; c] :: s2 :: more => concat_shapes (h, w, c) (s2 :: more)
  | _, _ => Raise (ValueError "layer is incompatible with its input")
  end.

(** Calling a layer on symbolic tensors: shape inference, then a new node. *)
Definition call (l : Layer) (xs : list KerasTensor) : Outcome KerasTensor :=
  s ← compute_output_shape l (map kt_shape xs);
  Ok {| kt_shape := s; kt_history := Call l (map kt_history xs) |}.

Definition Input (shape : Shape) : Outcome KerasTensor :=
  Ok {| kt_shape := shape; kt_history := InputLayer shape |}.

(** A layer expression applied to its inputs, [Layer(...)(x)]. *)
Definition on (L : Outcome Layer) (xs : list KerasTensor) : Outcome KerasTensor :=
  l ← L; call l xs.

(** The optimizer side of [compile]. *)
Inductive LearningRateSchedule :=
| ExponentialDecay (initial_learning_rate decay_steps decay_rate : PyVal).

Inductive Optimizer :=
| Adam (learning_rate : LearningRateSchedule).

Record Compiled := {
  optimizer : Optimizer;
  loss : string;
  metrics : list string
}.

(** A functional model.  The weights are opaque: [weights] only tells one
    state of the parameters from another, counted from the initial one;
    the random values Keras draws for a new model are not modelled. *)
Record KModel := {
  inputs : KerasTensor;
  outputs : KerasTensor;
  compiled : option Compiled;
  weights : N
}.

Definition Model (inputs outputs : KerasTensor) : KModel :=
  {| inputs := inputs; outputs := outputs; compiled := None; weights := 0%N |}.

Definition compile (m : KModel) (opt : Optimizer) (loss : string)
    (metrics : list string) : KModel :=
  {| inputs := inputs m; outputs := outputs m;
     compiled := Some {| optimizer := opt; loss := loss; metrics := metrics |};
     weights := weights m |}.

Definition input_shape (m : KModel) : Shape := kt_shape (inputs m).
Definition output_shape (m : KModel) : Shape := kt_shape (outputs m).

End Keras.
Import Keras.

(** ** The graph of [UNet.build] *)

Definition _one_cnn_layer (input : KerasTensor) (num_filters kernel_size : Z)
    (padding : string) : Outcome KerasTensor :=
  layer ← on (Conv2D num_filters kernel_size padding) [input];
  layer ← on BatchNormalization [layer];
  layer ← on (Activation "relu") [layer];
  Ok layer.

Definition _create_model : Outcome KModel :=
  input_layer ← Input [50; 50; 2];
  (* Down-sampling *)
  conv1 ← _one_cnn_layer input_layer 64 3 "VALID";
  conv1 ← _one_cnn_layer conv1 64 3 "SAME";
  conv1 ← _one_cnn_layer conv1 64 3 "SAME";
  pool1 ← on (MaxPooling2D 2) [conv1];
  conv2 ← _one_cnn_layer pool1 128 3 "SAME";
  conv2 ← _one_cnn_layer conv2 128 3 "SAME";
  conv2 ← _one_cnn_layer conv2 128 3 "SAME";
  pool2 ← on (MaxPooling2D 2) [conv2];
  conv3 ← _one_cnn_layer pool2 256 3 "SAME";
  conv3 ← _one_cnn_layer conv3 256 3 "SAME";
  conv3 ← _one_cnn_layer conv3 256 3 "SAME";
  pool3 ← on (MaxPooling2D 2) [conv3];
  conv4 ← _one_cnn_layer pool3 512 3 "SAME";
  conv4 ← _one_cnn_layer conv4 512 3 "SAME";
  conv4 ← _one_cnn_layer conv4 512 3 "SAME";
  (* Up-sampling *)
  up5 ← on (UpSampling2D (2, 2)) [conv4];
  merge5 ← on Concatenate [conv3; up5];
  conv5 ← _one_cnn_layer merge5 256 2 "SAME";
  conv5 ← _one_cnn_layer conv5 256 3 "SAME";
  conv5 ← _one_cnn_layer conv5 256 3 "SAME";
  up6 ← on (UpSampling2D (2, 2)) [conv5];
  merge6 ← on Concatenate [conv2; up6];
  conv6 ← _one_cnn_layer merge6 128 2 "SAME";
  conv6 ← _one_cnn_layer conv6 128 3 "SAME";
  conv6 ← _one_cnn_layer conv6 128 3 "SAME";
  up7 ← on (UpSampling2D (2, 2)) [conv6];
  merge7 ← on Concatenate [conv1; up7];
  conv7 ← _one_cnn_layer merge7 64 2 "SAME";
  conv7 ← _one_cnn_layer conv7 64 3 "SAME";
  conv7 ← _one_cnn_layer conv7 64 3 "SAME";
  conv8 ← on (Conv2DTranspose 1 3 "VALID") [conv7];
  merge9 ← on Concatenate [input_layer; conv8];
  (* Final layer *)
  conv10 ← on (Conv2D 1 1 "valid") [merge9];
  conv10 ← on (Activation "relu") [conv10];
  Ok (Model input_layer conv10).

(** ** The Python run time the class relies on *)

Module Py.

(** [Config.config], a mapping of mappings. *)
Abbreviation Config := (gmap string (gmap string PyVal)).

(** [config[section][key]]. *)
Definition getitem2 (config : Config) (section key : string) : Outcome PyVal :=
  match config !! section with
  | None => Raise (KeyError section)
  | Some d =>
      match d !! key with
      | None => Raise (KeyError key)
      | Some v => Ok v
      end
  end.

(** Truth value of an object. *)
Definition truthy (v : PyVal) : bool :=
  match v with
  | VNone => false
  | VInt z => negb (z =? 0)%Z
  | VFloat q => negb (Qeq_bool q 0)
  | VStr s => negb (String.eqb s "")
  | VSpecial NegZero => false
  | VSpecial _ => true
  end.

(** Rounds a non-negative rational to the nearest integer, ties to even. *)
Definition round_half_even (q : Q) : Z :=
  let a := Qnum q in
  let b := Z.pos (Qden q) in
  let f := (a / b)%Z in
  match (2 * (a mod b) ?= b)%Z with
  | Lt => f
  | Gt => (f + 1)%Z
  | Eq => if Z.even f then f else (f + 1)%Z
  end.

(** *** Floats (IEEE 754 binary64)

    A finite double is [k * 2^i / 2^1074] for integers [|k| < 2^53] and
    [0 <= i <= 2045]: 53 significant bits, on the grid of the smallest
    subnormal [2^-1074]. *)

Definition is_double (d : Q) : Prop :=
  exists k i : Z,
    (Z.abs k < 2 ^ 53)%Z /\ (0 <= i <= 2045)%Z /\ (d == k * 2 ^ i # 2 ^ 1074)%Q.

(** [floor (log2 (a / b))] for positive [a] and [b]. *)
Definition exponent (a b : Z) : Z :=
  let e := (Z.log2 a - Z.log2 b)%Z in
  let below :=
    if (0 <=? e)%Z then (a <? b * 2 ^ e)%Z else (a * 2 ^ (- e) <? b)%Z in
  if below then (e - 1)%Z else e.

(** The exponent of the last significant bit of the double nearest to
    [a / b]: 52 places below the leading bit, but not below [2^-1074]. *)
Definition quantum (a b : Z) : Z := Z.max (exponent a b - 52) (-1074).

(** [a / b] in units of its quantum, rounded to an integer. *)
Definition significand (a b : Z) : Z :=
  round_half_even (a * 2 ^ 1074 # Z.to_pos (b * 2 ^ (quantum a b + 1074))).

(** The double nearest to [a / b] for [0 <= a] and [0 < b], ties to even;
    [None] when that is beyond the largest double. *)
Definition nearest (a b : Z) : option Q :=
  if (a =? 0)%Z then Some 0%Q
  else
    let m := significand a b in
    let i := (quantum a b + 1074)%Z in
    if (2 ^ 2098 <=? m * 2 ^ i)%Z then None
    else Some (Qred (m * 2 ^ i # 2 ^ 1074)).

(** A float as the operators see it. *)
Inductive Float :=
| Num (q : Q)
| Spec (s : Special).

Definition of_float (x : Float) : PyVal :=
  match x with
  | Num q => VFloat q
  | Spec s => VSpecial s
  end.

(** The number a float stands for, when it is finite. *)
Definition float_value (v : PyVal) : option Q :=
  match v with
  | VFloat q => Some q
  | VSpecial NegZero => Some 0%Q
  | _ => None
  end.

(** The sign bit. *)
Definition negative (x : Float) : bool :=
  match x with
  | Num q => negb (Qle_bool 0 q)
  | Spec NegZero => true
  | Spec (Inf s) => s
  | Spec NaN => false
  end.

Definition is_zero (x : Float) : bool :=
  match x with
  | Num q => Qeq_bool q 0
  | Spec NegZero => true
  | Spec _ => false
  end.

(** The value of a finite float. *)
Definition value (x : Float) : Q :=
  match x with
  | Num q => q
  | Spec _ => 0
  end.

Definition zero (sign : bool) : Float :=
  if sign then Spec NegZero else Num 0.

(** The float of magnitude [r] with the given sign bit. *)
Definition signed (sign : bool) (r : Q) : Float :=
  if Qeq_bool r 0 then zero sign
  else Num (if sign then (- r)%Q else r).

(** [a / b] with the given sign, rounded; an infinity beyond the largest
    double. *)
Definition round (sign : bool) (a b : Z) : Float :=
  match nearest a b with
  | None => Spec (Inf sign)
  | Some r => signed sign r
  end.

(** [float(n)] *)
Definition float_of_int (n : Z) : Outcome Float :=
  match nearest (Z.abs n) 1 with
  | None => Raise (OverflowError "int too large to convert to float")
  | Some r => Ok (signed (n <? 0)%Z r)
  end.

(** Float addition. *)
Definition float_add (x y : Float) : Float :=
  match x, y with
  | Spec NaN, _ | _, Spec NaN => Spec NaN
  | Spec (Inf s), Spec (Inf t) => if Bool.eqb s t then Spec (Inf s) else Spec NaN
  | Spec (Inf s), _ | _, Spec (Inf s) => Spec (Inf s)
  | _, _ =>
      let q := (value x + value y)%Q in
      if Qeq_bool q 0 then zero (negative x && negative y)
      else round (Qnum q <? 0)%Z (Z.abs (Qnum q)) (Z.pos (Qden q))
  end.

(** Float division by a divisor that is not zero. *)
Definition float_div (x y : Float) : Float :=
  match x, y with
  | Spec NaN, _ | _, Spec NaN => Spec NaN
  | Spec (Inf _), Spec (Inf _) => Spec NaN
  | Spec (Inf s), _ => Spec (Inf (xorb s (negative y)))
  | _, Spec (Inf s) => zero (xorb (negative x) s)
  | _, _ =>
      round (xorb (negative x) (negative y))
            (Z.abs (Qnum (value x)) * Z.pos (Qden (value y)))
            (Z.pos (Qden (value x)) * Z.abs (Qnum (value y)))
  end.

(** The operand of a float operator: a float, or an integer converted. *)
Definition to_float (v : PyVal) : Outcome Float :=
  match v with
  | VInt n => float_of_int n
  | VFloat q => Ok (Num q)
  | VSpecial s => Ok (Spec s)
  | _ => Raise (TypeError "must be real number")
  end.

Definition is_number (v : PyVal) : bool :=
  match v with
  | VInt _ | VFloat _ | VSpecial _ => true
  | _ => false
  end.

(** [a + b]. *)
Definition add (a b : PyVal) : Outcome PyVal :=
  match a, b with
  | VInt x, VInt y => Ok (VInt (x + y))
  | VStr x, VStr y => Ok (VStr (x ++ y))
  | _, _ =>
      if (is_number a && is_number b)%bool then
        x ← to_float a; y ← to_float b; Ok (of_float (float_add x y))
      else Raise (TypeError "unsupported operand type(s) for +")
  end.

(** [x / y] for two integers: the correctly rounded quotient. *)
Definition int_truediv (x y : Z) : Outcome PyVal :=
  if (y =? 0)%Z then Raise (ZeroDivisionError "division by zero")
  else
    match nearest (Z.abs x) (Z.abs y) with
    | None => Raise (OverflowError "integer division result too large for a float")
    | Some r => Ok (of_float (signed (xorb (x <? 0)%Z (y <? 0)%Z) r))
    end.

(** [a / b], true division: the quotient is a float also when both
    operands are integers. *)
Definition truediv (a b : PyVal) : Outcome PyVal :=
  match a, b with
  | VInt x, VInt y => int_truediv x y
  | _, _ =>
      if (is_number a && is_number b)%bool then
        x ← to_float a;
        y ← to_float b;
        if is_zero y then Raise (ZeroDivisionError "float division by zero")
        else Ok (of_float (float_div x y))
      else Raise (TypeError "unsupported operand type(s) for /")
  end.

(** *** [os.path.join] (posixpath) *)

Definition sep : string := "/".

Fixpoint endswith_sep (s : string) : bool :=
  match s with
  | EmptyString => false
  | String c EmptyString => Ascii.eqb c "/"
  | String _ r => endswith_sep r
  end.

Definition startswith_sep (s : string) : bool := String.prefix sep s.

Definition fspath (v : PyVal) : Outcome string :=
  match v with
  | VStr s => Ok s
  | _ => Raise (TypeError "expected str, bytes or os.PathLike object")
  end.

Fixpoint join_loop (path : string) (p : list PyVal) : Outcome string :=
  match p with
  | [] => Ok path
  | v :: rest =>
      b ← fspath v;
      if startswith_sep b then join_loop b rest
      else if (String.eqb path "" || endswith_sep path)%bool then join_loop (path ++ b) rest
      else join_loop (path ++ sep ++ b) rest
  end.

Definition os_path_join (a : PyVal) (p : list PyVal) : Outcome string :=
  a ← fspath a; join_loop a p.

(** *** [str.format] *)

(** A template is literal text and replacement fields [{name:spec}];
    doubled braces stand for themselves. *)
Inductive Piece :=
| Lit (s : string)
| Field (name spec : string).

Inductive Scan :=
| InLit (acc : string)
| InName (acc : string)
| InSpec (name acc : string).

Definition snoc (s : string) (c : ascii) : string := s ++ String c EmptyString.

Definition lit (acc : string) (rest : list Piece) : list Piece :=
  if String.eqb acc "" then rest else Lit acc :: rest.

Fixpoint scan (st : Scan) (s : string) : Outcome (list Piece) :=
  match s with
  | EmptyString =>
      match st with
      | InLit acc => Ok (lit acc [])
      | _ => Raise (ValueError "expected '}' before end of string")
      end
  | String c r =>
      match st with
      | InLit acc =>
          if Ascii.eqb c "{" then
            match r with
            | String "{"%char r' => scan (InLit (snoc acc "{")) r'
            | _ => ps ← scan (InName "") r; Ok (lit acc ps)
            end
          else if Ascii.eqb c "}" then
            match r with
            | String "}"%char r' => scan (InLit (snoc acc "}")) r'
            | _ => Raise (ValueError "Single '}' encountered in format string")
            end
          else scan (InLit (snoc acc c)) r
      | InName acc =>
          if Ascii.eqb c ":" then scan (InSpec acc "") r
          else if Ascii.eqb c "}" then ps ← scan (InLit "") r; Ok (Field acc "" :: ps)
          else scan (InName (snoc acc c)) r
      | InSpec name acc =>
          if Ascii.eqb c "}" then ps ← scan (InLit "") r; Ok (Field name acc :: ps)
          else scan (InSpec name (snoc acc c)) r
      end
  end.

Definition parse_template (s : string) : Outcome (list Piece) := scan (InLit "") s.

(** The part of the format-spec mini-language used for numbers:
    [0][width][.precision][type]. *)
Record FormatSpec := {
  zero_pad : bool;
  width : nat;
  precision : option nat;
  type : option ascii
}.

Definition digit_of (c : ascii) : option nat :=
  let n := nat_of_ascii c in
  if (Nat.leb 48 n && Nat.leb n 57)%bool then Some (n - 48)%nat else None.

(** Reads a run of digits; returns its value (if any digit) and the rest. *)
Fixpoint read_nat (acc : option nat) (s : string) : option nat * string :=
  match s with
  | EmptyString => (acc, s)
  | String c r =>
      match digit_of c with
      | Some d => read_nat (Some (10 * default 0%nat acc + d)%nat) r
      | None => (acc, s)
      end
  end.

Definition parse_spec (s : string) : Outcome FormatSpec :=
  let '(z, s1) :=
    match s with
    | String "0"%char r => (true, r)
    | _ => (false, s)
    end in
  let '(w, s2) := read_nat None s1 in
  let '(p, s3) :=
    match s2 with
    | String "."%char r => read_nat None r
    | _ => (None, s2)
    end in
  let mk t := Ok {| zero_pad := z; width := default 0%nat w; precision := p; type := t |} in
  match s2, p with
  | String "."%char _, None => Raise (ValueError "Format specifier missing precision")
  | _, _ =>
      match s3 with
      | EmptyString => mk None
      | String c EmptyString => mk (Some c)
      | _ => Raise (ValueError "Invalid format specifier")
      end
  end.

Definition repeat_char (c : ascii) (n : nat) : string :=
  Nat.iter n (String c) EmptyString.

Definition digits (n : N) : string := NilZero.string_of_uint (N.to_uint n).

(** Right-aligns [sign ++ body] in [width]; zero padding goes between the
    sign and the digits. *)
Definition pad (f : FormatSpec) (sign body : string) : string :=
  let missing := (width f - (String.length sign + String.length body))%nat in
  if zero_pad f then sign ++ repeat_char "0" missing ++ body
  else repeat_char " " missing ++ sign ++ body.

(** Fixed-point text of the magnitude of [q] with [p] decimals. *)
Definition fixed (q : Q) (p : nat) : string :=
  let scale := (10 ^ Z.of_nat p)%Z in
  let n := round_half_even (Qabs q * inject_Z scale) in
  let int_part := digits (Z.to_N (n / scale)) in
  let frac := digits (Z.to_N (n mod scale)) in
  match p with
  | O => int_part
  | _ => int_part ++ "." ++ repeat_char "0" (p - String.length frac) ++ frac
  end.

Definition format_float (f : FormatSpec) (q : Q) : string :=
  let sign := if Qle_bool 0 q then "" else "-" in
  pad f sign (fixed q (default 6%nat (precision f))).

Definition format_value (v : PyVal) (spec : string) : Outcome string :=
  f ← parse_spec spec;
  match v, type f with
  | VInt z, (None | Some "d"%char) =>
      match precision f with
      | Some _ => Raise (ValueError "Precision not allowed in integer format specifier")
      | None => Ok (pad f (if (z <? 0)%Z then "-" else "") (digits (Z.abs_N z)))
      end
  | VInt z, Some "f"%char => Ok (format_float f (inject_Z z))
  | VFloat q, Some "f"%char => Ok (format_float f q)
  | VSpecial NegZero, Some "f"%char =>
      Ok (pad f "-" (fixed 0 (default 6%nat (precision f))))
  | VSpecial (Inf s), Some "f"%char => Ok (pad f (if s then "-" else "") "inf")
  | VSpecial NaN, Some "f"%char => Ok (pad f "" "nan")
  | VStr s, None =>
      if String.eqb spec "" then Ok s
      else Raise (ValueError "unsupported format specifier for str")
  | VNone, None =>
      if String.eqb spec "" then Ok "None"
      else Raise (TypeError "unsupported format string passed to NoneType.__format__")
  | _, _ => Raise (ValueError "Unknown format code for object")
  end.

Fixpoint lookup_kw (kwargs : list (string * PyVal)) (name : string) : Outcome PyVal :=
  match kwargs with
  | [] => Raise (KeyError name)
  | (k, v) :: rest => if String.eqb k name then Ok v else lookup_kw rest name
  end.

Fixpoint render (ps : list Piece) (kwargs : list (string * PyVal)) : Outcome string :=
  match ps with
  | [] => Ok ""
  | Lit s :: rest => r ← render rest kwargs; Ok (s ++ r)
  | Field name spec :: rest =>
      v ← lookup_kw kwargs name;
      t ← format_value v spec;
      r ← render rest kwargs;
      Ok (t ++ r)
  end.

(** [template.format] applied to keyword arguments. *)
Definition format (template : string) (kwargs : list (string * PyVal)) : Outcome string :=
  ps ← parse_template template; render ps kwargs.

End Py.

(** ** Files, [open] and [pickle.dump] *)

Module IO.

(** What [Model.fit] returns: per metric, one value per epoch. *)
Record History := {
  epoch : list Z;
  history : list (string * list Q)
}.

(** What this program can put in a file. *)
Inductive Chunk :=
| Pickled (h : History)
| SavedModel (m : KModel)
| SavedWeights (w : N).

(** The file system is flat: a path has a content or is absent.
    Directories and permissions are left out. *)
Abbreviation FS := (gmap string (list Chunk)).

Inductive ModeKind := MRead | MWrite | MAppend | MExclusive.

Record OpenMode := {
  kind : ModeKind;
  binary : bool;
  updating : bool
}.

(** [open(path)] is [open(path, "r")]. *)
Definition default_mode : OpenMode :=
  {| kind := MRead; binary := false; updating := false |}.
(** ["wb"] *)
Definition mode_wb : OpenMode :=
  {| kind := MWrite; binary := true; updating := false |}.

Record FileHandle := { fh_path : string; fh_mode : OpenMode }.

Definition writable (f : FileHandle) : bool :=
  match kind (fh_mode f) with
  | MRead => updating (fh_mode f)
  | _ => true
  end.

Definition open (path : string) (mode : OpenMode) (fs : FS) : Outcome FileHandle * FS :=
  let f := {| fh_path := path; fh_mode := mode |} in
  match kind mode, fs !! path with
  | MRead, None => (Raise (FileNotFoundError path), fs)
  | MRead, Some _ => (Ok f, fs)
  | MWrite, _ => (Ok f, <[path := []]> fs)
  | MAppend, None => (Ok f, <[path := []]> fs)
  | MAppend, Some _ => (Ok f, fs)
  | MExclusive, None => (Ok f, <[path := []]> fs)
  | MExclusive, Some _ => (Raise (FileExistsError path), fs)
  end.

(** The objects handed to [pickle.dump] in this program. *)
Inductive PyObj :=
| OFile (f : FileHandle)
| OHistory (h : History).

Definition write (f : FileHandle) (c : Chunk) (fs : FS) : Outcome unit * FS :=
  if negb (binary (fh_mode f)) then
    (Raise (TypeError "write() argument must be str, not bytes"), fs)
  else if negb (writable f) then (Raise (UnsupportedOperation "write"), fs)
  else (Ok tt, <[fh_path f := (default [] (fs !! fh_path f) ++ [c])%list]> fs).

(** [pickle.dump(obj, file)]: [file] must have a [write] method, which a
    [History] has not; an open file cannot be pickled. *)
Definition pickle_dump (obj file : PyObj) (fs : FS) : Outcome unit * FS :=
  match file with
  | OHistory _ => (Raise (TypeError "file must have a 'write' attribute"), fs)
  | OFile f =>
      match obj with
      | OFile _ => (Raise (TypeError "cannot pickle '_io.TextIOWrapper' object"), fs)
      | OHistory h => write f (Pickled h) fs
      end
  end.

End IO.
Import IO.

(** ** The callbacks *)

Module Callbacks.

Inductive MonitorOp := Less | Greater.

(** A float or an infinity, for the best value seen so far. *)
Inductive Best := NegInf | Finite (q : Q) | PosInf.

Record ModelCheckpoint := {
  filepath : string;
  monitor : string;
  verbose : Z;
  save_best_only : bool;
  save_weights_only : bool;
  save_freq : PyVal;
  period : Z;
  monitor_op : MonitorOp;
  best : Best;
  epochs_since_last_save : Z
}.

Fixpoint contains (needle hay : string) : bool :=
  (String.prefix needle hay ||
   match hay with
   | EmptyString => false
   | String _ r => contains needle r
   end)%bool.

(** [save_freq == 'epoch'] and [isinstance(save_freq, int)]. *)
Definition is_epoch (v : PyVal) : bool :=
  match v with VStr s => String.eqb s "epoch" | _ => false end.
Definition is_int (v : PyVal) : bool :=
  match v with VInt _ => true | _ => false end.

(** [ModelCheckpoint.__init__]; [period] is the deprecated keyword. *)
Definition ModelCheckpoint_init (filepath monitor : string) (verbose : Z)
    (save_best_only save_weights_only : bool) (mode : string)
    (save_freq : PyVal) (period : option Z) : Outcome ModelCheckpoint :=
  let '(op, b) :=
    if String.eqb mode "min" then (Less, PosInf)
    else if String.eqb mode "max" then (Greater, NegInf)
    else if (contains "acc" monitor || String.prefix "fmeasure" monitor)%bool
         then (Greater, NegInf)
    else (Less, PosInf) in
  if (is_epoch save_freq || is_int save_freq)%bool then
    Ok {| filepath := filepath; monitor := monitor; verbose := verbose;
          save_best_only := save_best_only;
          save_weights_only := save_weights_only;
          save_freq := save_freq; period := default 1 period;
          monitor_op := op; best := b; epochs_since_last_save := 0 |}
  else Raise (ValueError "Unrecognized save_freq").

(** [x < y] on floats and infinities. *)
Definition below (x y : Best) : bool :=
  match x, y with
  | NegInf, NegInf => false
  | NegInf, _ => true
  | Finite _, NegInf => false
  | Finite a, Finite b => negb (Qle_bool b a)
  | Finite _, PosInf => true
  | PosInf, _ => false
  end.

(** [monitor_op(current, best)]: [np.less] or [np.greater]. *)
Definition improves (op : MonitorOp) (current b : Best) : bool :=
  match op with
  | Less => below current b
  | Greater => below b current
  end.

Definition with_state (cb : ModelCheckpoint) (b : Best) (since : Z) : ModelCheckpoint :=
  {| filepath := filepath cb; monitor := monitor cb; verbose := verbose cb;
     save_best_only := save_best_only cb;
     save_weights_only := save_weights_only cb;
     save_freq := save_freq cb; period := period cb;
     monitor_op := monitor_op cb; best := b; epochs_since_last_save := since |}.

(** [model.save(path)] or [model.save_weights(path)], overwriting. *)
Definition save (cb : ModelCheckpoint) (m : KModel) (path : string) (fs : FS) : FS :=
  if save_weights_only cb then <[path := [SavedWeights (weights m)]]> fs
  else <[path := [SavedModel m]]> fs.

(** The monitored value as a number: [None] when it is none, [Some None]
    for [nan], which compares false with everything. *)
Definition number (v : PyVal) : option (option Best) :=
  match v with
  | VInt z => Some (Some (Finite (inject_Z z)))
  | VFloat q => Some (Some (Finite q))
  | VSpecial NegZero => Some (Some (Finite 0))
  | VSpecial (Inf true) => Some (Some NegInf)
  | VSpecial (Inf false) => Some (Some PosInf)
  | VSpecial NaN => Some None
  | _ => None
  end.

(** [ModelCheckpoint.on_epoch_end(epoch, logs)] for the model [m] being
    trained: the callback after the call, and the file system. *)
Definition on_epoch_end (cb : ModelCheckpoint) (m : KModel) (epoch : Z)
    (logs : list (string * PyVal)) (fs : FS) : Outcome ModelCheckpoint * FS :=
  let since := epochs_since_last_save cb + 1 in
  if is_epoch (save_freq cb) then
      if (since <? period cb)%Z then (Ok (with_state cb (best cb) since), fs)
      else
        match Py.format (filepath cb) (("epoch", VInt (epoch + 1)) :: logs) with
        | Raise e => (Raise e, fs)
        | Ok path =>
            if save_best_only cb then
              match Py.lookup_kw logs (monitor cb) with
              | Raise _ => (Ok (with_state cb (best cb) 0), fs)
              | Ok current =>
                  match number current with
                  | None => (Raise (TypeError "monitored value is not a number"), fs)
                  | Some None => (Ok (with_state cb (best cb) 0), fs)
                  | Some (Some c) =>
                      if improves (monitor_op cb) c (best cb)
                      then (Ok (with_state cb c 0), save cb m path fs)
                      else (Ok (with_state cb (best cb) 0), fs)
                  end
              end
            else (Ok (with_state cb (best cb) 0), save cb m path fs)
        end
  else (Ok (with_state cb (best cb) since), fs).

Record TensorBoard := { log_dir : string; histogram_freq : Z }.

End Callbacks.
Import Callbacks.

(** ** The wrapper object and its world *)

(** An array: its shape and an opaque identity for its contents. *)
Record ndarray := { nd_shape : list Z; nd_data : N }.

(** [len(x)] for an attribute that holds an array or [None]. *)
Definition len (x : option ndarray) : Outcome Z :=
  match x with
  | None => Raise (TypeError "object of type 'NoneType' has no len()")
  | Some a =>
      match nd_shape a with
      | [] => Raise (TypeError "len() of unsized object")
      | n :: _ => Ok n
      end
  end.

Record ImageDataGenerator := { validation_split : PyVal }.

(** [ImageDataGenerator(validation_split=v)]: a truthy split must lie
    strictly between 0 and 1. *)
Definition ImageDataGenerator_init (v : PyVal) : Outcome ImageDataGenerator :=
  if Py.truthy v then
    match v with
    | VFloat q =>
        if (negb (Qle_bool q 0) && negb (Qle_bool 1 q))%bool
        then Ok {| validation_split := v |}
        else Raise (ValueError "`validation_split` must be strictly between 0 and 1")
    | VInt _ | VSpecial _ =>
        Raise (ValueError "`validation_split` must be strictly between 0 and 1")
    | _ => Raise (TypeError "'<' not supported between instances of 'int' and 'str'")
    end
  else Ok {| validation_split := v |}.

(** What [data_generator.flow(x, y, batch_size=..., subset=...)] is built from. *)
Record Iterator := {
  it_generator : ImageDataGenerator;
  it_x : option ndarray;
  it_y : option ndarray;
  it_batch_size : PyVal;
  it_subset : string
}.

Inductive Callback :=
| CbNone
| CbCheckpoint (cb : ModelCheckpoint)
| CbTensorBoard (cb : TensorBoard).

(** The arguments of [Model.fit] as [train] passes them. *)
Record FitArgs := {
  fit_x : Iterator;
  fit_validation_data : Iterator;
  fit_steps_per_epoch : PyVal;
  fit_shuffle : bool;
  fit_epochs : PyVal;
  fit_callbacks : list Callback
}.

Record UNet := {
  train_input : option ndarray;
  train_output : option ndarray;
  test_input : option ndarray;
  test_output : option ndarray;
  data_generator : ImageDataGenerator;
  model_path : PyVal;
  experiment_name : PyVal;
  model : option KModel;
  checkpoint_callback : option ModelCheckpoint;
  tensorboard_callback : option TensorBoard;
  epochs : PyVal;
  train_batch_size : PyVal;
  val_batch_size : PyVal
}.

Definition set_data (a b c d : option ndarray) (u : UNet) : UNet :=
  {| train_input := a; train_output := b; test_input := c; test_output := d;
     data_generator := data_generator u; model_path := model_path u;
     experiment_name := experiment_name u; model := model u;
     checkpoint_callback := checkpoint_callback u;
     tensorboard_callback := tensorboard_callback u; epochs := epochs u;
     train_batch_size := train_batch_size u; val_batch_size := val_batch_size u |}.

Definition set_model (m : option KModel) (u : UNet) : UNet :=
  {| train_input := train_input u; train_output := train_output u;
     test_input := test_input u; test_output := test_output u;
     data_generator := data_generator u; model_path := model_path u;
     experiment_name := experiment_name u; model := m;
     checkpoint_callback := checkpoint_callback u;
     tensorboard_callback := tensorboard_callback u; epochs := epochs u;
     train_batch_size := train_batch_size u; val_batch_size := val_batch_size u |}.

Definition set_checkpoint_callback (cb : option ModelCheckpoint) (u : UNet) : UNet :=
  {| train_input := train_input u; train_output := train_output u;
     test_input := test_input u; test_output := test_output u;
     data_generator := data_generator u; model_path := model_path u;
     experiment_name := experiment_name u; model := model u;
     checkpoint_callback := cb;
     tensorboard_callback := tensorboard_callback u; epochs := epochs u;
     train_batch_size := train_batch_size u; val_batch_size := val_batch_size u |}.

Definition set_tensorboard_callback (cb : option TensorBoard) (u : UNet) : UNet :=
  {| train_input := train_input u; train_output := train_output u;
     test_input := test_input u; test_output := test_output u;
     data_generator := data_generator u; model_path := model_path u;
     experiment_name := experiment_name u; model := model u;
     checkpoint_callback := checkpoint_callback u;
     tensorboard_callback := cb; epochs := epochs u;
     train_batch_size := train_batch_size u; val_batch_size := val_batch_size u |}.

(** Calls that leave the class: to the framework and to the repository's
    collaborators. *)
Inductive Event :=
| EvLoadData (show_data : bool)
| EvFlow (it : Iterator)
| EvCreateFileWriter (log_dir : string)
| EvFit (m : KModel) (args : FitArgs)
| EvPredict (m : KModel) (x : option ndarray)
| EvPlot (expected input : option ndarray) (predicted : ndarray).

(** Everything outside the object: the global [Config.config], the files,
    the clock (already formatted by [strftime]), the default summary
    writer, and the calls made so far.  [now] is the time at the moment
    of the call under study; no method advances it. *)
Record World := {
  config : Py.Config;
  fs : FS;
  now : string;
  default_writer : option string;
  events : list Event
}.

Definition set_config (c : Py.Config) (w : World) : World :=
  {| config := c; fs := fs w; now := now w;
     default_writer := default_writer w; events := events w |}.

Definition set_fs (f : FS) (w : World) : World :=
  {| config := config w; fs := f; now := now w;
     default_writer := default_writer w; events := events w |}.

Definition set_default_writer (d : option string) (w : World) : World :=
  {| config := config w; fs := fs w; now := now w;
     default_writer := d; events := events w |}.

Definition log_event (e : Event) (w : World) : World :=
  {| config := config w; fs := fs w; now := now w;
     default_writer := default_writer w; events := (events w ++ [e])%list |}.

(** The code behind those calls.  None of it is in [unet.py]; it sees the
    files but not [Config.config]. *)
Class Framework := {
  DataLoader_main : bool -> FS -> Outcome (ndarray * ndarray * ndarray * ndarray) * FS;
  NumpyArrayIterator_check : Iterator -> Outcome unit;
  Model_fit : KModel -> FitArgs -> FS -> Outcome History * KModel * FS;
  Model_predict : KModel -> option ndarray -> Outcome ndarray;
  PlotUtils_plot_results :
    option ndarray -> option ndarray -> ndarray -> FS -> Outcome PyVal * FS
}.

(** ** Methods as state transformers that may raise *)

Definition M (A : Type) : Type := UNet -> World -> Outcome A * UNet * World.

#[global] Instance M_ret : MRet M := fun _ a u w => (Ok a, u, w).
#[global] Instance M_bind : MBind M := fun _ _ f c u w =>
  match c u w with
  | (Ok a, u', w') => f a u' w'
  | (Raise e, u', w') => (Raise e, u', w')
  end.

Definition raise {A} (e : Exn) : M A := fun u w => (Raise e, u, w).
Definition lift {A} (o : Outcome A) : M A := fun u w => (o, u, w).
Definition self : M UNet := fun u w => (Ok u, u, w).
(** Reading the global configuration, and the clock. *)
Definition read_config : M Py.Config := fun u w => (Ok (config w), u, w).
Definition read_clock : M string := fun u w => (Ok (now w), u, w).
Definition assign (f : UNet -> UNet) : M unit := fun u w => (Ok tt, f u, w).
Definition effect (f : World -> World) : M unit := fun u w => (Ok tt, u, f w).
(** A call that works on the files. *)
Definition on_files {A} (f : FS -> Outcome A * FS) : M A := fun u w =>
  let '(r, fs') := f (fs w) in (r, u, set_fs fs' w).

(** ** The methods of [UNet] *)

(** [UNet.__init__]: the object built from the configuration in force.
    ([BaseModel.__init__] is outside [unet.py] and is taken to set none of
    these fields.) *)
Definition __init__ (w : World) : Outcome UNet :=
  let cfg := config w in
  split ← Py.getitem2 cfg "train" "validation_split";
  generator ← ImageDataGenerator_init split;
  path ← Py.getitem2 cfg "model" "model_path";
  name ← Py.getitem2 cfg "model" "experiment_name";
  n_epochs ← Py.getitem2 cfg "train" "epochs";
  train_bs ← Py.getitem2 cfg "train" "train_batch_size";
  val_bs ← Py.getitem2 cfg "train" "val_batch_size";
  Ok {| train_input := None; train_output := None;
        test_input := None; test_output := None;
        data_generator := generator;
        model_path := path; experiment_name := name;
        model := None; checkpoint_callback := None; tensorboard_callback := None;
        epochs := n_epochs; train_batch_size := train_bs; val_batch_size := val_bs |}.

Definition checkpoint_template : string :=
  "weights-{epoch:02d}-{loss:.4f}-{val_loss:.4f}".

Definition checkpoint : M PyVal :=
  u ← self;
  filepath ← lift (Py.os_path_join (model_path u)
                     [experiment_name u; VStr "checkpoints"; VStr checkpoint_template]);
  cb ← lift (ModelCheckpoint_init filepath "val_loss" 0 true false "auto"
               (VStr "epoch") (Some 1));
  assign (set_checkpoint_callback (Some cb));;
  mret VNone.

(** [UNet.tensorboard].  The file writer is recorded as a call out;
    what it creates on disk is not modelled. *)
Definition tensorboard : M PyVal :=
  u ← self;
  timestamp ← read_clock;
  log_dir ← lift (Py.os_path_join (model_path u)
                    [VStr "logs"; experiment_name u; VStr timestamp]);
  effect (log_event (EvCreateFileWriter log_dir));;
  effect (set_default_writer (Some log_dir));;
  assign (set_tensorboard_callback
            (Some {| log_dir := log_dir; histogram_freq := 1 |}));;
  mret VNone.

(** [UNet.build], after the two local functions.  What
    [ExponentialDecay], [Adam] and [compile] check of the values they
    are given is not modelled: here they take any. *)
Definition build : M PyVal :=
  created ← lift _create_model;
  assign (set_model (Some created));;
  cfg ← read_config;
  initial ← lift (Py.getitem2 cfg "train" "initial_learning_rate");
  steps ← lift (Py.getitem2 cfg "train" "decay_steps");
  rate ← lift (Py.getitem2 cfg "train" "decay_rate");
  let lr_schedule := ExponentialDecay initial steps rate in
  u ← self;
  match model u with
  | None => raise (AttributeError "'NoneType' object has no attribute 'compile'")
  | Some m =>
      assign (set_model
                (Some (compile m (Adam lr_schedule) "mean_absolute_error" ["accuracy"])));;
      mret VNone
  end.

(** Lines 163-164 of [train], with the mode of [open] as a parameter:
    the source leaves it out, which is [default_mode].  The file is closed
    when the block is left, which changes nothing in a flat file system. *)
Definition dump_history (mode : OpenMode) (model_history : History) : M unit :=
  u ← self;
  path ← lift (Py.os_path_join (model_path u)
                 [experiment_name u; VStr "model_history.pkl"]);
  f ← on_files (open path mode);
  on_files (pickle_dump (OFile f) (OHistory model_history)).

Definition as_callback_1 (cb : option ModelCheckpoint) : Callback :=
  match cb with None => CbNone | Some c => CbCheckpoint c end.
Definition as_callback_2 (cb : option TensorBoard) : Callback :=
  match cb with None => CbNone | Some c => CbTensorBoard c end.

Section Methods.
Context `{Framework}.

Definition load_data (show_data : bool) : M PyVal :=
  effect (log_event (EvLoadData show_data));;
  '(a, b, c, d) ← on_files (DataLoader_main show_data);
  assign (set_data (Some a) (Some b) (Some c) (Some d));;
  mret VNone.

(** [data_generator.flow(x, y, batch_size=..., subset=...)]. *)
Definition flow (g : ImageDataGenerator) (x y : option ndarray)
    (batch_size : PyVal) (subset : string) : M Iterator :=
  let it := {| it_generator := g; it_x := x; it_y := y;
               it_batch_size := batch_size; it_subset := subset |} in
  effect (log_event (EvFlow it));;
  lift (NumpyArrayIterator_check it);;
  mret it.

(** The argument list of the [fit] call, evaluated left to right. *)
Definition fit_arguments : M FitArgs :=
  u ← self;
  training ← flow (data_generator u) (train_input u) (train_output u)
               (train_batch_size u) "training";
  validation ← flow (data_generator u) (train_input u) (train_output u)
                 (val_batch_size u) "validation";
  n ← lift (len (train_input u));
  batch ← lift (Py.add (train_batch_size u) (val_batch_size u));
  steps ← lift (Py.truediv (VInt n) batch);
  mret {| fit_x := training; fit_validation_data := validation;
          fit_steps_per_epoch := steps; fit_shuffle := true;
          fit_epochs := epochs u;
          fit_callbacks := [as_callback_1 (checkpoint_callback u);
                            as_callback_2 (tensorboard_callback u)] |}.

(** The framework's fit loop: it trains the model in place and writes
    what its callbacks write.  The state it leaves inside the callback
    objects is not carried back into the fields that hold them. *)
Definition run_fit (m : KModel) (args : FitArgs) : M History := fun u w =>
  let '(r, m', fs') := Model_fit m args (fs w) in
  (r, set_model (Some m') u, set_fs fs' w).

(** [self.model.fit(...)]: the attribute is looked up before the
    arguments are evaluated. *)
Definition fit : M History :=
  u ← self;
  match model u with
  | None => raise (AttributeError "'NoneType' object has no attribute 'fit'")
  | Some m =>
      args ← fit_arguments;
      effect (log_event (EvFit m args));;
      run_fit m args
  end.

Definition train : M PyVal :=
  model_history ← fit;
  dump_history default_mode model_history;;
  mret VNone.

Definition evaluate : M PyVal :=
  u ← self;
  match model u with
  | None => raise (AttributeError "'NoneType' object has no attribute 'predict'")
  | Some m =>
      effect (log_event (EvPredict m (test_input u)));;
      pred_output ← lift (Model_predict m (test_input u));
      effect (log_event (EvPlot (test_output u) (test_input u) pred_output));;
      on_files (PlotUtils_plot_results (test_output u) (test_input u) pred_output);;
      mret VNone
  end.

End Methods.

(** Reading the result of running a method. *)
Definition outcome_of {A} (r : Outcome A * UNet * World) : Outcome A := r.1.1.
Definition self_of {A} (r : Outcome A * UNet * World) : UNet := r.1.2.
Definition world_of {A} (r : Outcome A * UNet * World) : World := r.2.

(** ** The topology in the words of the specification *)

Module Topology.

(** The shape a graph node has, recomputed from the graph alone. *)
Fixpoint infer (n : Node) : Outcome Shape :=
  match n with
  | InputLayer s => Ok s
  | Call l args =>
      ss ← (fix all (ns : list Node) : Outcome (list Shape) :=
              match ns with
              | [] => Ok []
              | a :: r => s ← infer a; ss ← all r; Ok (s :: ss)
              end) args;
      compute_output_shape l ss
  end.

(** One convolution + batch-normalisation + ReLU block. *)
Definition block (filters kernel : Z) (p : Padding) (x : Node) : Node :=
  Call (LActivation "relu")
    [Call LBatchNormalization [Call (LConv2D filters kernel p) [x]]].

(** A stage is three blocks of one width; only the first block's kernel
    and padding vary from stage to stage. *)
Definition stage (filters kernel : Z) (p : Padding) (x : Node) : Node :=
  block filters 3 SAME (block filters 3 SAME (block filters kernel p x)).

Definition pool (x : Node) : Node := Call (LMaxPooling2D 2) [x].
Definition upsample (x : Node) : Node := Call (LUpSampling2D (2, 2)) [x].
Definition concat (a b : Node) : Node := Call LConcatenate [a; b].

(** Down-sampling: after the first stage, each further width adds a
    pooling by 2 and a stage.  The earlier stage outputs are kept with
    their widths, nearest first, for the skip connections. *)
Fixpoint down (widths : list Z) (last : Node * Z) (skips : list (Node * Z))
  : Node * list (Node * Z) :=
  match widths with
  | [] => (last.1, skips)
  | w :: rest => down rest (stage w 3 SAME (pool last.1), w) (last :: skips)
  end.

(** Up-sampling: one stage per skip, of the skip's width, on the
    concatenation of the skip with the upsampled tensor. *)
Fixpoint up (skips : list (Node * Z)) (x : Node) : Node :=
  match skips with
  | [] => x
  | (skip, w) :: rest => up rest (stage w 2 SAME (concat skip (upsample x)))
  end.

(** The transposed convolution that undoes the border lost by the first
    convolution. *)
Definition restore (x : Node) : Node := Call (LConv2DTranspose 1 3 VALID) [x].

Definition head (input x : Node) : Node :=
  Call (LActivation "relu") [Call (LConv2D 1 1 VALID) [concat input (restore x)]].

Definition encoder (input : Node) (first : Z) (widths : list Z) : Node * list (Node * Z) :=
  down widths (stage first 3 VALID input, first) [].

Definition decoder (input : Node) (first : Z) (widths : list Z) : Node :=
  let '(bottom, skips) := encoder input first widths in up skips bottom.

Definition unet (input : Node) : Node :=
  head input (decoder input 64 [128; 256; 512]).

(** The outputs of the down-sampling stages, first stage first. *)
Definition down_outputs (input : Node) : list Node :=
  let '(bottom, skips) := encoder input 64 [128; 256; 512] in
  (rev (map fst skips) ++ [bottom])%list.

End Topology.

(** ** Sequences of calls on one object *)

Inductive Op :=
| OpLoadData (show_data : bool)
| OpBuild
| OpCheckpoint
| OpTensorboard
| OpTrain
| OpEvaluate.

Definition is_build (o : Op) : bool :=
  match o with OpBuild => true | _ => false end.

Section Calls.
Context `{Framework}.

Definition run_op (o : Op) : M PyVal :=
  match o with
  | OpLoadData b => load_data b
  | OpBuild => build
  | OpCheckpoint => checkpoint
  | OpTensorboard => tensorboard
  | OpTrain => train
  | OpEvaluate => evaluate
  end.

(** A caller that makes the calls one after the other and goes on after
    a call that raised. *)
Fixpoint run_ops (ops : list Op) (u : UNet) (w : World) : UNet * World :=
  match ops with
  | [] => (u, w)
  | o :: rest =>
      let r := run_op o u w in run_ops rest (self_of r) (world_of r)
  end.

End Calls.

(** A method does not look at [Config.config] and leaves it alone: under
    any other configuration it does the same, and the configuration is
    still that other one afterwards. *)
Definition ignores_config {A} (c : M A) : Prop :=
  forall (u : UNet) (w : World) (cfg : Py.Config),
    c u (set_config cfg w) =
    (outcome_of (c u w), self_of (c u w), set_config cfg (world_of (c u w))).

(** The three keys [build] looks up. *)
Definition schedule_of (cfg : Py.Config) : list (Outcome PyVal) :=
  [Py.getitem2 cfg "train" "initial_learning_rate";
   Py.getitem2 cfg "train" "decay_steps";
   Py.getitem2 cfg "train" "decay_rate"].

(** The six keys [__init__] looks up. *)
Definition captured_of (cfg : Py.Config) : list (Outcome PyVal) :=
  [Py.getitem2 cfg "train" "validation_split";
   Py.getitem2 cfg "model" "model_path";
   Py.getitem2 cfg "model" "experiment_name";
   Py.getitem2 cfg "train" "epochs";
   Py.getitem2 cfg "train" "train_batch_size";
   Py.getitem2 cfg "train" "val_batch_size"].

Definition learning_rate_of (u : UNet) : option LearningRateSchedule :=
  m ← model u;
  c ← compiled m;
  match optimizer c with Adam s => Some s end.

(** Path components for which [os.path.join] only puts a separator in
    between: not empty, no separator at either end where another
    component follows or precedes. *)
Definition plain_root (s : string) : bool :=
  (negb (String.eqb s "") && negb (Py.endswith_sep s))%bool.
Definition plain_name (s : string) : bool :=
  (negb (String.eqb s "") && negb (Py.startswith_sep s) && negb (Py.endswith_sep s))%bool.

(** No brace in a string, so that [str.format] copies it. *)
Fixpoint brace_free (s : string) : bool :=
  match s with
  | EmptyString => true
  | String c r =>
      (negb (Ascii.eqb c "{") && negb (Ascii.eqb c "}") && brace_free r)%bool
  end.

(** The fields of the object other than the two callbacks. *)
Definition same_data_and_settings (u u' : UNet) : Prop :=
  train_input u' = train_input u /\ train_output u' = train_output u /\
  test_input u' = test_input u /\ test_output u' = test_output u /\
  data_generator u' = data_generator u /\
  model_path u' = model_path u /\ experiment_name u' = experiment_name u /\
  model u' = model u /\
  epochs u' = epochs u /\ train_batch_size u' = train_batch_size u /\
  val_batch_size u' = val_batch_size u.

(** The exception [dump_history] ends with, whatever the mode: the one
    of [os.path.join] or of [open] if they raise, and otherwise the one
    of [pickle.dump] for a stream without [write]. *)
Definition dump_history_error (mode : OpenMode) (u : UNet) (w : World) : Exn :=
  match Py.os_path_join (model_path u) [experiment_name u; VStr "model_history.pkl"] with
  | Raise e => e
  | Ok path =>
      match (open path mode (fs w)).1 with
      | Raise e => e
      | Ok _ => TypeError "file must have a 'write' attribute"
      end
  end.

(** Not in the source, for comparison only: lines 163-164 with the
    arguments of [pickle.dump] in the documented order, the history as
    the object and the file as the stream. *)
Definition dump_history_in_order (mode : OpenMode) (model_history : History) : M unit :=
  u ← self;
  path ← lift (Py.os_path_join (model_path u)
                 [experiment_name u; VStr "model_history.pkl"]);
  f ← on_files (open path mode);
  on_files (pickle_dump (OHistory model_history) (OFile f)).

(** The callback [checkpoint] asks for, as [ModelCheckpoint] sets it up
    for a given path. *)
Definition best_only_callback (path : string) : ModelCheckpoint :=
  {| filepath := path; monitor := "val_loss"; verbose := 0;
     save_best_only := true; save_weights_only := false;
     save_freq := VStr "epoch"; period := 1;
     monitor_op := Less; best := PosInf; epochs_since_last_save := 0 |}.

(** What the fields of the checkpoint template turn a number into:
    [02d] is at least two digits, zero-filled; [.4f] is four decimals. *)
Definition spec_02d : Py.FormatSpec :=
  {| Py.zero_pad := true; Py.width := 2; Py.precision := None;
     Py.type := Some "d"%char |}.
Definition spec_4f : Py.FormatSpec :=
  {| Py.zero_pad := false; Py.width := 0; Py.precision := Some 4%nat;
     Py.type := Some "f"%char |}.

Definition epoch_text (n : Z) : string :=
  Py.pad spec_02d (if (n <? 0)%Z then "-" else "") (Py.digits (Z.abs_N n)).
Definition loss_text (q : Q) : string := Py.format_float spec_4f q.

(** The file a checkpoint goes to at the end of epoch [epoch] (counted
    from 0 by the fit loop, from 1 in the name). *)
Definition checkpoint_file (root name : string) (epoch : Z) (loss val_loss : Q)
  : string :=
  root ++ "/" ++ name ++ "/checkpoints/weights-" ++ epoch_text (epoch + 1) ++ "-"
    ++ loss_text loss ++ "-" ++ loss_text val_loss.

(** The calls that set the object up without touching its data. *)
Definition is_setup (o : Op) : bool :=
  match o with
  | OpBuild | OpCheckpoint | OpTensorboard => true
  | _ => false
  end.

(** The events of building an iterator. *)
Definition is_flow (e : Event) : bool :=
  match e with EvFlow _ => true | _ => false end.

Definition is_str (v : PyVal) : bool :=
  match v with VStr _ => true | _ => false end.

(** The data, the generator, the paths and the hyper-parameters:
    every field but the model and the two callbacks. *)
Definition same_data_and_hyperparameters (u u' : UNet) : Prop :=
  train_input u' = train_input u /\ train_output u' = train_output u /\
  test_input u' = test_input u /\ test_output u' = test_output u /\
  data_generator u' = data_generator u /\
  model_path u' = model_path u /\ experiment_name u' = experiment_name u /\
  epochs u' = epochs u /\ train_batch_size u' = train_batch_size u /\
  val_batch_size u' = val_batch_size u.

(** The graph of a model and how it is compiled, without its weights. *)
Definition architecture (m : KModel) : KerasTensor * KerasTensor * option Compiled :=
  (inputs m, outputs m, compiled m).

(** Values of the kind the schedule is configured with: a positive
    float for the rates, and a positive float or a positive integer of
    at most 31 bits for the number of steps. *)
Definition positive_float (v : PyVal) : bool :=
  match v with
  | VFloat q => negb (Qle_bool q 0)
  | _ => false
  end.

Definition positive_steps (v : PyVal) : bool :=
  match v with
  | VInt z => ((0 <? z) && (z <? 2 ^ 31))%Z
  | VFloat q => negb (Qle_bool q 0)
  | _ => false
  end.

(** ** A small world to run the class in *)

Module Sample.

Definition train_section : gmap string PyVal :=
  <["validation_split" := VFloat (1 # 5)]>
  (<["epochs" := VInt 1]>
  (<["train_batch_size" := VInt 4]>
  (<["val_batch_size" := VInt 2]>
  (<["initial_learning_rate" := VFloat (1 # 1000)]>
  (<["decay_steps" := VInt 1000]>
  (<["decay_rate" := VFloat (9 # 10)]> ∅)))))).

Definition model_section : gmap string PyVal :=
  <["model_path" := VStr "models"]> (<["experiment_name" := VStr "exp1"]> ∅).

Definition configuration : Py.Config :=
  <["train" := train_section]> (<["model" := model_section]> ∅).

(** The same configuration with another decay rate. *)
Definition config_other_rate : Py.Config :=
  <["train" := <["decay_rate" := VFloat (1 # 2)]> train_section]> configuration.

(** The same configuration with an absolute experiment name. *)
Definition config_absolute_name : Py.Config :=
  <["model" := <["experiment_name" := VStr "/exp1"]> model_section]> configuration.

Definition start : World :=
  {| config := configuration; fs := ∅; now := "20200101-120000";
     default_writer := None; events := [] |}.

Definition images (n : Z) (channels : Z) (id : N) : ndarray :=
  {| nd_shape := [n; 50; 50; channels]; nd_data := id |}.

Definition logs : list (string * PyVal) :=
  [("loss", VFloat (1 # 2)); ("accuracy", VFloat (1 # 10));
   ("val_loss", VFloat (1 # 4)); ("val_accuracy", VFloat (1 # 10))].

Definition model_history : History :=
  {| epoch := [0]; history := [("loss", [1 # 2]); ("val_loss", [1 # 4])] |}.

(** One epoch of a fit loop: the checkpoint callbacks run at its end. *)
Fixpoint epoch_end (cbs : list Callback) (m : KModel) (fs : FS) : FS :=
  match cbs with
  | [] => fs
  | CbCheckpoint cb :: rest => epoch_end rest m (on_epoch_end cb m 0 logs fs).2
  | _ :: rest => epoch_end rest m fs
  end.

Definition trained (m : KModel) : KModel :=
  {| inputs := inputs m; outputs := outputs m; compiled := compiled m;
     weights := (weights m + 1)%N |}.

#[local] Instance framework : Framework := {|
  DataLoader_main := fun _ fs =>
    (Ok (images 10 2 1, images 10 1 2, images 3 2 3, images 3 1 4), fs);
  NumpyArrayIterator_check := fun it =>
    match it_x it with
    | Some _ => Ok tt
    | None => Raise (ValueError "Input data in `NumpyArrayIterator` should have rank 4")
    end;
  Model_fit := fun m args fs =>
    (Ok model_history, trained m, epoch_end (fit_callbacks args) (trained m) fs);
  Model_predict := fun m x =>
    match x with
    | Some a => Ok (images (default 0 (head (nd_shape a))) 1 5)
    | None => Raise (ValueError "Failed to find data adapter that can handle input")
    end;
  PlotUtils_plot_results := fun _ _ _ fs => (Ok VNone, fs)
|}.

(** An object with nothing in it, for the branch that is never taken. *)
Definition blank : UNet :=
  {| train_input := None; train_output := None; test_input := None;
     test_output := None; data_generator := {| validation_split := VNone |};
     model_path := VNone; experiment_name := VNone; model := None;
     checkpoint_callback := None; tensorboard_callback := None;
     epochs := VNone; train_batch_size := VNone; val_batch_size := VNone |}.

(** The object after construction, and after the calls that precede
    [train] in the intended order. *)
Definition constructed : UNet :=
  Eval vm_compute in
    match __init__ start with
    | Ok u => u
    | Raise _ => blank
    end.

Definition ready : UNet * World :=
  Eval vm_compute in
    run_ops [OpLoadData false; OpBuild; OpCheckpoint; OpTensorboard] constructed start.

(** Variants of the sample configuration: no decay rate; batch sizes
    that cancel; a number for the experiment name. *)
Definition config_no_rate : Py.Config :=
  <["train" := delete "decay_rate" train_section]> configuration.

Definition config_zero_batch : Py.Config :=
  <["train" := <["val_batch_size" := VInt (-4)]> train_section]> configuration.

Definition config_numeric_name : Py.Config :=
  <["model" := <["experiment_name" := VInt 7]> model_section]> configuration.

(** The object constructed and set up under a configuration. *)
Definition ready_under (cfg : Py.Config) : UNet * World :=
  match __init__ (set_config cfg start) with
  | Ok u =>
      run_ops [OpLoadData false; OpBuild; OpCheckpoint; OpTensorboard] u
        (set_config cfg start)
  | Raise _ => (blank, set_config cfg start)
  end.

Definition ready_zero_batch : UNet * World :=
  Eval vm_compute in ready_under config_zero_batch.

Definition ready_absolute_name : UNet * World :=
  Eval vm_compute in ready_under config_absolute_name.

Definition ready_numeric_name : UNet * World :=
  Eval vm_compute in ready_under config_numeric_name.

(** A built object whose data was never loaded. *)
Definition built_only : UNet * World :=
  Eval vm_compute in run_ops [OpBuild] constructed start.

End Sample.

(** * Properties *)

(** Unfolds the plumbing of [M] and [Outcome]. *)
Ltac run :=
  unfold outcome_of, self_of, world_of, mbind, mret, M_bind, M_ret,
    Outcome_bind, Outcome_ret, raise, lift, self, read_config, read_clock,
    assign, effect, on_files in *;
  cbn [fst snd] in *.

(** ** The graph *)

Lemma all_shapes_map (xs : list KerasTensor) :
  Forall (fun x => Topology.infer (kt_history x) = Ok (kt_shape x)) xs ->
  (fix all (ns : list Node) : Outcome (list Shape) :=
     match ns with
     | [] => Ok []
     | a :: r => s ← Topology.infer a; ss ← all r; Ok (s :: ss)
     end) (map kt_history xs) = Ok (map kt_shape xs).
Proof.
  induction 1 as [|x xs Hx _ IH]; [reflexivity|].
  cbn [map]. rewrite Hx. cbn. rewrite IH. reflexivity.
Qed.

(** The shape a layer call records is the shape the graph determines. *)
Lemma call_infer (l : Layer) (xs : list KerasTensor) (t : KerasTensor) :
  Forall (fun x => Topology.infer (kt_history x) = Ok (kt_shape x)) xs ->
  call l xs = Ok t ->
  Topology.infer (kt_history t) = Ok (kt_shape t).
Proof.
  intros Hxs Hcall. unfold call in Hcall. run.
  destruct (compute_output_shape l (map kt_shape xs)) as [s|e] eqn:Hs;
    [|discriminate].
  injection Hcall as <-. cbn [kt_history kt_shape Topology.infer].
  rewrite (all_shapes_map xs Hxs). cbn. exact Hs.
Qed.

Lemma conv_output_length_same (n k : Z) : conv_output_length n k SAME 1 = n.
Proof. unfold conv_output_length. rewrite Z.div_1_r. lia. Qed.

(** A block with ["SAME"] padding keeps height and width and sets the
    channel count. *)
Lemma one_cnn_layer_same (x : KerasTensor) (h w c filters k : Z) :
  kt_shape x = [h; w; c] -> 0 < h -> 0 < w -> 0 < filters ->
  exists t, _one_cnn_layer x filters k "SAME" = Ok t /\
            kt_shape t = [h; w; filters] /\
            kt_history t = Topology.block filters k SAME (kt_history x).
Proof.
  intros Hx Hh Hw Hf. unfold _one_cnn_layer, on, Conv2D, BatchNormalization,
    Activation, call. run.
  change (normalize_padding "SAME") with (Ok SAME).
  cbn [map]. rewrite Hx. cbn [compute_output_shape conv_output_length].
  rewrite !conv_output_length_same. unfold checked, positive_dims.
  cbn [forallb].
  rewrite (proj2 (Z.ltb_lt 0 h) Hh), (proj2 (Z.ltb_lt 0 w) Hw),
    (proj2 (Z.ltb_lt 0 filters) Hf). cbn.
  eexists. split; [reflexivity|]. split; reflexivity.
Qed.

(** What [_create_model] returns. *)
Lemma create_model_ok :
  exists m, _create_model = Ok m /\
    inputs m = {| kt_shape := [50; 50; 2]; kt_history := InputLayer [50; 50; 2] |} /\
    kt_shape (outputs m) = [50; 50; 1] /\
    kt_history (outputs m) = Topology.unet (InputLayer [50; 50; 2]) /\
    compiled m = None.
Proof.
  eexists. split; [vm_compute; reflexivity|]. repeat split; vm_compute; reflexivity.
Qed.

(** [build] stores the created model, compiled or not: the model it
    leaves in the object has the inputs and outputs of [_create_model]. *)
Lemma build_model (u : UNet) (w : World) :
  exists m0 m, _create_model = Ok m0 /\
    model (self_of (build u w)) = Some m /\
    inputs m = inputs m0 /\ outputs m = outputs m0.
Proof.
  destruct create_model_ok as (m0 & Hm0 & _).
  exists m0. unfold build. rewrite Hm0. run.
  destruct (Py.getitem2 (config w) "train" "initial_learning_rate");
    [|eexists; repeat split; reflexivity].
  destruct (Py.getitem2 (config w) "train" "decay_steps");
    [|eexists; repeat split; reflexivity].
  destruct (Py.getitem2 (config w) "train" "decay_rate");
    [|eexists; repeat split; reflexivity].
  cbn. eexists; repeat split; reflexivity.
Qed.

(** C1. For every object and every world, hence every configuration,
    [build] leaves in the object a model whose input shape is (50, 50, 2)
    and whose output shape is (50, 50, 1). *)
Theorem build_shapes (u : UNet) (w : World) :
  exists m, model (self_of (build u w)) = Some m /\
    input_shape m = [50; 50; 2] /\ output_shape m = [50; 50; 1].
Proof.
  destruct (build_model u w) as (m0 & m & Hm0 & Hm & Hin & Hout).
  destruct create_model_ok as (m1 & Hm1 & Hi & Ho & _).
  rewrite Hm0 in Hm1. injection Hm1 as <-.
  exists m. split; [exact Hm|]. unfold input_shape, output_shape.
  rewrite Hin, Hout, Hi, Ho. split; reflexivity.
Qed.

(** The recursive description, written out stage by stage. *)
Lemma unet_unfolded (input : Node) :
  let conv1 := Topology.stage 64 3 VALID input in
  let conv2 := Topology.stage 128 3 SAME (Topology.pool conv1) in
  let conv3 := Topology.stage 256 3 SAME (Topology.pool conv2) in
  let conv4 := Topology.stage 512 3 SAME (Topology.pool conv3) in
  let conv5 := Topology.stage 256 2 SAME
                 (Topology.concat conv3 (Topology.upsample conv4)) in
  let conv6 := Topology.stage 128 2 SAME
                 (Topology.concat conv2 (Topology.upsample conv5)) in
  let conv7 := Topology.stage 64 2 SAME
                 (Topology.concat conv1 (Topology.upsample conv6)) in
  Topology.down_outputs input = [conv1; conv2; conv3; conv4] /\
  Topology.decoder input 64 [128; 256; 512] = conv7 /\
  Topology.unet input =
    Call (LActivation "relu")
      [Call (LConv2D 1 1 VALID)
         [Topology.concat input (Call (LConv2DTranspose 1 3 VALID) [conv7])]].
Proof. repeat split; reflexivity. Qed.

(** C2. The graph [build] leaves in the object starts at the 50x50x2
    input and is the U-Net of the specification: four down-sampling
    stages of widths 64, 128, 256, 512, each of three convolution +
    batch-normalisation + ReLU blocks, with max pooling by 2 in between
    (48, 24, 12, 6 pixels a side); three up-sampling stages, each on the
    concatenation of the mirrored down-sampling output with the upsampled
    tensor; a transposed convolution back to 50x50; a concatenation with
    the input; a 1x1 convolution to one channel and a ReLU. *)
Theorem build_topology (u : UNet) (w : World) :
  let input := InputLayer [50; 50; 2] in
  exists m, model (self_of (build u w)) = Some m /\
    kt_history (inputs m) = input /\
    kt_history (outputs m) = Topology.unet input /\
    map Topology.infer (Topology.down_outputs input) =
      [Ok [48; 48; 64]; Ok [24; 24; 128]; Ok [12; 12; 256]; Ok [6; 6; 512]] /\
    Topology.infer (Topology.restore (Topology.decoder input 64 [128; 256; 512])) =
      Ok [50; 50; 1] /\
    Topology.infer (Topology.unet input) = Ok [50; 50; 1].
Proof.
  intros input.
  destruct (build_model u w) as (m0 & m & Hm0 & Hm & Hin & Hout).
  destruct create_model_ok as (m1 & Hm1 & Hi & _ & Ho & _).
  rewrite Hm0 in Hm1. injection Hm1 as <-.
  exists m. split; [exact Hm|]. rewrite Hin, Hout, Hi, Ho.
  repeat split; vm_compute; reflexivity.
Qed.

(** ** The callbacks *)

Lemma set_checkpoint_callback_same (u : UNet) (cb : option ModelCheckpoint) :
  same_data_and_settings u (set_checkpoint_callback cb u) /\
  tensorboard_callback (set_checkpoint_callback cb u) = tensorboard_callback u.
Proof. unfold same_data_and_settings. cbn. repeat split. Qed.

Lemma set_tensorboard_callback_same (u : UNet) (cb : option TensorBoard) :
  same_data_and_settings u (set_tensorboard_callback cb u) /\
  checkpoint_callback (set_tensorboard_callback cb u) = checkpoint_callback u.
Proof. unfold same_data_and_settings. cbn. repeat split. Qed.

Lemma same_data_and_settings_refl (u : UNet) : same_data_and_settings u u.
Proof. unfold same_data_and_settings. repeat split. Qed.

(** [checkpoint] either raises and leaves the object alone, or sets the
    checkpoint callback; it never touches the world. *)
Lemma checkpoint_cases (u : UNet) (w : World) :
  (exists e, checkpoint u w = (Raise e, u, w)) \/
  (exists cb, checkpoint u w = (Ok VNone, set_checkpoint_callback (Some cb) u, w)).
Proof.
  unfold checkpoint. run.
  destruct (Py.os_path_join _ _) as [path|e]; [|left; eauto].
  destruct (ModelCheckpoint_init _ _ _ _ _ _ _ _) as [cb|e]; [|left; eauto].
  right. eauto.
Qed.

(** [tensorboard] either raises and leaves object and world alone, or
    sets the TensorBoard callback. *)
Lemma tensorboard_cases (u : UNet) (w : World) :
  (exists e, tensorboard u w = (Raise e, u, w)) \/
  (exists cb w', tensorboard u w =
                   (Ok VNone, set_tensorboard_callback (Some cb) u, w')).
Proof.
  unfold tensorboard. run.
  destruct (Py.os_path_join _ _) as [path|e]; [|left; eauto].
  right. eauto.
Qed.

(** C10. [checkpoint] changes no field of the object other than
    [checkpoint_callback], and [tensorboard] none other than
    [tensorboard_callback]: the model, the four data tensors, the data
    generator and the hyper-parameters are as before, and each leaves
    the other's callback alone. *)
Theorem callbacks_frame (u : UNet) (w : World) :
  (same_data_and_settings u (self_of (checkpoint u w)) /\
   tensorboard_callback (self_of (checkpoint u w)) = tensorboard_callback u) /\
  (same_data_and_settings u (self_of (tensorboard u w)) /\
   checkpoint_callback (self_of (tensorboard u w)) = checkpoint_callback u).
Proof.
  split.
  - destruct (checkpoint_cases u w) as [[e ->]|[cb ->]]; unfold self_of; cbn [fst snd].
    + split; [apply same_data_and_settings_refl | reflexivity].
    + apply set_checkpoint_callback_same.
  - destruct (tensorboard_cases u w) as [[e ->]|(cb & w' & ->)];
      unfold self_of; cbn [fst snd].
    + split; [apply same_data_and_settings_refl | reflexivity].
    + apply set_tensorboard_callback_same.
Qed.

(** ** Calling [train] on an object that was never built *)

Section Unbuilt.
Context `{Framework}.

Lemma init_no_model (w : World) (u : UNet) : __init__ w = Ok u -> model u = None.
Proof.
  unfold __init__. run. intros Hu.
  repeat match type of Hu with
         | match ?o with Ok _ => _ | Raise _ => _ end = _ =>
             destruct o; [|discriminate]
         end.
  injection Hu as <-. reflexivity.
Qed.

Lemma train_no_model (u : UNet) (w : World) :
  model u = None ->
  train u w = (Raise (AttributeError "'NoneType' object has no attribute 'fit'"), u, w).
Proof. intros Hm. unfold train, fit. run. rewrite Hm. reflexivity. Qed.

Lemma evaluate_no_model (u : UNet) (w : World) :
  model u = None ->
  evaluate u w =
    (Raise (AttributeError "'NoneType' object has no attribute 'predict'"), u, w).
Proof. intros Hm. unfold evaluate. run. rewrite Hm. reflexivity. Qed.

Lemma load_data_model (b : bool) (u : UNet) (w : World) :
  model (self_of (load_data b u w)) = model u.
Proof.
  unfold load_data. run. cbn.
  destruct (DataLoader_main b (fs w)) as [[[[[a c] d] e]|e] fs']; reflexivity.
Qed.

(** Every call but [build] leaves an absent model absent. *)
Lemma op_keeps_no_model (o : Op) (u : UNet) (w : World) :
  is_build o = false -> model u = None ->
  model (self_of (run_op o u w)) = None.
Proof.
  intros Ho Hm. destruct o; cbn [run_op]; try discriminate.
  - rewrite load_data_model. exact Hm.
  - destruct (checkpoint_cases u w) as [[e ->]|[cb ->]]; exact Hm.
  - destruct (tensorboard_cases u w) as [[e ->]|(cb & w' & ->)]; exact Hm.
  - rewrite (train_no_model u w Hm). exact Hm.
  - rewrite (evaluate_no_model u w Hm). exact Hm.
Qed.

Lemma run_ops_keeps_no_model (ops : list Op) (u : UNet) (w : World) :
  forallb (fun o => negb (is_build o)) ops = true -> model u = None ->
  model (run_ops ops u w).1 = None.
Proof.
  revert u w. induction ops as [|o ops IH]; intros u w Hops Hm; [exact Hm|].
  cbn [forallb] in Hops. apply andb_prop in Hops as [Ho Hops].
  cbn [run_ops]. apply IH; [exact Hops|].
  apply op_keeps_no_model; [|exact Hm]. now destruct (is_build o).
Qed.

End Unbuilt.

(** C6. On an object that was constructed and on which any calls other
    than [build] were made, in any order and whether they raised or not,
    the model is still [None] and [train] raises the [AttributeError] of
    looking up [fit] on [None], before anything else happens. *)
Theorem train_before_build `{Framework} (w0 : World) (u0 : UNet)
    (ops : list Op) (w : World) :
  __init__ w0 = Ok u0 ->
  forallb (fun o => negb (is_build o)) ops = true ->
  let u := (run_ops ops u0 w).1 in
  let w' := (run_ops ops u0 w).2 in
  model u = None /\
  train u w' =
    (Raise (AttributeError "'NoneType' object has no attribute 'fit'"), u, w').
Proof.
  intros Hinit Hops u w'.
  assert (Hm : model u = None).
  { apply run_ops_keeps_no_model; [exact Hops|]. exact (init_no_model w0 u0 Hinit). }
  split; [exact Hm|]. apply train_no_model. exact Hm.
Qed.

Lemma train_before_build_witness :
  let ops := [OpLoadData false; OpCheckpoint; OpTensorboard; OpEvaluate] in
  let u := (@run_ops Sample.framework ops Sample.constructed Sample.start).1 in
  let w' := (@run_ops Sample.framework ops Sample.constructed Sample.start).2 in
  __init__ Sample.start = Ok Sample.constructed /\
  forallb (fun o => negb (is_build o)) ops = true /\
  model u = None /\
  @train Sample.framework u w' =
    (Raise (AttributeError "'NoneType' object has no attribute 'fit'"), u, w').
Proof.
  intros ops u w'.
  assert (Hinit : __init__ Sample.start = Ok Sample.constructed)
    by (vm_compute; reflexivity).
  assert (Hops : forallb (fun o => negb (is_build o)) ops = true) by reflexivity.
  split; [exact Hinit|]. split; [exact Hops|].
  exact (@train_before_build Sample.framework Sample.start Sample.constructed
           ops Sample.start Hinit Hops).
Defined.

(** ** [evaluate] *)

(** C8. On a built object, [evaluate] asks the model for predictions on
    [test_input] and hands [test_output], [test_input] and the
    predictions, in this order, to [PlotUtils.plot_results]; these are
    its only two calls out, it changes no field, and when the plot
    returns it returns [None]. *)
Theorem evaluate_forwards `{Framework} (u : UNet) (w : World) (m : KModel)
    (pred_output : ndarray) :
  model u = Some m ->
  Model_predict m (test_input u) = Ok pred_output ->
  let plotted :=
    PlotUtils_plot_results (test_output u) (test_input u) pred_output (fs w) in
  let r := evaluate u w in
  outcome_of r =
    match plotted.1 with Ok _ => Ok VNone | Raise e => Raise e end /\
  self_of r = u /\
  events (world_of r) =
    (events w ++ [EvPredict m (test_input u);
                  EvPlot (test_output u) (test_input u) pred_output])%list /\
  fs (world_of r) = plotted.2 /\
  config (world_of r) = config w.
Proof.
  intros Hm Hp plotted r. subst plotted r. unfold evaluate. run.
  rewrite Hm. cbn [log_event events fs config now default_writer].
  rewrite Hp.
  destruct (PlotUtils_plot_results _ _ _ _) as [[v|e] fs'];
    unfold log_event; cbn [fst snd set_fs events fs config];
    rewrite <- app_assoc; repeat split.
Qed.

Lemma evaluate_forwards_witness :
  let u := Sample.ready.1 in
  let w := Sample.ready.2 in
  let r := @evaluate Sample.framework u w in
  exists m,
    model u = Some m /\
    @Model_predict Sample.framework m (test_input u) = Ok (Sample.images 3 1 5) /\
    outcome_of r = Ok VNone /\
    self_of r = u /\
    events (world_of r) =
      (events w ++ [EvPredict m (test_input u);
                    EvPlot (test_output u) (test_input u) (Sample.images 3 1 5)])%list.
Proof.
  intros u w r.
  destruct (model u) as [m|] eqn:Hm; [|vm_compute in Hm; discriminate Hm].
  assert (Hp : @Model_predict Sample.framework m (test_input u)
               = Ok (Sample.images 3 1 5)) by (vm_compute; reflexivity).
  destruct (@evaluate_forwards Sample.framework u w m _ Hm Hp) as (Ho & Hs & He & _).
  exists m. split; [reflexivity|]. split; [exact Hp|].
  split; [exact Ho|]. split; [exact Hs | exact He].
Defined.


(** ** Floats: the quotient of two integers

    [Py.nearest] rounds correctly: its result is a double, and no double
    is nearer to the exact quotient. *)

(** No integer is nearer to [X / Y] than [round_half_even] of it. *)
Lemma round_half_even_nearest (X Y t : Z) :
  0 <= X -> 0 < Y ->
  Z.abs (Py.round_half_even (X # Z.to_pos Y) * Y - X) <= Z.abs (t * Y - X).
Proof.
  intros HX HY. unfold Py.round_half_even. cbn [Qnum Qden].
  rewrite Z2Pos.id by exact HY.
  pose proof (Z.div_mod X Y ltac:(lia)) as Hdm.
  pose proof (Z.mod_pos_bound X Y HY) as Hr.
  set (f := X / Y) in *. set (r := X mod Y) in *.
  assert (Hcase : t <= f \/ f + 1 <= t) by lia.
  destruct (Z.compare_spec (2 * r) Y) as [He|Hl|Hg];
    [destruct (Z.even f)| |]; destruct Hcase; nia.
Qed.

(** [2^e <= a / b < 2^(e+1)] for [e := exponent a b], scaled by [2^c] to
    stay in the integers. *)
Lemma exponent_spec (a b c : Z) :
  0 < a -> 0 < b -> 0 <= c -> 0 <= c + Py.exponent a b ->
  b * 2 ^ (c + Py.exponent a b) <= a * 2 ^ c < b * 2 ^ (c + Py.exponent a b + 1).
Proof.
  intros Ha Hb Hc. unfold Py.exponent.
  destruct (Z.log2_spec a Ha) as [Ha1 Ha2].
  destruct (Z.log2_spec b Hb) as [Hb1 Hb2].
  pose proof (Z.log2_nonneg a) as Hla. pose proof (Z.log2_nonneg b) as Hlb.
  set (la := Z.log2 a) in *. set (lb := Z.log2 b) in *.
  set (e := la - lb).
  assert (Hpc : 0 < 2 ^ c) by (apply Z.pow_pos_nonneg; lia).
  assert (Hpla : 0 < 2 ^ la) by (apply Z.pow_pos_nonneg; lia).
  assert (Hplb : 0 < 2 ^ lb) by (apply Z.pow_pos_nonneg; lia).
  destruct (0 <=? e)%Z eqn:He; [apply Z.leb_le in He | apply Z.leb_gt in He].
  - destruct (a <? b * 2 ^ e)%Z eqn:Ht; [apply Z.ltb_lt in Ht | apply Z.ltb_ge in Ht];
      intros Hce.
    + assert (E1 : 2 ^ (Z.succ lb) * 2 ^ (c + (e - 1)) = 2 ^ la * 2 ^ c).
      { rewrite <- !Z.pow_add_r by lia. f_equal. lia. }
      assert (E2 : 2 ^ (c + (e - 1) + 1) = 2 ^ e * 2 ^ c).
      { rewrite <- Z.pow_add_r by lia. f_equal. lia. }
      assert (Hp : 0 < 2 ^ (c + (e - 1))) by (apply Z.pow_pos_nonneg; lia).
      rewrite E2. split; nia.
    + assert (E1 : 2 ^ (c + e) = 2 ^ e * 2 ^ c).
      { rewrite <- Z.pow_add_r by lia. f_equal. lia. }
      assert (E2 : 2 ^ (Z.succ la) * 2 ^ c = 2 ^ lb * 2 ^ (c + e + 1)).
      { rewrite <- !Z.pow_add_r by lia. f_equal. lia. }
      assert (Hp : 0 < 2 ^ (c + e + 1)) by (apply Z.pow_pos_nonneg; lia).
      rewrite E1. split; nia.
  - destruct (a * 2 ^ (- e) <? b)%Z eqn:Ht; [apply Z.ltb_lt in Ht | apply Z.ltb_ge in Ht];
      intros Hce.
    + assert (E1 : 2 ^ (Z.succ lb) * 2 ^ (c + (e - 1)) = 2 ^ la * 2 ^ c).
      { rewrite <- !Z.pow_add_r by lia. f_equal. lia. }
      assert (E2 : 2 ^ c = 2 ^ (- e) * 2 ^ (c + (e - 1) + 1)).
      { rewrite <- Z.pow_add_r by lia. f_equal. lia. }
      assert (Hp : 0 < 2 ^ (c + (e - 1))) by (apply Z.pow_pos_nonneg; lia).
      assert (Hp' : 0 < 2 ^ (c + (e - 1) + 1)) by (apply Z.pow_pos_nonneg; lia).
      split; [nia|]. rewrite E2. nia.
    + assert (E1 : 2 ^ c = 2 ^ (- e) * 2 ^ (c + e)).
      { rewrite <- Z.pow_add_r by lia. f_equal. lia. }
      assert (E2 : 2 ^ (Z.succ la) * 2 ^ c = 2 ^ lb * 2 ^ (c + e + 1)).
      { rewrite <- !Z.pow_add_r by lia. f_equal. lia. }
      assert (Hp : 0 < 2 ^ (c + e)) by (apply Z.pow_pos_nonneg; lia).
      assert (Hp' : 0 < 2 ^ (c + e + 1)) by (apply Z.pow_pos_nonneg; lia).
      split; [rewrite E1; nia | nia].
Qed.

(** The significand has at most 53 bits, and exactly 53 above the
    subnormal range. *)
Lemma significand_bounds (a b : Z) :
  0 < a -> 0 < b ->
  0 <= Py.significand a b <= 2 ^ 53 /\
  (0 < Py.quantum a b + 1074 -> 2 ^ 52 <= Py.significand a b).
Proof.
  intros Ha Hb. unfold Py.significand.
  set (i := Py.quantum a b + 1074).
  assert (Hi : 0 <= i) by (unfold i, Py.quantum; lia).
  set (X := a * 2 ^ 1074). set (Y := b * 2 ^ i).
  assert (HU : 0 < 2 ^ 1074) by (apply Z.pow_pos_nonneg; lia).
  assert (Hpi : 0 < 2 ^ i) by (apply Z.pow_pos_nonneg; lia).
  assert (HX : 0 <= X) by (unfold X; nia).
  assert (HY : 0 < Y) by (unfold Y; nia).
  pose proof (round_half_even_nearest X Y 0 HX HY) as H0.
  pose proof (round_half_even_nearest X Y (2 ^ 53) HX HY) as H53.
  pose proof (round_half_even_nearest X Y (2 ^ 52) HX HY) as H52.
  set (m := Py.round_half_even (X # Z.to_pos Y)) in *.
  assert (Hup : X <= 2 ^ 53 * Y).
  { unfold X, Y. set (e := Py.exponent a b) in *.
    destruct (Z_le_gt_dec (-1074) (e - 52)) as [Hn|Hs].
    - assert (Ei : i = e + 1022) by (unfold i, Py.quantum; fold e; lia).
      destruct (exponent_spec a b 1074 Ha Hb ltac:(lia) ltac:(fold e; lia)) as [_ Hlt].
      fold e in Hlt.
      assert (E : 2 ^ (1074 + e + 1) = 2 ^ 53 * 2 ^ i).
      { rewrite <- Z.pow_add_r by lia. f_equal. lia. }
      rewrite E in Hlt. nia.
    - assert (Ei : i = 0) by (unfold i, Py.quantum; fold e; lia).
      rewrite Ei. change (2 ^ 0) with 1. rewrite Z.mul_1_r.
      destruct (Z_le_gt_dec 0 (1074 + e)) as [Hc|Hc].
      + destruct (exponent_spec a b 1074 Ha Hb ltac:(lia) ltac:(fold e; lia)) as [_ Hlt].
        fold e in Hlt.
        assert (E : 2 ^ (1074 + e + 1) <= 2 ^ 53) by (apply Z.pow_le_mono_r; lia).
        nia.
      + destruct (exponent_spec a b (- e) Ha Hb ltac:(lia) ltac:(fold e; lia)) as [_ Hlt].
        fold e in Hlt. replace (- e + e + 1) with 1 in Hlt by lia.
        change (2 ^ 1) with 2 in Hlt.
        assert (E : 2 ^ 1074 <= 2 ^ (- e)) by (apply Z.pow_le_mono_r; lia).
        assert (E' : 2 <= 2 ^ 53) by (change 2 with (2 ^ 1) at 1; apply Z.pow_le_mono_r; lia).
        nia. }
  split; [split|].
  - destruct (Z_le_gt_dec 0 m); [assumption|]. exfalso. nia.
  - destruct (Z_le_gt_dec m (2 ^ 53)); [assumption|]. exfalso.
    assert (0 < 2 ^ 53) by (apply Z.pow_pos_nonneg; lia). nia.
  - intros Hpos.
    assert (Hlow : 2 ^ 52 * Y <= X).
    { unfold X, Y. set (e := Py.exponent a b) in *.
      assert (Ei : i = e + 1022) by (unfold i, Py.quantum in *; fold e in Hpos |- *; lia).
      destruct (exponent_spec a b 1074 Ha Hb ltac:(lia) ltac:(fold e; lia)) as [Hle _].
      fold e in Hle.
      assert (E : 2 ^ (1074 + e) = 2 ^ 52 * 2 ^ i).
      { rewrite <- Z.pow_add_r by lia. f_equal. lia. }
      rewrite E in Hle. nia. }
    destruct (Z_le_gt_dec (2 ^ 52) m); [assumption|]. exfalso.
    assert (0 < 2 ^ 52) by (apply Z.pow_pos_nonneg; lia). nia.
Qed.

(** Among the multiples [k * 2^j] of the grid with at most 53 bits, none
    is nearer to [a / b] than the significand on its quantum. *)
Lemma significand_nearest (a b k j : Z) :
  0 < a -> 0 < b -> Z.abs k < 2 ^ 53 -> 0 <= j ->
  Z.abs (Py.significand a b * 2 ^ (Py.quantum a b + 1074) * b - a * 2 ^ 1074)
  <= Z.abs (k * 2 ^ j * b - a * 2 ^ 1074).
Proof.
  intros Ha Hb Hk Hj.
  destruct (significand_bounds a b Ha Hb) as [_ H52].
  revert H52. unfold Py.significand.
  set (i := Py.quantum a b + 1074).
  assert (Hi : 0 <= i) by (unfold i, Py.quantum; lia).
  set (X := a * 2 ^ 1074). set (Y := b * 2 ^ i).
  assert (Hpi : 0 < 2 ^ i) by (apply Z.pow_pos_nonneg; lia).
  assert (HU : 0 < 2 ^ 1074) by (apply Z.pow_pos_nonneg; lia).
  assert (HX : 0 <= X) by (unfold X; nia).
  assert (HY : 0 < Y) by (unfold Y; nia).
  intros H52.
  destruct (Z_le_gt_dec i j) as [Hij|Hij].
  - pose proof (round_half_even_nearest X Y (k * 2 ^ (j - i)) HX HY) as Hn.
    set (m := Py.round_half_even (X # Z.to_pos Y)) in *.
    assert (E : 2 ^ j = 2 ^ (j - i) * 2 ^ i).
    { rewrite <- Z.pow_add_r by lia. f_equal. lia. }
    rewrite E.
    replace (m * 2 ^ i * b) with (m * Y) by (unfold Y; ring).
    replace (k * (2 ^ (j - i) * 2 ^ i) * b) with (k * 2 ^ (j - i) * Y) by (unfold Y; ring).
    exact Hn.
  - pose proof (round_half_even_nearest X Y (2 ^ 52) HX HY) as Hn.
    set (m := Py.round_half_even (X # Z.to_pos Y)) in *.
    specialize (H52 ltac:(lia)).
    assert (Hlow : 2 ^ 52 * Y <= X).
    { unfold X, Y. set (e := Py.exponent a b) in *.
      assert (Ei : i = e + 1022) by (unfold i, Py.quantum in *; fold e in Hij |- *; lia).
      destruct (exponent_spec a b 1074 Ha Hb ltac:(lia) ltac:(fold e; lia)) as [Hle _].
      fold e in Hle.
      assert (E : 2 ^ (1074 + e) = 2 ^ 52 * 2 ^ i).
      { rewrite <- Z.pow_add_r by lia. f_equal. lia. }
      rewrite E in Hle. nia. }
    assert (Hd : k * 2 ^ j * b <= 2 ^ 52 * Y).
    { unfold Y.
      assert (Hpj : 0 < 2 ^ j) by (apply Z.pow_pos_nonneg; lia).
      assert (E : 2 ^ 52 * 2 ^ i = 2 ^ 53 * 2 ^ (i - 1)).
      { rewrite <- !Z.pow_add_r by lia. f_equal. lia. }
      assert (Hji : 2 ^ j <= 2 ^ (i - 1)) by (apply Z.pow_le_mono_r; lia).
      assert (Hk' : k * 2 ^ j <= 2 ^ 53 * 2 ^ (i - 1)).
      { assert (0 < 2 ^ 53) by (apply Z.pow_pos_nonneg; lia).
        destruct (Z_le_gt_dec k 0); nia. }
      nia. }
    replace (m * 2 ^ i * b) with (m * Y) by (unfold Y; ring).
    fold X. lia.
Qed.

Lemma distance_scaled (R K a : Z) (U B : positive) :
  Z.abs (R * Z.pos B - a * Z.pos U) <= Z.abs (K * Z.pos B - a * Z.pos U) ->
  (Qabs ((R # U) - (a # B)) <= Qabs ((K # U) - (a # B)))%Q.
Proof.
  intros H. unfold Qle, Qminus, Qplus, Qopp. cbn [Qnum Qden Qabs].
  apply Z.mul_le_mono_nonneg_r; [lia|].
  replace (R * Z.pos B + - a * Z.pos U) with (R * Z.pos B - a * Z.pos U) by ring.
  replace (K * Z.pos B + - a * Z.pos U) with (K * Z.pos B - a * Z.pos U) by ring.
  exact H.
Qed.

Lemma grid_unit : Z.pos (2 ^ 1074) = 2 ^ 1074.
Proof. rewrite Pos2Z.inj_pow. reflexivity. Qed.

Lemma is_double_opp (d : Q) : Py.is_double d -> Py.is_double (- d).
Proof.
  intros (k & i & Hk & Hi & E). exists (- k), i. split; [lia|]. split; [exact Hi|].
  rewrite E. unfold Qeq, Qopp. cbn [Qnum Qden]. ring.
Qed.

Lemma is_double_eq (d d' : Q) : (d == d')%Q -> Py.is_double d -> Py.is_double d'.
Proof.
  intros E (k & i & Hk & Hi & E'). exists k, i. split; [exact Hk|]. split; [exact Hi|].
  rewrite <- E. exact E'.
Qed.

(** [nearest a b] is a double, and no double is nearer to [a / b]. *)
Lemma nearest_is_nearest (a : Z) (b : positive) (r : Q) :
  0 <= a ->
  Py.nearest a (Z.pos b) = Some r ->
  Py.is_double r /\
  forall d, Py.is_double d -> (Qabs (r - (a # b)) <= Qabs (d - (a # b)))%Q.
Proof.
  intros Ha. unfold Py.nearest.
  destruct (a =? 0)%Z eqn:Hz; [apply Z.eqb_eq in Hz | apply Z.eqb_neq in Hz].
  - intros [= <-]. subst a. split.
    + exists 0, 0. split; [reflexivity|]. split; [lia|]. reflexivity.
    + intros d _.
      assert (E : (0 - (0 # b) == 0)%Q) by reflexivity.
      rewrite E. apply Qabs_nonneg.
  - assert (Ha' : 0 < a) by lia.
    assert (Hb : 0 < Z.pos b) by lia.
    destruct (significand_bounds a (Z.pos b) Ha' Hb) as [[Hm0 Hm53] Hm52].
    pose proof (fun k j => significand_nearest a (Z.pos b) k j Ha' Hb) as Hnear.
    set (m := Py.significand a (Z.pos b)) in *.
    set (i := Py.quantum a (Z.pos b) + 1074) in *.
    assert (Hi : 0 <= i) by (unfold i, Py.quantum; lia).
    destruct (2 ^ 2098 <=? m * 2 ^ i)%Z eqn:Hov; [discriminate|]. apply Z.leb_gt in Hov.
    intros [= <-].
    assert (Hpi : 0 < 2 ^ i) by (apply Z.pow_pos_nonneg; lia).
    assert (Er : (Qred (m * 2 ^ i # 2 ^ 1074) == m * 2 ^ i # 2 ^ 1074)%Q)
      by apply Qred_correct.
    split.
    + apply (is_double_eq (m * 2 ^ i # 2 ^ 1074)); [symmetry; exact Er|].
      destruct (Z_lt_le_dec m (2 ^ 53)) as [Hlt|Hge].
      * exists m, i. split; [lia|]. split; [|reflexivity].
        split; [exact Hi|].
        destruct (Z_le_gt_dec i 2045) as [|Hbig]; [assumption|]. exfalso.
        specialize (Hm52 ltac:(lia)).
        assert (E : 2 ^ 2098 = 2 ^ 52 * 2 ^ 2046) by (rewrite <- Z.pow_add_r by lia; reflexivity).
        assert (Hp : 2 ^ 2046 <= 2 ^ i) by (apply Z.pow_le_mono_r; lia).
        assert (0 < 2 ^ 52) by (apply Z.pow_pos_nonneg; lia).
        nia.
      * assert (Em : m = 2 ^ 53) by lia.
        exists (2 ^ 52), (i + 1). split; [|split].
        -- rewrite Z.abs_eq by (apply Z.pow_nonneg; lia).
           apply Z.pow_lt_mono_r; lia.
        -- split; [lia|].
           destruct (Z_le_gt_dec (i + 1) 2045) as [|Hbig]; [assumption|]. exfalso.
           assert (E : 2 ^ 2098 = 2 ^ 53 * 2 ^ 2045) by (rewrite <- Z.pow_add_r by lia; reflexivity).
           assert (Hp : 2 ^ 2045 <= 2 ^ i) by (apply Z.pow_le_mono_r; lia).
           assert (0 < 2 ^ 53) by (apply Z.pow_pos_nonneg; lia).
           rewrite Em in Hov. nia.
        -- rewrite Em.
           assert (E : 2 ^ 53 * 2 ^ i = 2 ^ 52 * 2 ^ (i + 1)).
           { rewrite <- !Z.pow_add_r by lia. f_equal. lia. }
           rewrite E. reflexivity.
    + intros d (k & j & Hk & Hj & Ed).
      rewrite Er, Ed. apply distance_scaled. rewrite grid_unit.
      apply Hnear; [exact Hk | lia].
Qed.

Lemma signed_value (s : bool) (r : Q) :
  exists r', Py.float_value (Py.of_float (Py.signed s r)) = Some r' /\
             (r' == if s then - r else r)%Q.
Proof.
  unfold Py.signed. destruct (Qeq_bool r 0) eqn:Hz.
  - apply Qeq_bool_iff in Hz. exists 0%Q. split; [destruct s; reflexivity|].
    destruct s; rewrite Hz; reflexivity.
  - eexists. split; [reflexivity|]. reflexivity.
Qed.

(** The quotient of two integers, by sign and magnitude. *)
Lemma Qdiv_signed (x y : Z) :
  y <> 0 ->
  (inject_Z x / inject_Z y ==
   if xorb (x <? 0)%Z (y <? 0)%Z
   then - (Z.abs x # Z.to_pos (Z.abs y)) else Z.abs x # Z.to_pos (Z.abs y))%Q.
Proof.
  intros Hy. destruct y as [|q|q]; [contradiction| |]; destruct x as [|p|p];
    unfold Qeq, Qdiv, Qmult, Qinv, Qopp, inject_Z;
    cbv [Qnum Qden Z.abs Z.to_pos Z.ltb Z.compare xorb Z.opp Z.mul];
    rewrite ?Pos.mul_1_r, ?Pos.mul_1_l; reflexivity.
Qed.

(** The quotient of two integers is the double nearest to the exact
    quotient. *)
Lemma int_truediv_nearest (x y : Z) (v : PyVal) :
  Py.int_truediv x y = Ok v ->
  y <> 0 /\
  exists r, Py.float_value v = Some r /\ Py.is_double r /\
    forall d, Py.is_double d ->
      (Qabs (r - inject_Z x / inject_Z y) <= Qabs (d - inject_Z x / inject_Z y))%Q.
Proof.
  unfold Py.int_truediv.
  destruct (y =? 0)%Z eqn:Hy; [discriminate|]. apply Z.eqb_neq in Hy.
  destruct (Py.nearest (Z.abs x) (Z.abs y)) as [r0|] eqn:Hn; [|discriminate].
  intros [= <-]. split; [exact Hy|].
  replace (Z.abs y) with (Z.pos (Z.to_pos (Z.abs y))) in Hn by (apply Z2Pos.id; lia).
  destruct (nearest_is_nearest _ _ _ (Z.abs_nonneg x) Hn) as [Hd Hnear].
  destruct (signed_value (xorb (x <? 0)%Z (y <? 0)%Z) r0) as (r & Hv & Er).
  exists r. split; [exact Hv|].
  pose proof (Qdiv_signed x y Hy) as Eq.
  set (Q0 := (Z.abs x # Z.to_pos (Z.abs y))%Q) in *.
  destruct (xorb (x <? 0)%Z (y <? 0)%Z).
  - split; [apply (is_double_eq (- r0)); [symmetry; exact Er | apply is_double_opp; exact Hd]|].
    intros d Hdd. rewrite Eq, Er.
    assert (E1 : (- r0 - - Q0 == - (r0 - Q0))%Q) by ring.
    assert (E2 : (d - - Q0 == - (- d - Q0))%Q) by ring.
    rewrite E1, E2, !Qabs_opp. apply Hnear, is_double_opp, Hdd.
  - split; [apply (is_double_eq r0); [symmetry; exact Er | exact Hd]|].
    intros d Hdd. rewrite Eq, Er. apply Hnear, Hdd.
Qed.

(** ** [train] *)

Lemma set_fs_same (w : World) : set_fs (fs w) w = w.
Proof. destruct w; reflexivity. Qed.

(** Whatever the mode, [dump_history] raises, leaves the object alone,
    and leaves the files as [open] left them. *)
Lemma dump_history_raises (mode : OpenMode) (h : History) (u : UNet) (w : World) :
  dump_history mode h u w =
    (Raise (dump_history_error mode u w), u,
     match Py.os_path_join (model_path u)
             [experiment_name u; VStr "model_history.pkl"] with
     | Ok path => set_fs (open path mode (fs w)).2 w
     | Raise _ => w
     end).
Proof.
  unfold dump_history, dump_history_error. run.
  destruct (Py.os_path_join _ _) as [path|e]; [|reflexivity].
  destruct (open path mode (fs w)) as [[f|e] fs'] eqn:Hopen; cbn [fst snd];
    reflexivity.
Qed.

Lemma open_read_files (path : string) (mode : OpenMode) (files : FS) :
  kind mode = MRead -> (open path mode files).2 = files.
Proof. intros Hk. unfold open. rewrite Hk. destruct (files !! path); reflexivity. Qed.

(** [open] leaves every file as it was or empty. *)
Lemma open_files (path : string) (mode : OpenMode) (files : FS) (p : string) :
  (open path mode files).2 !! p = files !! p \/
  (open path mode files).2 !! p = Some [].
Proof.
  unfold open.
  destruct (kind mode), (files !! path) eqn:Hp; cbn [snd]; auto;
    destruct (decide (path = p)) as [->|Hne];
    rewrite ?lookup_insert_eq, ?lookup_insert_ne by exact Hne; auto.
Qed.

Section Train.
Context `{Framework}.

(** What [fit_arguments] computes for the step count, for any values of
    the batch sizes. *)
Lemma fit_arguments_steps (u u' : UNet) (w w' : World) (args : FitArgs) :
  fit_arguments u w = (Ok args, u', w') ->
  exists n batch,
    len (train_input u) = Ok n /\
    Py.add (train_batch_size u) (val_batch_size u) = Ok batch /\
    Py.truediv (VInt n) batch = Ok (fit_steps_per_epoch args).
Proof.
  unfold fit_arguments, flow. run. unfold log_event. cbn [fst snd].
  destruct (NumpyArrayIterator_check _); [|discriminate].
  destruct (NumpyArrayIterator_check _); [|discriminate].
  destruct (len (train_input u)) as [n|]; [|discriminate].
  destruct (Py.add _ _) as [batch|]; [|discriminate].
  destruct (Py.truediv _ _) as [steps|] eqn:Hdiv; [|discriminate].
  intros Hargs. injection Hargs as <- _ _. cbn [fit_steps_per_epoch].
  exists n, batch. auto.
Qed.

(** When the arguments evaluate, [fit] is the framework's loop on them. *)
Lemma fit_calls_loop (u u' : UNet) (w w' : World) (m : KModel) (args : FitArgs) :
  model u = Some m ->
  fit_arguments u w = (Ok args, u', w') ->
  fit u w = run_fit m args u' (log_event (EvFit m args) w').
Proof. intros Hm Hargs. unfold fit. run. rewrite Hm, Hargs. reflexivity. Qed.

End Train.

(** C4. When the arguments of the fit call evaluate, with [n] training
    examples and integer batch sizes [a] and [b], the framework's fit
    loop is called with [steps_per_epoch] the float [n / (a + b)]: the
    sum of the two batch sizes is not zero, and the value is the true
    quotient of the two integers as Python computes it, the double
    nearest to the exact quotient (the exact quotient itself when that
    is a double). *)
Theorem steps_per_epoch_formula `{Framework} (u u' : UNet) (w w' : World)
    (m : KModel) (args : FitArgs) (n a b : Z) :
  model u = Some m ->
  fit_arguments u w = (Ok args, u', w') ->
  len (train_input u) = Ok n ->
  train_batch_size u = VInt a ->
  val_batch_size u = VInt b ->
  (a + b <> 0)%Z /\
  Py.int_truediv n (a + b) = Ok (fit_steps_per_epoch args) /\
  (exists r, Py.float_value (fit_steps_per_epoch args) = Some r /\
             Py.is_double r /\
             (forall d, Py.is_double d ->
                (Qabs (r - inject_Z n / inject_Z (a + b))
                 <= Qabs (d - inject_Z n / inject_Z (a + b)))%Q) /\
             (Py.is_double (inject_Z n / inject_Z (a + b)) ->
                (r == inject_Z n / inject_Z (a + b))%Q)) /\
  fit u w = run_fit m args u' (log_event (EvFit m args) w').
Proof.
  intros Hm Hargs Hn Ha Hb.
  destruct (fit_arguments_steps u u' w w' args Hargs) as (n' & batch & Hn' & Hadd & Hdiv).
  rewrite Hn in Hn'. injection Hn' as <-.
  rewrite Ha, Hb in Hadd. cbn in Hadd. injection Hadd as <-.
  change (Py.truediv (VInt n) (VInt (a + b))) with (Py.int_truediv n (a + b)) in Hdiv.
  destruct (int_truediv_nearest _ _ _ Hdiv) as (Hz & r & Hr & Hd & Hnear).
  split; [exact Hz|]. split; [exact Hdiv|].
  split; [|exact (fit_calls_loop u u' w w' m args Hm Hargs)].
  exists r. split; [exact Hr|]. split; [exact Hd|]. split; [exact Hnear|].
  intros Hq. specialize (Hnear _ Hq).
  assert (E : (inject_Z n / inject_Z (a + b) - inject_Z n / inject_Z (a + b) == 0)%Q) by ring.
  rewrite E in Hnear. change (Qabs 0) with 0%Q in Hnear.
  apply Qabs_Qle_condition in Hnear. destruct Hnear as [Hlo Hhi].
  assert (E0 : (r - inject_Z n / inject_Z (a + b) == 0)%Q)
    by (apply Qle_antisym; [exact Hhi | exact Hlo]).
  assert (E1 : (r == (r - inject_Z n / inject_Z (a + b)) + inject_Z n / inject_Z (a + b))%Q)
    by ring.
  rewrite E1, E0. ring.
Qed.

Lemma steps_per_epoch_witness :
  let u := Sample.ready.1 in
  let w := Sample.ready.2 in
  exists m args u' w',
    model u = Some m /\
    @fit_arguments Sample.framework u w = (Ok args, u', w') /\
    len (train_input u) = Ok 10%Z /\
    train_batch_size u = VInt 4 /\
    val_batch_size u = VInt 2 /\
    Py.int_truediv 10 (4 + 2) = Ok (fit_steps_per_epoch args) /\
    fit_steps_per_epoch args = VFloat (7505999378950827 # 4503599627370496) /\
    @fit Sample.framework u w =
      @run_fit Sample.framework m args u' (log_event (EvFit m args) w').
Proof.
  intros u w.
  destruct (model u) as [m|] eqn:Hm; [|vm_compute in Hm; discriminate Hm].
  destruct (@fit_arguments Sample.framework u w) as [[[args|e] u'] w'] eqn:Hargs;
    [|vm_compute in Hargs; discriminate Hargs].
  destruct (@steps_per_epoch_formula Sample.framework u u' w w' m args 10 4 2
              Hm Hargs eq_refl eq_refl eq_refl) as (_ & Hdiv & _ & Hfit).
  exists m, args, u', w'. repeat (split; [reflexivity|]).
  split; [exact Hdiv|]. split; [|exact Hfit].
  vm_compute in Hdiv. injection Hdiv as Hdiv. exact (eq_sym Hdiv).
Defined.

(** C3. Whenever the fit loop returns a history, [train] raises: the
    file is opened for reading, which fails if it is absent, and
    otherwise [pickle.dump] refuses its stream.  Object and world are
    then exactly as the fit loop left them: no file holds the history. *)
Theorem train_never_persists `{Framework} (u u1 : UNet) (w w1 : World)
    (model_history : History) :
  fit u w = (Ok model_history, u1, w1) ->
  kind default_mode = MRead /\
  train u w = (Raise (dump_history_error default_mode u1 w1), u1, w1) /\
  (forall path,
     Py.os_path_join (model_path u1)
       [experiment_name u1; VStr "model_history.pkl"] = Ok path ->
     dump_history_error default_mode u1 w1 =
       match fs w1 !! path with
       | None => FileNotFoundError path
       | Some _ => TypeError "file must have a 'write' attribute"
       end).
Proof.
  intros Hfit. split; [reflexivity|]. split.
  - unfold train. run. rewrite Hfit.
    rewrite (dump_history_raises default_mode model_history u1 w1).
    destruct (Py.os_path_join _ _) as [path|e]; [|reflexivity].
    rewrite open_read_files by reflexivity. rewrite set_fs_same. reflexivity.
  - intros path Hpath. unfold dump_history_error. rewrite Hpath.
    unfold open. cbn [kind default_mode]. destruct (fs w1 !! path); reflexivity.
Qed.

Lemma train_never_persists_witness :
  let u := Sample.ready.1 in
  let w := Sample.ready.2 in
  let u1 := self_of (@fit Sample.framework u w) in
  let w1 := world_of (@fit Sample.framework u w) in
  @fit Sample.framework u w = (Ok Sample.model_history, u1, w1) /\
  @train Sample.framework u w =
    (Raise (FileNotFoundError "models/exp1/model_history.pkl"), u1, w1) /\
  fs w1 !! "models/exp1/model_history.pkl" = None /\
  is_Some (fs w1 !! "models/exp1/checkpoints/weights-01-0.5000-0.2500").
Proof.
  intros u w u1 w1.
  assert (Hfit : @fit Sample.framework u w = (Ok Sample.model_history, u1, w1))
    by (vm_compute; reflexivity).
  destruct (@train_never_persists Sample.framework u u1 w w1 _ Hfit)
    as (_ & Htrain & _).
  split; [exact Hfit|].
  split; [rewrite Htrain; vm_compute; reflexivity|].
  split; [vm_compute; reflexivity|].
  vm_compute. eexists. reflexivity.
Defined.

(** With the arguments in the documented order and the file opened
    ["wb"], the history is what the file holds afterwards. *)
Lemma dump_history_in_order_writes (model_history : History) (u : UNet)
    (w : World) (path : string) :
  Py.os_path_join (model_path u) [experiment_name u; VStr "model_history.pkl"]
    = Ok path ->
  dump_history_in_order mode_wb model_history u w =
    (Ok tt, u, set_fs (<[path := [Pickled model_history]]> (fs w)) w).
Proof.
  intros Hpath. unfold dump_history_in_order. run. rewrite Hpath.
  unfold open, pickle_dump, write, writable.
  cbn [kind binary mode_wb fh_mode fh_path fst snd negb set_fs fs].
  rewrite lookup_insert_eq. cbn [default app]. rewrite insert_insert_eq.
  reflexivity.
Qed.

(** C9. [train] hands [pickle.dump] the open file as the object and the
    history as the stream.  A history has no [write], so the call raises
    for every file and every history; hence, whatever mode the file is
    opened in, [dump_history] raises, and every file is afterwards as it
    was or empty.  Opened ["wb"], the history file is left empty, where
    the call with the arguments in order would have filled it. *)
Theorem dump_history_reversed (mode : OpenMode) (model_history : History)
    (u : UNet) (w : World) :
  (forall f files,
     pickle_dump (OFile f) (OHistory model_history) files =
       (Raise (TypeError "file must have a 'write' attribute"), files)) /\
  (let r := dump_history mode model_history u w in
   outcome_of r = Raise (dump_history_error mode u w) /\
   self_of r = u /\
   forall p, fs (world_of r) !! p = fs w !! p \/ fs (world_of r) !! p = Some []) /\
  match Py.os_path_join (model_path u)
          [experiment_name u; VStr "model_history.pkl"] with
  | Ok path =>
      dump_history_error mode_wb u w = TypeError "file must have a 'write' attribute" /\
      fs (world_of (dump_history mode_wb model_history u w)) !! path = Some [] /\
      fs (world_of (dump_history_in_order mode_wb model_history u w)) !! path =
        Some [Pickled model_history]
  | Raise _ => True
  end.
Proof.
  split; [reflexivity|]. split.
  - cbn zeta. rewrite (dump_history_raises mode model_history u w).
    unfold outcome_of, self_of, world_of. cbn [fst snd].
    split; [reflexivity|]. split; [reflexivity|]. intros p.
    destruct (Py.os_path_join _ _) as [path|e]; [|left; reflexivity].
    cbn [set_fs fs]. apply open_files.
  - destruct (Py.os_path_join _ _) as [path|e] eqn:Hpath; [|exact I].
    split; [unfold dump_history_error; rewrite Hpath; reflexivity|].
    rewrite (dump_history_raises mode_wb model_history u w), Hpath.
    rewrite (dump_history_in_order_writes model_history u w path Hpath).
    unfold world_of. cbn [fst snd set_fs fs open kind mode_wb].
    rewrite !lookup_insert_eq. split; reflexivity.
Qed.

(** On the sample, with the file opened ["wb"]: the call as written
    raises and leaves the history file empty. *)
Example dump_history_wb_sample :
  let r := dump_history mode_wb Sample.model_history Sample.ready.1 Sample.ready.2 in
  outcome_of r = Raise (TypeError "file must have a 'write' attribute") /\
  fs (world_of r) !! "models/exp1/model_history.pkl" = Some [].
Proof. split; vm_compute; reflexivity. Qed.

(** ** [checkpoint] *)

Lemma append_cons (x : ascii) (a b : string) : String x a ++ b = String x (a ++ b).
Proof. reflexivity. Qed.

Lemma append_empty_r (a : string) : a ++ "" = a.
Proof.
  induction a as [|x a IH]; [reflexivity|]. rewrite append_cons. now rewrite IH.
Qed.

Lemma append_assoc (a b c : string) : (a ++ b) ++ c = a ++ b ++ c.
Proof.
  induction a as [|x a IH]; [reflexivity|].
  rewrite !append_cons. f_equal. exact IH.
Qed.

Lemma append_nonempty (a b : string) : a <> "" -> String.eqb (a ++ b) "" = false.
Proof. destruct a; [congruence | reflexivity]. Qed.

Lemma endswith_sep_app (a b : string) :
  b <> "" -> Py.endswith_sep (a ++ b) = Py.endswith_sep b.
Proof.
  intros Hb. induction a as [|x a IH]; [reflexivity|].
  rewrite append_cons. cbn [Py.endswith_sep]. rewrite IH.
  destruct (a ++ b) eqn:Hab; [|reflexivity].
  destruct a; [change ("" ++ b) with b in Hab; congruence | discriminate Hab].
Qed.

Lemma brace_free_app (a b : string) :
  brace_free (a ++ b) = (brace_free a && brace_free b)%bool.
Proof.
  induction a as [|x a IH]; [reflexivity|].
  rewrite append_cons. cbn [brace_free]. rewrite IH. now rewrite !andb_assoc.
Qed.

(** [os.path.join] on plain components puts one separator between them. *)
Lemma join_plain (root name : string) (a b : string) :
  plain_root root = true -> plain_name name = true ->
  a <> "" -> Py.startswith_sep a = false -> Py.endswith_sep a = false ->
  Py.startswith_sep b = false ->
  Py.os_path_join (VStr root) [VStr name; VStr a; VStr b] =
    Ok (root ++ "/" ++ name ++ "/" ++ a ++ "/" ++ b).
Proof.
  unfold plain_root, plain_name. intros Hr Hn Ha Hsa Hea Hsb.
  apply andb_true_iff in Hr as [Hr1 Hr2].
  apply andb_true_iff in Hn as [Hn Hn3]. apply andb_true_iff in Hn as [Hn1 Hn2].
  apply negb_true_iff in Hr1, Hr2, Hn1, Hn2, Hn3.
  assert (Hroot : root <> "") by (now apply String.eqb_neq).
  assert (Hname : name <> "") by (now apply String.eqb_neq).
  assert (Hend : forall p c, c <> "" -> Py.endswith_sep c = false ->
                   Py.endswith_sep (p ++ Py.sep ++ c) = false).
  { intros p c Hc Hec. rewrite endswith_sep_app by (unfold Py.sep; discriminate).
    unfold Py.sep. rewrite append_cons. cbn [Py.endswith_sep].
    change ("" ++ c) with c. destruct c; [congruence | exact Hec]. }
  unfold Py.os_path_join, Py.fspath. run. cbn [Py.join_loop Py.fspath]. run.
  rewrite Hn2, Hr1, Hr2. cbn [orb].
  rewrite Hsa, (append_nonempty root _ Hroot), (Hend root name Hname Hn3).
  cbn [orb]. rewrite Hsb.
  rewrite append_nonempty by (destruct root; [congruence | discriminate]).
  rewrite (Hend _ a Ha Hea). cbn [orb].
  unfold Py.sep. rewrite !append_assoc. reflexivity.
Qed.

(** [str.format] copies text without braces. *)
Lemma scan_brace_free (pre s acc : string) :
  brace_free pre = true ->
  Py.scan (Py.InLit acc) (pre ++ s) = Py.scan (Py.InLit (acc ++ pre)) s.
Proof.
  revert acc. induction pre as [|c pre IH]; intros acc Hpre.
  - change ("" ++ s) with s. rewrite append_empty_r. reflexivity.
  - cbn [brace_free] in Hpre.
    apply andb_true_iff in Hpre as [Hc Hpre]. apply andb_true_iff in Hc as [Ho Hc].
    apply negb_true_iff in Ho, Hc.
    rewrite append_cons. cbn [Py.scan]. rewrite Ho, Hc.
    rewrite (IH _ Hpre). unfold Py.snoc. rewrite append_assoc. reflexivity.
Qed.

Lemma render_lit (acc : string) (ps : list Py.Piece) (kwargs : list (string * PyVal)) :
  Py.render (Py.lit acc ps) kwargs = r ← Py.render ps kwargs; Ok (acc ++ r).
Proof.
  unfold Py.lit. destruct (String.eqb_spec acc "") as [->|_].
  - run. destruct (Py.render ps kwargs); reflexivity.
  - reflexivity.
Qed.

(** The checkpoint template after a brace-free prefix, filled in with an
    epoch number and the two losses. *)
Lemma format_checkpoint_fields (pre : string) (n : Z) (l v : Q)
    (logs : list (string * PyVal)) :
  brace_free pre = true ->
  Py.lookup_kw logs "loss" = Ok (VFloat l) ->
  Py.lookup_kw logs "val_loss" = Ok (VFloat v) ->
  Py.format (pre ++ "{epoch:02d}-{loss:.4f}-{val_loss:.4f}") (("epoch", VInt n) :: logs) =
    Ok (pre ++ epoch_text n ++ "-" ++ loss_text l ++ "-" ++ loss_text v).
Proof.
  intros Hpre Hl Hv. unfold Py.format, Py.parse_template.
  rewrite (scan_brace_free pre _ "" Hpre). change ("" ++ pre) with pre.
  change (Py.scan (Py.InLit pre) "{epoch:02d}-{loss:.4f}-{val_loss:.4f}")
    with (Ok (Py.lit pre [Py.Field "epoch" "02d"; Py.Lit "-"; Py.Field "loss" ".4f";
                          Py.Lit "-"; Py.Field "val_loss" ".4f"])).
  run. rewrite render_lit. cbn [Py.render Py.lookup_kw]. run.
  change (String.eqb "epoch" "epoch") with true.
  change (String.eqb "epoch" "loss") with false.
  change (String.eqb "epoch" "val_loss") with false.
  cbn iota. rewrite Hl, Hv.
  change (Py.format_value (VInt n) "02d") with (Ok (epoch_text n)).
  change (Py.format_value (VFloat l) ".4f") with (Ok (loss_text l)).
  change (Py.format_value (VFloat v) ".4f") with (Ok (loss_text v)).
  cbn iota beta. rewrite append_empty_r. reflexivity.
Qed.

(** With [monitor_op] "less", a value improves on the best so far when
    there is none yet or it is strictly smaller. *)
Lemma below_finite (v q : Q) : below (Finite v) (Finite q) = true <-> (v < q)%Q.
Proof.
  cbn [below]. rewrite negb_true_iff. split.
  - intros Hq. apply Qnot_le_lt. intros Hle. apply Qle_bool_iff in Hle. congruence.
  - intros Hlt. destruct (Qle_bool q v) eqn:Hle; [|reflexivity].
    apply Qle_bool_iff in Hle. exfalso. exact (Qlt_not_le _ _ Hlt Hle).
Qed.

(** [os.path.join] of strings returns a path. *)
Lemma join_strings (a b c d : string) :
  exists path, Py.os_path_join (VStr a) [VStr b; VStr c; VStr d] = Ok path.
Proof.
  unfold Py.os_path_join, Py.fspath. run. cbn [Py.join_loop Py.fspath]. run.
  repeat match goal with
         | |- context [if ?x then _ else _] => destruct x
         end; eexists; reflexivity.
Qed.

(** The callback of [checkpoint] at the end of an epoch, in any state:
    it formats its path and saves the whole model there exactly when
    the validation loss is strictly below the best so far, which is
    then the new best. *)
Lemma on_epoch_end_best_only (path file : string) (b : Best) (m : KModel)
    (epoch : Z) (logs : list (string * PyVal)) (v : Q) (files : FS) :
  Py.format path (("epoch", VInt (epoch + 1)) :: logs) = Ok file ->
  Py.lookup_kw logs "val_loss" = Ok (VFloat v) ->
  let lower :=
    match b with
    | PosInf => True
    | Finite q => (v < q)%Q
    | NegInf => False
    end in
  (lower ->
   on_epoch_end (with_state (best_only_callback path) b 0) m epoch logs files =
     (Ok (with_state (best_only_callback path) (Finite v) 0),
      <[file := [SavedModel m]]> files)) /\
  (~ lower ->
   on_epoch_end (with_state (best_only_callback path) b 0) m epoch logs files =
     (Ok (with_state (best_only_callback path) b 0), files)).
Proof.
  intros Hfile Hv. unfold on_epoch_end.
  cbn [with_state best_only_callback save_freq is_epoch epochs_since_last_save
       period filepath save_best_only monitor monitor_op best].
  change (String.eqb "epoch" "epoch") with true. cbn iota.
  change (0 + 1 <? 1)%Z with false. cbn iota.
  rewrite Hfile, Hv. cbn [number improves].
  destruct b as [|q|]; cbn zeta.
  - split; [intros []|intros _; reflexivity].
  - pose proof (below_finite v q) as Hb.
    destruct (below (Finite v) (Finite q)).
    + split; [reflexivity|]. intros Hn. exfalso. apply Hn, Hb. reflexivity.
    + split; [|reflexivity]. intros Hlt. apply Hb in Hlt. discriminate Hlt.
  - split; [reflexivity|]. intros Hn. exfalso. exact (Hn I).
Qed.

(** C5. On an object whose model path and experiment name are strings,
    [checkpoint] sets a callback on the join of model path, experiment
    name, ["checkpoints"] and the template.  The callback watches
    ["val_loss"]: at the end of every epoch it writes the whole model to
    its path, filled in, exactly when the validation loss [v] is
    strictly below the best so far ([v < q] for a best [q], always while
    there is none, the best starting at plus infinity), and [v] is then
    the new best; otherwise it writes nothing and keeps its best.  The
    template's fields are the
    epoch as [02d] and the loss and the validation loss as [.4f].  For
    plain path components the path is
    <model_path>/<experiment_name>/checkpoints/<template>, and filled in
    it is [checkpoint_file]. *)
Theorem checkpoint_policy (u : UNet) (w : World) (root name : string) :
  model_path u = VStr root ->
  experiment_name u = VStr name ->
  exists path,
    Py.os_path_join (VStr root)
      [VStr name; VStr "checkpoints"; VStr checkpoint_template] = Ok path /\
    checkpoint u w =
      (Ok VNone, set_checkpoint_callback (Some (best_only_callback path)) u, w) /\
    (forall (b : Best) (m : KModel) (epoch : Z) (logs : list (string * PyVal))
            (v : Q) (files : FS) (file : string),
       Py.format path (("epoch", VInt (epoch + 1)) :: logs) = Ok file ->
       Py.lookup_kw logs "val_loss" = Ok (VFloat v) ->
       let lower :=
         match b with
         | PosInf => True
         | Finite q => (v < q)%Q
         | NegInf => False
         end in
       (lower ->
        on_epoch_end (with_state (best_only_callback path) b 0) m epoch logs files =
          (Ok (with_state (best_only_callback path) (Finite v) 0),
           <[file := [SavedModel m]]> files)) /\
       (~ lower ->
        on_epoch_end (with_state (best_only_callback path) b 0) m epoch logs files =
          (Ok (with_state (best_only_callback path) b 0), files))) /\
    best (best_only_callback path) = PosInf /\
    Py.parse_template checkpoint_template =
      Ok [Py.Lit "weights-"; Py.Field "epoch" "02d"; Py.Lit "-";
          Py.Field "loss" ".4f"; Py.Lit "-"; Py.Field "val_loss" ".4f"] /\
    Py.parse_spec "02d" = Ok spec_02d /\
    Py.parse_spec ".4f" = Ok spec_4f /\
    (plain_root root = true -> plain_name name = true ->
     path = root ++ "/" ++ name ++ "/checkpoints/" ++ checkpoint_template /\
     (brace_free root = true -> brace_free name = true ->
      forall (epoch : Z) (logs : list (string * PyVal)) (l v : Q),
        Py.lookup_kw logs "loss" = Ok (VFloat l) ->
        Py.lookup_kw logs "val_loss" = Ok (VFloat v) ->
        Py.format path (("epoch", VInt (epoch + 1)) :: logs) =
          Ok (checkpoint_file root name epoch l v))).
Proof.
  intros Hroot Hname.
  destruct (join_strings root name "checkpoints" checkpoint_template) as [path Hpath].
  exists path. split; [exact Hpath|].
  split; [|split; [|split; [reflexivity|split; [reflexivity|split;
    [reflexivity|split; [reflexivity|]]]]]].
  - unfold checkpoint. run. rewrite Hroot, Hname, Hpath. reflexivity.
  - intros b m epoch logs v files file. apply on_epoch_end_best_only.
  - intros Hpr Hpn.
    rewrite (join_plain root name "checkpoints" checkpoint_template Hpr Hpn)
      in Hpath by (reflexivity || discriminate).
    injection Hpath as <-. split; [reflexivity|].
    intros Hbr Hbn epoch logs l v Hl Hv.
    replace (root ++ "/" ++ name ++ "/" ++ "checkpoints" ++ "/" ++ checkpoint_template)
      with ((root ++ "/" ++ name ++ "/checkpoints/weights-")
              ++ "{epoch:02d}-{loss:.4f}-{val_loss:.4f}")
      by (rewrite !append_assoc; reflexivity).
    rewrite (format_checkpoint_fields _ (epoch + 1) l v logs); [|
      rewrite !brace_free_app, Hbr, Hbn; reflexivity | exact Hl | exact Hv].
    unfold checkpoint_file. rewrite !append_assoc. reflexivity.
Qed.

Lemma checkpoint_policy_witness :
  let u := Sample.constructed in
  let w := Sample.start in
  let path := "models/exp1/checkpoints/weights-{epoch:02d}-{loss:.4f}-{val_loss:.4f}" in
  let file := "models/exp1/checkpoints/weights-01-0.5000-0.2500" in
  let cb := best_only_callback path in
  model_path u = VStr "models" /\
  experiment_name u = VStr "exp1" /\
  checkpoint u w = (Ok VNone, set_checkpoint_callback (Some cb) u, w) /\
  Py.format path (("epoch", VInt (0 + 1)) :: Sample.logs) = Ok file /\
  Py.lookup_kw Sample.logs "val_loss" = Ok (VFloat (1 # 4)) /\
  forall m,
    on_epoch_end cb m 0 Sample.logs ∅ =
      (Ok (with_state cb (Finite (1 # 4)) 0), <[file := [SavedModel m]]> ∅) /\
    on_epoch_end (with_state cb (Finite (1 # 2)) 0) m 0 Sample.logs ∅ =
      (Ok (with_state cb (Finite (1 # 4)) 0), <[file := [SavedModel m]]> ∅) /\
    on_epoch_end (with_state cb (Finite (1 # 4)) 0) m 0 Sample.logs ∅ =
      (Ok (with_state cb (Finite (1 # 4)) 0), ∅).
Proof.
  intros u w path file cb.
  destruct (checkpoint_policy u w "models" "exp1" eq_refl eq_refl)
    as (path' & Hpath & Hc & Hend & _ & _ & _ & _ & Hplain).
  destruct (Hplain eq_refl eq_refl) as [Hp Hfill].
  assert (Hpp : path' = path) by (rewrite Hp; reflexivity). subst path'.
  assert (Hfile : Py.format path (("epoch", VInt (0 + 1)) :: Sample.logs) = Ok file)
    by exact (Hfill eq_refl eq_refl 0%Z Sample.logs (1 # 2) (1 # 4) eq_refl eq_refl).
  split; [reflexivity|]. split; [reflexivity|]. split; [exact Hc|].
  split; [exact Hfile|]. split; [reflexivity|].
  intros m. split; [|split].
  - exact (proj1 (Hend PosInf m 0%Z Sample.logs (1 # 4) ∅ file Hfile eq_refl) I).
  - exact (proj1 (Hend (Finite (1 # 2)) m 0%Z Sample.logs (1 # 4) ∅ file Hfile eq_refl)
             eq_refl).
  - refine (proj2 (Hend (Finite (1 # 4)) m 0%Z Sample.logs (1 # 4) ∅ file Hfile eq_refl) _).
    intros Hlt. vm_compute in Hlt. discriminate Hlt.
Defined.

(** The fields at work: two digits for the epoch, four decimals for the
    losses, rounded to nearest with ties to even. *)
Example checkpoint_file_sample :
  checkpoint_file "models" "exp1" 2 (123456 # 1000000) (1 # 32) =
    "models/exp1/checkpoints/weights-03-0.1235-0.0312" /\
  checkpoint_file "models" "exp1" 122 3 (7 # 2) =
    "models/exp1/checkpoints/weights-123-3.0000-3.5000".
Proof. split; vm_compute; reflexivity. Qed.

(** With an absolute experiment name [os.path.join] drops the model
    path, and a trailing separator is not doubled. *)
Example join_not_plain :
  Py.os_path_join (VStr "models") [VStr "/exp1"; VStr "checkpoints"; VStr "w"] =
    Ok "/exp1/checkpoints/w" /\
  Py.os_path_join (VStr "models/") [VStr "exp1"; VStr "checkpoints"; VStr "w"] =
    Ok "models/exp1/checkpoints/w".
Proof. split; reflexivity. Qed.

(** ** Who reads the configuration *)

Lemma set_config_same (w : World) : set_config (config w) w = w.
Proof. destruct w; reflexivity. Qed.

Lemma ignores_config_ret {A} (a : A) : ignores_config (mret a : M A).
Proof. intros u w cfg. reflexivity. Qed.

Lemma ignores_config_bind {A B} (c : M A) (f : A -> M B) :
  ignores_config c -> (forall a, ignores_config (f a)) ->
  ignores_config (c ≫= f).
Proof.
  intros Hc Hf u w cfg. unfold mbind, M_bind. rewrite (Hc u w cfg).
  unfold outcome_of, self_of, world_of.
  destruct (c u w) as [[[a|e] u'] w']; cbn [fst snd]; [|reflexivity].
  apply Hf.
Qed.

Lemma ignores_config_raise {A} (e : Exn) : ignores_config (raise e : M A).
Proof. intros u w cfg. reflexivity. Qed.

Lemma ignores_config_lift {A} (o : Outcome A) : ignores_config (lift o).
Proof. intros u w cfg. reflexivity. Qed.

Lemma ignores_config_self : ignores_config self.
Proof. intros u w cfg. reflexivity. Qed.

Lemma ignores_config_clock : ignores_config read_clock.
Proof. intros u w cfg. reflexivity. Qed.

Lemma ignores_config_assign (f : UNet -> UNet) : ignores_config (assign f).
Proof. intros u w cfg. reflexivity. Qed.

Lemma ignores_config_log (e : Event) : ignores_config (effect (log_event e)).
Proof. intros u w cfg. reflexivity. Qed.

Lemma ignores_config_writer (d : option string) :
  ignores_config (effect (set_default_writer d)).
Proof. intros u w cfg. reflexivity. Qed.

Lemma ignores_config_files {A} (f : FS -> Outcome A * FS) :
  ignores_config (on_files f).
Proof.
  intros u w cfg. unfold on_files, outcome_of, self_of, world_of.
  cbn [set_config fs]. destruct (f (fs w)) as [r fs']. reflexivity.
Qed.

Lemma ignores_config_run_fit `{Framework} (m : KModel) (args : FitArgs) :
  ignores_config (run_fit m args).
Proof.
  intros u w cfg. unfold run_fit, outcome_of, self_of, world_of.
  cbn [set_config fs]. destruct (Model_fit m args (fs w)) as [[r m'] fs'].
  reflexivity.
Qed.

Create HintDb config discriminated.
#[local] Hint Resolve ignores_config_ret ignores_config_raise ignores_config_lift
  ignores_config_self ignores_config_clock ignores_config_assign
  ignores_config_log ignores_config_writer ignores_config_files
  ignores_config_run_fit : config.

(** Goes through a method bind by bind. *)
Ltac ignores :=
  repeat first
    [ apply ignores_config_bind; [|intros ?]
    | solve [auto with config]
    | match goal with
      | |- ignores_config (match ?x with _ => _ end) => destruct x
      | |- ignores_config (let '(_, _) := ?x in _) => destruct x
      end ].

Lemma ignores_config_preserves {A} (c : M A) (u : UNet) (w : World) :
  ignores_config c -> config (world_of (c u w)) = config w.
Proof.
  intros Hc. specialize (Hc u w (config w)). rewrite set_config_same in Hc.
  apply (f_equal (fun r => config (world_of r))) in Hc. exact Hc.
Qed.

Lemma checkpoint_ignores_config : ignores_config checkpoint.
Proof. unfold checkpoint. ignores. Qed.

Lemma tensorboard_ignores_config : ignores_config tensorboard.
Proof. unfold tensorboard. ignores. Qed.

Lemma dump_history_ignores_config (mode : OpenMode) (h : History) :
  ignores_config (dump_history mode h).
Proof. unfold dump_history. ignores. Qed.

Section Config.
Context `{Framework}.

Lemma load_data_ignores_config (b : bool) : ignores_config (load_data b).
Proof. unfold load_data. ignores. Qed.

Lemma fit_ignores_config : ignores_config fit.
Proof. unfold fit, fit_arguments, flow. ignores. Qed.

Lemma train_ignores_config : ignores_config train.
Proof.
  unfold train. apply ignores_config_bind; [apply fit_ignores_config|].
  intros h. apply ignores_config_bind; [apply dump_history_ignores_config|].
  intros _. apply ignores_config_ret.
Qed.

Lemma evaluate_ignores_config : ignores_config evaluate.
Proof. unfold evaluate. ignores. Qed.

End Config.

(** [build] looks at the configuration through three keys only. *)
Lemma build_reads_schedule (u : UNet) (w : World) (cfg : Py.Config) :
  schedule_of cfg = schedule_of (config w) ->
  build u (set_config cfg w) =
    (outcome_of (build u w), self_of (build u w),
     set_config cfg (world_of (build u w))).
Proof.
  unfold schedule_of. intros Hs. injection Hs as H1 H2 H3.
  destruct create_model_ok as (m0 & Hm0 & _).
  unfold build. rewrite Hm0. run. cbn [set_config config].
  rewrite H1, H2, H3.
  destruct (Py.getitem2 (config w) "train" "initial_learning_rate"); [|reflexivity].
  destruct (Py.getitem2 (config w) "train" "decay_steps"); [|reflexivity].
  destruct (Py.getitem2 (config w) "train" "decay_rate"); reflexivity.
Qed.

Lemma build_keeps_config (u : UNet) (w : World) :
  config (world_of (build u w)) = config w.
Proof.
  pose proof (build_reads_schedule u w (config w) eq_refl) as Hb.
  rewrite set_config_same in Hb.
  apply (f_equal (fun r => config (world_of r))) in Hb. exact Hb.
Qed.

(** [__init__] looks at the configuration through six keys only. *)
Lemma init_reads_captured (w w' : World) :
  captured_of (config w) = captured_of (config w') -> __init__ w = __init__ w'.
Proof.
  unfold captured_of. intros Hc. injection Hc as H1 H2 H3 H4 H5 H6.
  unfold __init__. cbn zeta. rewrite H1, H2, H3, H4, H5, H6. reflexivity.
Qed.

(** Against C7 as stated: an object constructed under the sample
    configuration and then built gets its decay rate from whatever the
    configuration says at the time of [build]; so [build] does read the
    configuration again. *)
Lemma build_rereads_config :
  __init__ Sample.start = Ok Sample.constructed /\
  learning_rate_of (self_of (build Sample.constructed Sample.start)) =
    Some (ExponentialDecay (VFloat (1 # 1000)) (VInt 1000) (VFloat (9 # 10))) /\
  learning_rate_of
    (self_of (build Sample.constructed
                (set_config Sample.config_other_rate Sample.start))) =
    Some (ExponentialDecay (VFloat (1 # 1000)) (VInt 1000) (VFloat (1 # 2))) /\
  ~ ignores_config build.
Proof.
  assert (H1 : learning_rate_of (self_of (build Sample.constructed Sample.start)) =
               Some (ExponentialDecay (VFloat (1 # 1000)) (VInt 1000) (VFloat (9 # 10))))
    by (vm_compute; reflexivity).
  assert (H2 : learning_rate_of
                 (self_of (build Sample.constructed
                             (set_config Sample.config_other_rate Sample.start))) =
               Some (ExponentialDecay (VFloat (1 # 1000)) (VInt 1000) (VFloat (1 # 2))))
    by (vm_compute; reflexivity).
  split; [vm_compute; reflexivity|]. split; [exact H1|]. split; [exact H2|].
  intros Hb.
  specialize (Hb Sample.constructed Sample.start Sample.config_other_rate).
  apply (f_equal (fun r => learning_rate_of (self_of r))) in Hb.
  cbv beta in Hb. unfold self_of at 2 in Hb. cbn [fst snd] in Hb.
  fold (self_of (build Sample.constructed Sample.start)) in Hb.
  rewrite H1, H2 in Hb. discriminate Hb.
Qed.

(** C7, amended. The configuration is read by [__init__], through the
    six keys it captures, and again by [build], through the three keys
    of the learning-rate schedule and nothing else.  [checkpoint],
    [tensorboard], [train] and [evaluate] do not look at it: they work
    from the fields of the object.  No call changes it. *)
Theorem config_read_by_init_and_build `{Framework} :
  (forall w w',
     captured_of (config w) = captured_of (config w') -> __init__ w = __init__ w') /\
  (forall u w cfg,
     schedule_of cfg = schedule_of (config w) ->
     build u (set_config cfg w) =
       (outcome_of (build u w), self_of (build u w),
        set_config cfg (world_of (build u w)))) /\
  ignores_config checkpoint /\
  ignores_config tensorboard /\
  ignores_config train /\
  ignores_config evaluate /\
  (forall o u w, config (world_of (run_op o u w)) = config w).
Proof.
  split; [exact init_reads_captured|]. split; [exact build_reads_schedule|].
  split; [exact checkpoint_ignores_config|].
  split; [exact tensorboard_ignores_config|].
  split; [exact train_ignores_config|].
  split; [exact evaluate_ignores_config|].
  intros [b| | | | |] u w; cbn [run_op].
  - apply ignores_config_preserves, load_data_ignores_config.
  - apply build_keeps_config.
  - apply ignores_config_preserves, checkpoint_ignores_config.
  - apply ignores_config_preserves, tensorboard_ignores_config.
  - apply ignores_config_preserves, train_ignores_config.
  - apply ignores_config_preserves, evaluate_ignores_config.
Qed.

Lemma config_read_by_init_and_build_witness :
  let w := Sample.start in
  let w' := set_config Sample.config_other_rate Sample.start in
  let u := Sample.constructed in
  captured_of (config w) = captured_of (config w') /\
  __init__ w = __init__ w' /\
  schedule_of Sample.config_absolute_name = schedule_of (config w) /\
  self_of (build u (set_config Sample.config_absolute_name w)) = self_of (build u w) /\
  @train Sample.framework Sample.ready.1 (set_config ∅ Sample.ready.2) =
    (outcome_of (@train Sample.framework Sample.ready.1 Sample.ready.2),
     self_of (@train Sample.framework Sample.ready.1 Sample.ready.2),
     set_config ∅ (world_of (@train Sample.framework Sample.ready.1 Sample.ready.2))).
Proof.
  intros w w' u.
  destruct (@config_read_by_init_and_build Sample.framework)
    as (Hinit & Hbuild & _ & _ & Htrain & _).
  assert (Hc : captured_of (config w) = captured_of (config w'))
    by (vm_compute; reflexivity).
  assert (Hs : schedule_of Sample.config_absolute_name = schedule_of (config w))
    by (vm_compute; reflexivity).
  split; [exact Hc|]. split; [exact (Hinit w w' Hc)|]. split; [exact Hs|].
  split; [rewrite (Hbuild u w _ Hs); reflexivity|].
  exact (Htrain Sample.ready.1 Sample.ready.2 ∅).
Defined.

(** * Further properties of the methods *)

(** ** Construction *)

Lemma generator_keeps_split (v : PyVal) (g : ImageDataGenerator) :
  ImageDataGenerator_init v = Ok g -> validation_split g = v.
Proof.
  unfold ImageDataGenerator_init. intros Hg.
  destruct (Py.truthy v); [|injection Hg as <-; reflexivity].
  destruct v as [|z|q|s|sp]; try discriminate Hg.
  destruct (_ && _)%bool; [injection Hg as <-; reflexivity | discriminate Hg].
Qed.

(** X1. A freshly constructed object holds no data, no model and no
    callback, and its generator and hyper-parameter fields are the six
    values found in the configuration. *)
Theorem init_fresh (w : World) (u : UNet) :
  __init__ w = Ok u ->
  train_input u = None /\ train_output u = None /\
  test_input u = None /\ test_output u = None /\
  model u = None /\
  checkpoint_callback u = None /\ tensorboard_callback u = None /\
  captured_of (config w) =
    [Ok (validation_split (data_generator u)); Ok (model_path u);
     Ok (experiment_name u); Ok (epochs u);
     Ok (train_batch_size u); Ok (val_batch_size u)].
Proof.
  unfold __init__, captured_of. run. cbn zeta. intros Hu.
  destruct (Py.getitem2 (config w) "train" "validation_split") as [v|];
    [|discriminate Hu].
  destruct (ImageDataGenerator_init v) as [g|] eqn:Hg; [|discriminate Hu].
  apply generator_keeps_split in Hg.
  repeat match type of Hu with
         | match ?o with Ok _ => _ | Raise _ => _ end = _ =>
             destruct o; [|discriminate Hu]
         end.
  injection Hu as <-. cbn. rewrite Hg. repeat split.
Qed.

Lemma init_fresh_witness :
  __init__ Sample.start = Ok Sample.constructed /\
  model Sample.constructed = None /\
  train_input Sample.constructed = None /\
  model_path Sample.constructed = VStr "models" /\
  val_batch_size Sample.constructed = VInt 2.
Proof.
  assert (Hinit : __init__ Sample.start = Ok Sample.constructed)
    by (vm_compute; reflexivity).
  destruct (init_fresh Sample.start Sample.constructed Hinit)
    as (Hti & _ & _ & _ & Hm & _).
  split; [exact Hinit|]. split; [exact Hm|]. split; [exact Hti|].
  split; reflexivity.
Defined.

(** X2. Construction succeeds exactly when the six keys it looks up are
    present and the generator accepts the validation split; the keys of
    the learning-rate schedule play no part. *)
Theorem init_needs_six_keys (w : World) :
  (exists u, __init__ w = Ok u) <->
  (Forall (fun o => exists v, o = Ok v) (captured_of (config w)) /\
   exists v g,
     Py.getitem2 (config w) "train" "validation_split" = Ok v /\
     ImageDataGenerator_init v = Ok g).
Proof.
  unfold __init__, captured_of. run. cbn zeta. split.
  - intros [u Hu].
    destruct (Py.getitem2 (config w) "train" "validation_split") as [v|];
      [|discriminate Hu].
    destruct (ImageDataGenerator_init v) as [g|] eqn:Hg; [|discriminate Hu].
    repeat match type of Hu with
           | match ?o with Ok _ => _ | Raise _ => _ end = _ =>
               destruct o; [|discriminate Hu]
           end.
    split; [repeat constructor; eexists; reflexivity|].
    exists v, g. split; [reflexivity | exact Hg].
  - intros [Hall (v & g & Hv & Hg)].
    repeat match goal with
           | H : Forall _ (_ :: _) |- _ =>
               let Hh := fresh "Hh" in
               apply Forall_cons_iff in H as [Hh H]; destruct Hh as [? Hh];
               rewrite Hh in *
           end.
    injection Hv as ->. rewrite Hg. eexists. reflexivity.
Qed.

(** ** [build] *)

(** [build] by cases on the three look-ups, made in this order. *)
Lemma build_cases (u : UNet) (w : World) (m0 : KModel) :
  _create_model = Ok m0 ->
  build u w =
    match Py.getitem2 (config w) "train" "initial_learning_rate" with
    | Raise e => (Raise e, set_model (Some m0) u, w)
    | Ok a =>
        match Py.getitem2 (config w) "train" "decay_steps" with
        | Raise e => (Raise e, set_model (Some m0) u, w)
        | Ok b =>
            match Py.getitem2 (config w) "train" "decay_rate" with
            | Raise e => (Raise e, set_model (Some m0) u, w)
            | Ok c =>
                (Ok VNone,
                 set_model
                   (Some (compile m0 (Adam (ExponentialDecay a b c))
                            "mean_absolute_error" ["accuracy"])) u,
                 w)
            end
        end
    end.
Proof.
  intros Hm0. unfold build. rewrite Hm0. run.
  destruct (Py.getitem2 (config w) "train" "initial_learning_rate"); [|reflexivity].
  destruct (Py.getitem2 (config w) "train" "decay_steps"); [|reflexivity].
  destruct (Py.getitem2 (config w) "train" "decay_rate"); reflexivity.
Qed.

(** X3. With the three schedule keys present and holding a positive
    float as initial learning rate, a positive number of decay steps (a
    float, or an integer below [2^31]) and a positive float as decay
    rate, [build] returns [None] and leaves
    the world alone; the model it stores is the created graph, compiled
    with Adam on an exponential decay of exactly those three values, the
    mean absolute error as loss and accuracy as metric. *)
Theorem build_compiles (u : UNet) (w : World) (a b c : PyVal) :
  Py.getitem2 (config w) "train" "initial_learning_rate" = Ok a ->
  Py.getitem2 (config w) "train" "decay_steps" = Ok b ->
  Py.getitem2 (config w) "train" "decay_rate" = Ok c ->
  positive_float a = true ->
  positive_steps b = true ->
  positive_float c = true ->
  exists m0,
    _create_model = Ok m0 /\ compiled m0 = None /\
    build u w =
      (Ok VNone,
       set_model
         (Some (compile m0 (Adam (ExponentialDecay a b c))
                  "mean_absolute_error" ["accuracy"])) u,
       w).
Proof.
  intros Ha Hb Hc _ _ _. destruct create_model_ok as (m0 & Hm0 & _ & _ & _ & Hcomp).
  exists m0. split; [exact Hm0|]. split; [exact Hcomp|].
  rewrite (build_cases u w m0 Hm0), Ha, Hb, Hc. reflexivity.
Qed.

Lemma build_compiles_witness :
  Py.getitem2 (config Sample.start) "train" "initial_learning_rate" = Ok (VFloat (1 # 1000)) /\
  Py.getitem2 (config Sample.start) "train" "decay_steps" = Ok (VInt 1000) /\
  Py.getitem2 (config Sample.start) "train" "decay_rate" = Ok (VFloat (9 # 10)) /\
  positive_float (VFloat (1 # 1000)) = true /\
  positive_steps (VInt 1000) = true /\
  positive_float (VFloat (9 # 10)) = true /\
  outcome_of (build Sample.constructed Sample.start) = Ok VNone /\
  world_of (build Sample.constructed Sample.start) = Sample.start /\
  learning_rate_of (self_of (build Sample.constructed Sample.start)) =
    Some (ExponentialDecay (VFloat (1 # 1000)) (VInt 1000) (VFloat (9 # 10))).
Proof.
  assert (Ha : Py.getitem2 (config Sample.start) "train" "initial_learning_rate"
               = Ok (VFloat (1 # 1000))) by (vm_compute; reflexivity).
  assert (Hb : Py.getitem2 (config Sample.start) "train" "decay_steps"
               = Ok (VInt 1000)) by (vm_compute; reflexivity).
  assert (Hc : Py.getitem2 (config Sample.start) "train" "decay_rate"
               = Ok (VFloat (9 # 10))) by (vm_compute; reflexivity).
  destruct (build_compiles Sample.constructed Sample.start _ _ _ Ha Hb Hc
              eq_refl eq_refl eq_refl) as (m0 & _ & _ & Hbuild).
  split; [exact Ha|]. split; [exact Hb|]. split; [exact Hc|].
  do 3 (split; [reflexivity|]).
  rewrite Hbuild. repeat split.
Defined.

(** X4. When one of the three schedule keys is missing, [build] raises,
    but not before it has replaced the model: the object is left with
    the new graph, uncompiled, and everything else as it was. *)
Theorem build_missing_key (u : UNet) (w : World) :
  Exists (fun o => exists e, o = Raise e) (schedule_of (config w)) ->
  exists e m0,
    In (Raise e) (schedule_of (config w)) /\
    _create_model = Ok m0 /\ compiled m0 = None /\
    build u w = (Raise e, set_model (Some m0) u, w).
Proof.
  intros Hmiss. destruct create_model_ok as (m0 & Hm0 & _ & _ & _ & Hcomp).
  rewrite (build_cases u w m0 Hm0). unfold schedule_of in *.
  destruct (Py.getitem2 (config w) "train" "initial_learning_rate") as [a|e1];
    [|exists e1, m0; cbn; auto].
  destruct (Py.getitem2 (config w) "train" "decay_steps") as [b|e2];
    [|exists e2, m0; cbn; auto].
  destruct (Py.getitem2 (config w) "train" "decay_rate") as [c|e3];
    [|exists e3, m0; cbn; auto 6].
  exfalso.
  repeat match goal with
         | H : Exists _ (_ :: _) |- _ =>
             apply Exists_cons in H as [[? H]|H]; [discriminate H|]
         end.
  inversion Hmiss.
Qed.

Lemma build_missing_key_witness :
  let w := set_config Sample.config_no_rate Sample.start in
  let r := build Sample.constructed w in
  Exists (fun o => exists e, o = Raise e) (schedule_of (config w)) /\
  outcome_of r = Raise (KeyError "decay_rate") /\
  (exists m, model (self_of r) = Some m /\ compiled m = None).
Proof.
  intros w r.
  assert (Hmiss : Exists (fun o => exists e, o = Raise e) (schedule_of (config w))).
  { unfold schedule_of. do 2 apply Exists_cons_tl. apply Exists_cons_hd.
    exists (KeyError "decay_rate"). vm_compute. reflexivity. }
  destruct (build_missing_key Sample.constructed w Hmiss)
    as (e & m0 & _ & _ & Hcomp & Hbuild).
  split; [exact Hmiss|]. subst r. split.
  - vm_compute. reflexivity.
  - rewrite Hbuild. exists m0. split; [reflexivity | exact Hcomp].
Defined.

(** X5. [build] does not look at the model the object had: it replaces
    it whatever it was, touches no other field and nothing in the world.
    Building again ends the same way and gives a model of the same
    architecture, compiled the same way; what training had put in the
    old model is thrown away. *)
Theorem build_overwrites (u : UNet) (w : World) (old : option KModel) :
  build (set_model old u) w = build u w /\
  self_of (build u w) = set_model (model (self_of (build u w))) u /\
  world_of (build u w) = w /\
  let again := build (self_of (build u w)) (world_of (build u w)) in
  outcome_of again = outcome_of (build u w) /\
  architecture <$> model (self_of again) =
    architecture <$> model (self_of (build u w)) /\
  same_data_and_hyperparameters u (self_of again) /\
  checkpoint_callback (self_of again) = checkpoint_callback u /\
  tensorboard_callback (self_of again) = tensorboard_callback u.
Proof.
  destruct create_model_ok as (m0 & Hm0 & _).
  assert (Hold : forall o, build (set_model o u) w = build u w).
  { intros o.
    rewrite (build_cases (set_model o u) w m0 Hm0), (build_cases u w m0 Hm0).
    repeat match goal with
           | |- context [match ?o with Ok _ => _ | Raise _ => _ end] => destruct o
           end; reflexivity. }
  split; [apply Hold|].
  assert (Hs : self_of (build u w) = set_model (model (self_of (build u w))) u
               /\ world_of (build u w) = w).
  { rewrite (build_cases u w m0 Hm0).
    repeat match goal with
           | |- context [match ?o with Ok _ => _ | Raise _ => _ end] => destruct o
           end; split; reflexivity. }
  destruct Hs as [Hs Hw]. split; [exact Hs|]. split; [exact Hw|].
  assert (Hagain : build (self_of (build u w)) w = build u w)
    by (rewrite Hs; apply Hold).
  cbn zeta. rewrite Hw, Hagain.
  split; [reflexivity|]. split; [reflexivity|].
  rewrite Hs. unfold same_data_and_hyperparameters.
  destruct u as [x1 x2 x3 x4 x5 x6 x7 x8 x9 x10 x11 x12 x13].
  cbn [set_model train_input train_output test_input test_output data_generator
       model_path experiment_name epochs train_batch_size val_batch_size
       checkpoint_callback tensorboard_callback].
  repeat split.
Qed.

Lemma build_overwrites_witness :
  let first := build Sample.constructed Sample.start in
  let again := build (self_of first) (world_of first) in
  outcome_of again = Ok VNone /\
  architecture <$> model (self_of again) = architecture <$> model (self_of first) /\
  is_Some (model (self_of again)).
Proof.
  intros first again.
  destruct (build_overwrites Sample.constructed Sample.start None)
    as (_ & _ & _ & Ho & Ha & _).
  split; [refine (eq_trans Ho _); vm_compute; reflexivity|]. split; [exact Ha|].
  subst again first. vm_compute. eexists. reflexivity.
Defined.

(** ** The set-up calls in any order *)

Lemma set_checkpoint_callback_eta (u : UNet) :
  set_checkpoint_callback (checkpoint_callback u) u = u.
Proof. destruct u as [x1 x2 x3 x4 x5 x6 x7 x8 x9 x10 x11 x12 x13]; reflexivity. Qed.

Lemma set_tensorboard_callback_eta (u : UNet) :
  set_tensorboard_callback (tensorboard_callback u) u = u.
Proof. destruct u as [x1 x2 x3 x4 x5 x6 x7 x8 x9 x10 x11 x12 x13]; reflexivity. Qed.

(** [checkpoint] looks at the model path and the experiment name only,
    and not at the world. *)
Lemma checkpoint_elsewhere (u u' : UNet) (w w' : World) :
  model_path u' = model_path u -> experiment_name u' = experiment_name u ->
  checkpoint u' w' =
    (outcome_of (checkpoint u w),
     set_checkpoint_callback
       (match outcome_of (checkpoint u w) with
        | Ok _ => checkpoint_callback (self_of (checkpoint u w))
        | Raise _ => checkpoint_callback u'
        end) u',
     w').
Proof.
  intros Hp Hn. unfold checkpoint. run. rewrite Hp, Hn.
  destruct (Py.os_path_join _ _) as [path|e];
    [|cbn [fst snd]; rewrite set_checkpoint_callback_eta; reflexivity].
  destruct (ModelCheckpoint_init _ _ _ _ _ _ _ _) as [cb|e];
    [reflexivity | cbn [fst snd]; rewrite set_checkpoint_callback_eta; reflexivity].
Qed.

(** [tensorboard] looks at the model path, the experiment name and the
    clock only. *)
Lemma tensorboard_elsewhere (u u' : UNet) (w w' : World) :
  model_path u' = model_path u -> experiment_name u' = experiment_name u ->
  now w' = now w ->
  tensorboard u' w' =
    (outcome_of (tensorboard u w),
     set_tensorboard_callback
       (match outcome_of (tensorboard u w) with
        | Ok _ => tensorboard_callback (self_of (tensorboard u w))
        | Raise _ => tensorboard_callback u'
        end) u',
     match tensorboard_callback (self_of (tensorboard u w)),
           outcome_of (tensorboard u w) with
     | Some cb, Ok _ =>
         set_default_writer (Some (log_dir cb))
           (log_event (EvCreateFileWriter (log_dir cb)) w')
     | _, _ => w'
     end).
Proof.
  intros Hp Hn Ht. unfold tensorboard. run. rewrite Hp, Hn, Ht.
  destruct (Py.os_path_join _ _) as [path|e]; [reflexivity|].
  cbn [fst snd]. rewrite set_tensorboard_callback_eta.
  destruct (tensorboard_callback u); reflexivity.
Qed.

Lemma build_elsewhere (u u' : UNet) (w w' : World) :
  config w' = config w ->
  build u' w' =
    (outcome_of (build u w), set_model (model (self_of (build u w))) u', w').
Proof.
  intros Hc. destruct create_model_ok as (m0 & Hm0 & _).
  rewrite (build_cases u' w' m0 Hm0), (build_cases u w m0 Hm0), Hc.
  repeat match goal with
         | |- context [match ?o with Ok _ => _ | Raise _ => _ end] => destruct o
         end; reflexivity.
Qed.

Section Order.
Context `{Framework}.

Lemma swap_build_checkpoint (u : UNet) (w : World) :
  run_ops [OpBuild; OpCheckpoint] u w = run_ops [OpCheckpoint; OpBuild] u w.
Proof.
  cbn [run_ops run_op].
  pose proof (build_elsewhere u u w w eq_refl) as Hb.
  pose proof (checkpoint_elsewhere u u w w eq_refl eq_refl) as Hc.
  pose proof (fun m => checkpoint_elsewhere u (set_model m u) w w eq_refl eq_refl) as Hc'.
  pose proof (fun c => build_elsewhere u (set_checkpoint_callback c u) w w eq_refl) as Hb'.
  set (ob := outcome_of (build u w)) in *.
  set (mb := model (self_of (build u w))) in *.
  set (oc := outcome_of (checkpoint u w)) in *.
  set (cc := checkpoint_callback (self_of (checkpoint u w))) in *.
  clearbody ob mb oc cc.
  rewrite Hb, Hc. unfold self_of, world_of. cbn [fst snd].
  rewrite Hc', Hb'. cbn [fst snd]. destruct oc; reflexivity.
Qed.

Lemma swap_build_tensorboard (u : UNet) (w : World) :
  run_ops [OpBuild; OpTensorboard] u w = run_ops [OpTensorboard; OpBuild] u w.
Proof.
  cbn [run_ops run_op].
  pose proof (build_elsewhere u u w w eq_refl) as Hb.
  pose proof (tensorboard_elsewhere u u w w eq_refl eq_refl eq_refl) as Ht.
  pose proof (fun m => tensorboard_elsewhere u (set_model m u) w w
                         eq_refl eq_refl eq_refl) as Ht'.
  pose proof (fun c w' (Hw : config w' = config w) =>
                build_elsewhere u (set_tensorboard_callback c u) w w' Hw) as Hb'.
  set (ob := outcome_of (build u w)) in *.
  set (mb := model (self_of (build u w))) in *.
  set (ot := outcome_of (tensorboard u w)) in *.
  set (ct := tensorboard_callback (self_of (tensorboard u w))) in *.
  clearbody ob mb ot ct.
  rewrite Hb, Ht. unfold self_of, world_of. cbn [fst snd].
  rewrite Ht'. cbn [fst snd].
  rewrite Hb' by (destruct ct, ot; reflexivity).
  cbn [fst snd]. destruct ot; reflexivity.
Qed.

Lemma swap_checkpoint_tensorboard (u : UNet) (w : World) :
  run_ops [OpCheckpoint; OpTensorboard] u w = run_ops [OpTensorboard; OpCheckpoint] u w.
Proof.
  cbn [run_ops run_op].
  pose proof (checkpoint_elsewhere u u w w eq_refl eq_refl) as Hc.
  pose proof (tensorboard_elsewhere u u w w eq_refl eq_refl eq_refl) as Ht.
  pose proof (fun c => tensorboard_elsewhere u (set_checkpoint_callback c u) w w
                         eq_refl eq_refl eq_refl) as Ht'.
  pose proof (fun c w' =>
                checkpoint_elsewhere u (set_tensorboard_callback c u) w w'
                  eq_refl eq_refl) as Hc'.
  set (oc := outcome_of (checkpoint u w)) in *.
  set (cc := checkpoint_callback (self_of (checkpoint u w))) in *.
  set (ot := outcome_of (tensorboard u w)) in *.
  set (ct := tensorboard_callback (self_of (tensorboard u w))) in *.
  clearbody oc cc ot ct.
  rewrite Hc, Ht. unfold self_of, world_of. cbn [fst snd].
  rewrite Ht', Hc'. cbn [fst snd]. destruct oc, ot; reflexivity.
Qed.

(** Two set-up calls give the same object and world in either order. *)
Lemma setup_swap (a b : Op) (u : UNet) (w : World) :
  is_setup a = true -> is_setup b = true ->
  run_ops [a; b] u w = run_ops [b; a] u w.
Proof.
  intros Ha Hb. destruct a, b; try discriminate.
  - reflexivity.
  - apply swap_build_checkpoint.
  - apply swap_build_tensorboard.
  - symmetry. apply swap_build_checkpoint.
  - reflexivity.
  - apply swap_checkpoint_tensorboard.
  - symmetry. apply swap_build_tensorboard.
  - symmetry. apply swap_checkpoint_tensorboard.
  - reflexivity.
Qed.

Lemma run_ops_app (xs ys : list Op) (u : UNet) (w : World) :
  run_ops (xs ++ ys)%list u w = run_ops ys (run_ops xs u w).1 (run_ops xs u w).2.
Proof.
  revert u w. induction xs as [|x xs IH]; intros u w; [reflexivity|].
  cbn [app run_ops]. apply IH.
Qed.

End Order.

(** In the embedding, where the clock does not move between the calls,
    a permutation of set-up calls gives the same object and world. *)
Lemma run_ops_permuted `{Framework} (ops ops' : list Op) (u : UNet) (w : World) :
  Permutation ops ops' ->
  forallb is_setup ops = true ->
  run_ops ops u w = run_ops ops' u w.
Proof.
  intros Hperm. revert u w.
  induction Hperm as [|x l l' _ IH|x y l|l l' l'' Hp1 IH1 _ IH2]; intros u w Hs.
  - reflexivity.
  - cbn [forallb] in Hs. apply andb_prop in Hs as [_ Hs].
    cbn [run_ops]. apply IH. exact Hs.
  - cbn [forallb] in Hs. apply andb_prop in Hs as [Hy Hs].
    apply andb_prop in Hs as [Hx _].
    change (y :: x :: l) with ([y; x] ++ l)%list.
    change (x :: y :: l) with ([x; y] ++ l)%list.
    rewrite !run_ops_app. rewrite (setup_swap y x u w Hy Hx). reflexivity.
  - rewrite (IH1 u w Hs). apply IH2.
    rewrite forallb_forall in *. intros o Ho. apply Hs.
    apply (Permutation_in o (Permutation_sym Hp1)). exact Ho.
Qed.

(** X6. [build], [checkpoint] and [tensorboard] can be called in any
    order and any number of times each without getting in each other's
    way: two sequences of these calls that are permutations of one
    another leave the same data and hyper-parameters, a model of the
    same architecture compiled the same way, the same checkpoint
    callback, a TensorBoard callback with the same histogram frequency
    if any, and the same configuration.  Nothing is said of the log
    directory, which carries the time of the call, nor of the initial
    weights. *)
Theorem setup_order_irrelevant `{Framework} (ops ops' : list Op)
    (u : UNet) (w : World) :
  Permutation ops ops' ->
  forallb is_setup ops = true ->
  let r := run_ops ops u w in
  let r' := run_ops ops' u w in
  same_data_and_hyperparameters r.1 r'.1 /\
  architecture <$> model r'.1 = architecture <$> model r.1 /\
  checkpoint_callback r'.1 = checkpoint_callback r.1 /\
  histogram_freq <$> tensorboard_callback r'.1 =
    histogram_freq <$> tensorboard_callback r.1 /\
  config r'.2 = config r.2.
Proof.
  intros Hperm Hs r r'. subst r r'.
  rewrite (run_ops_permuted ops ops' u w Hperm Hs).
  unfold same_data_and_hyperparameters. repeat split.
Qed.

Lemma setup_order_irrelevant_witness :
  let a := [OpBuild; OpCheckpoint; OpTensorboard] in
  let b := [OpTensorboard; OpBuild; OpCheckpoint] in
  let r := @run_ops Sample.framework a Sample.constructed Sample.start in
  let r' := @run_ops Sample.framework b Sample.constructed Sample.start in
  Permutation a b /\
  forallb is_setup a = true /\
  same_data_and_hyperparameters r.1 r'.1 /\
  architecture <$> model r'.1 = architecture <$> model r.1 /\
  checkpoint_callback r'.1 = checkpoint_callback r.1 /\
  histogram_freq <$> tensorboard_callback r'.1 =
    histogram_freq <$> tensorboard_callback r.1 /\
  config r'.2 = config r.2.
Proof.
  intros a b r r'.
  assert (Hp : Permutation a b).
  { unfold a, b. apply Permutation_sym.
    apply (Permutation_cons_app [OpBuild; OpCheckpoint] []). reflexivity. }
  split; [exact Hp|]. split; [reflexivity|].
  exact (@setup_order_irrelevant Sample.framework a b _ _ Hp eq_refl).
Defined.

(** ** [load_data] *)

(** X7. [load_data] asks the loader once, with the flag it was given.
    If the loader returns, the four data fields are its four arrays; if
    it raises, all four are as before.  Either way no other field
    changes, and the files are as the loader left them. *)
Theorem load_data_assigns `{Framework} (show_data : bool) (u : UNet) (w : World) :
  let loaded := DataLoader_main show_data (fs w) in
  load_data show_data u w =
    (match loaded.1 with Ok _ => Ok VNone | Raise e => Raise e end,
     match loaded.1 with
     | Ok (x, y, tx, ty) => set_data (Some x) (Some y) (Some tx) (Some ty) u
     | Raise _ => u
     end,
     set_fs loaded.2 (log_event (EvLoadData show_data) w)).
Proof.
  cbn zeta. unfold load_data. run. cbn [log_event fs].
  destruct (DataLoader_main show_data (fs w)) as [[[[[x y] tx] ty]|e] files];
    reflexivity.
Qed.

(** ** [tensorboard] *)

Lemma plain_name_parts (name : string) :
  plain_name name = true ->
  name <> "" /\ Py.startswith_sep name = false /\ Py.endswith_sep name = false.
Proof.
  unfold plain_name. intros Hn.
  apply andb_true_iff in Hn as [Hn H3]. apply andb_true_iff in Hn as [H1 H2].
  apply negb_true_iff in H1, H2, H3. apply String.eqb_neq in H1. auto.
Qed.

(** X8. For plain path components [tensorboard] logs under
    <model_path>/logs/<experiment_name>/<timestamp>: it returns [None],
    asks for a file writer on that directory, makes it the default
    writer, and sets a callback on that directory with histograms every
    epoch, leaving the other fields of the object alone. *)
Theorem tensorboard_log_dir (u : UNet) (w : World) (root name : string) :
  model_path u = VStr root ->
  experiment_name u = VStr name ->
  plain_root root = true -> plain_name name = true ->
  Py.startswith_sep (now w) = false ->
  let dir := root ++ "/logs/" ++ name ++ "/" ++ now w in
  let r := tensorboard u w in
  outcome_of r = Ok VNone /\
  self_of r =
    set_tensorboard_callback (Some {| log_dir := dir; histogram_freq := 1 |}) u /\
  default_writer (world_of r) = Some dir /\
  events (world_of r) = (events w ++ [EvCreateFileWriter dir])%list.
Proof.
  intros Hroot Hname Hpr Hpn Hts dir r. subst r.
  destruct (plain_name_parts name Hpn) as (Hne & Hs & He).
  unfold tensorboard. run. rewrite Hroot, Hname.
  rewrite (join_plain root "logs" name (now w) Hpr eq_refl Hne Hs He Hts).
  repeat split.
Qed.

Lemma tensorboard_log_dir_witness :
  let u := Sample.constructed in
  let w := Sample.start in
  let dir := "models/logs/exp1/20200101-120000" in
  let r := tensorboard u w in
  model_path u = VStr "models" /\ experiment_name u = VStr "exp1" /\
  plain_root "models" = true /\ plain_name "exp1" = true /\
  Py.startswith_sep (now w) = false /\
  outcome_of r = Ok VNone /\
  self_of r =
    set_tensorboard_callback (Some {| log_dir := dir; histogram_freq := 1 |}) u /\
  default_writer (world_of r) = Some dir /\
  events (world_of r) = (events w ++ [EvCreateFileWriter dir])%list.
Proof.
  intros u w dir r. do 5 (split; [reflexivity|]).
  exact (tensorboard_log_dir u w "models" "exp1"
           eq_refl eq_refl eq_refl eq_refl eq_refl).
Defined.

(** ** Paths that are not plain *)

(** X9. When the model path or the experiment name is not a string,
    [checkpoint] and [tensorboard] raise [TypeError] and change neither
    the object nor the world, and the history can be dumped in no mode. *)
Theorem paths_must_be_strings (u : UNet) (w : World) :
  (is_str (model_path u) && is_str (experiment_name u))%bool = false ->
  let e := TypeError "expected str, bytes or os.PathLike object" in
  checkpoint u w = (Raise e, u, w) /\
  tensorboard u w = (Raise e, u, w) /\
  forall mode h, dump_history mode h u w = (Raise e, u, w).
Proof.
  intros Hstr e.
  assert (Hjoin : forall a b c,
            Py.os_path_join (model_path u) [VStr a; experiment_name u; VStr b] = Raise e /\
            Py.os_path_join (model_path u) (experiment_name u :: c) = Raise e).
  { intros a b c. unfold Py.os_path_join, Py.fspath. run.
    destruct (model_path u) as [|z|q|s|sp]; try (split; reflexivity).
    cbn [is_str andb] in Hstr. cbn [Py.join_loop Py.fspath]. run.
    destruct (experiment_name u) as [|z|q|n|sp]; try discriminate Hstr;
      repeat match goal with
             | |- context [if ?x then _ else _] => destruct x
             end; split; reflexivity. }
  split; [|split].
  - unfold checkpoint. run. rewrite (proj2 (Hjoin "" "" _)). reflexivity.
  - unfold tensorboard. run. rewrite (proj1 (Hjoin "logs" (now w) [])). reflexivity.
  - intros mode h. rewrite dump_history_raises. unfold dump_history_error.
    rewrite (proj2 (Hjoin "" "" _)). reflexivity.
Qed.

Lemma paths_must_be_strings_witness :
  let u := Sample.ready_numeric_name.1 in
  let w := Sample.ready_numeric_name.2 in
  let e := TypeError "expected str, bytes or os.PathLike object" in
  experiment_name u = VInt 7 /\
  (is_str (model_path u) && is_str (experiment_name u))%bool = false /\
  checkpoint u w = (Raise e, u, w) /\
  tensorboard u w = (Raise e, u, w) /\
  checkpoint_callback u = None /\ tensorboard_callback u = None.
Proof.
  intros u w e.
  destruct (paths_must_be_strings u w eq_refl) as (Hc & Ht & _).
  split; [reflexivity|]. split; [reflexivity|]. split; [exact Hc|].
  split; [exact Ht|]. split; reflexivity.
Defined.

(** X10. When the experiment name is an absolute path, [os.path.join]
    starts again at it: the checkpoints go to
    <experiment_name>/checkpoints/<template> and the logs to
    <experiment_name>/<timestamp>, whatever the model path is. *)
Theorem absolute_experiment_name (u : UNet) (w : World) (root name : string) :
  model_path u = VStr root ->
  experiment_name u = VStr name ->
  Py.startswith_sep name = true -> Py.endswith_sep name = false ->
  Py.startswith_sep (now w) = false ->
  checkpoint u w =
    (Ok VNone,
     set_checkpoint_callback
       (Some (best_only_callback (name ++ "/checkpoints/" ++ checkpoint_template))) u,
     w) /\
  tensorboard_callback (self_of (tensorboard u w)) =
    Some {| log_dir := name ++ "/" ++ now w; histogram_freq := 1 |}.
Proof.
  intros Hroot Hname Hs He Hts.
  assert (Hne : String.eqb name "" = false) by (destruct name; [discriminate Hs | reflexivity]).
  split.
  - unfold checkpoint. run. rewrite Hroot, Hname.
    unfold Py.os_path_join, Py.fspath. run. cbn [Py.join_loop Py.fspath]. run.
    rewrite Hs, Hne, He. cbn [orb].
    change (Py.startswith_sep "checkpoints") with false.
    change (Py.startswith_sep checkpoint_template) with false. cbn iota.
    rewrite append_nonempty by (destruct name; [discriminate Hs | discriminate]).
    rewrite (endswith_sep_app name (Py.sep ++ "checkpoints")) by discriminate.
    change (Py.endswith_sep (Py.sep ++ "checkpoints")) with false. cbn [orb].
    unfold Py.sep. rewrite !append_assoc. reflexivity.
  - unfold tensorboard. run. rewrite Hroot, Hname.
    unfold Py.os_path_join, Py.fspath. run. cbn [Py.join_loop Py.fspath]. run.
    change (Py.startswith_sep "logs") with false. cbn iota.
    rewrite Hs, Hts, Hne, He. cbn [orb].
    destruct (String.eqb root "" || Py.endswith_sep root)%bool; reflexivity.
Qed.

Lemma absolute_experiment_name_witness :
  let u := Sample.ready_absolute_name.1 in
  let w := Sample.ready_absolute_name.2 in
  model_path u = VStr "models" /\ experiment_name u = VStr "/exp1" /\
  Py.startswith_sep "/exp1" = true /\ Py.endswith_sep "/exp1" = false /\
  Py.startswith_sep (now w) = false /\
  (filepath <$> checkpoint_callback (self_of (checkpoint u w))) =
    Some "/exp1/checkpoints/weights-{epoch:02d}-{loss:.4f}-{val_loss:.4f}" /\
  (log_dir <$> tensorboard_callback (self_of (tensorboard u w))) =
    Some "/exp1/20200101-120000".
Proof.
  intros u w.
  destruct (absolute_experiment_name u w "models" "/exp1"
              eq_refl eq_refl eq_refl eq_refl eq_refl) as [Hc Ht].
  do 5 (split; [reflexivity|]).
  split; [rewrite Hc; reflexivity | rewrite Ht; reflexivity].
Defined.

(** ** More on [train] *)

Section MoreTrain.
Context `{Framework}.

(** Evaluating the arguments of the fit call changes no field and no
    file; all it leaves behind are the iterators it asked for. *)
Lemma fit_arguments_frame (u : UNet) (w : World) :
  self_of (fit_arguments u w) = u /\
  fs (world_of (fit_arguments u w)) = fs w /\
  exists evs, events (world_of (fit_arguments u w)) = (events w ++ evs)%list /\
              forallb is_flow evs = true.
Proof.
  unfold fit_arguments, flow. run. unfold log_event. cbn [fst snd].
  destruct (NumpyArrayIterator_check _); cbn [fst snd fs events];
    [|repeat split; eexists; split; [reflexivity|reflexivity]].
  destruct (NumpyArrayIterator_check _); cbn [fst snd fs events];
    [|repeat split; eexists; split; [rewrite <- app_assoc; reflexivity|reflexivity]].
  destruct (len (train_input u)); cbn [fst snd fs events];
    [|repeat split; eexists; split; [rewrite <- app_assoc; reflexivity|reflexivity]].
  destruct (Py.add _ _); cbn [fst snd fs events];
    [|repeat split; eexists; split; [rewrite <- app_assoc; reflexivity|reflexivity]].
  destruct (Py.truediv _ _); cbn [fst snd fs events];
    repeat split; eexists; (split; [rewrite <- app_assoc; reflexivity|reflexivity]).
Qed.

(** When the arguments do not evaluate, [fit] raises what they raised
    and the framework's loop is not entered. *)
Lemma fit_stops_at_arguments (u : UNet) (w : World) (m : KModel) (e : Exn) :
  model u = Some m ->
  outcome_of (fit_arguments u w) = Raise e ->
  fit u w = (Raise e, u, world_of (fit_arguments u w)).
Proof.
  intros Hm Hargs. destruct (fit_arguments_frame u w) as (Hu & _).
  unfold fit. run. rewrite Hm.
  destruct (fit_arguments u w) as [[[a|e'] u'] w']; cbn [fst snd] in *;
    [discriminate Hargs|]. injection Hargs as ->. subst u'. reflexivity.
Qed.

(** When the arguments evaluate, [fit] is what the framework's loop
    returns: its outcome, its model in the object, its files. *)
Lemma fit_enters_loop (u : UNet) (w : World) (m m' : KModel) (args : FitArgs)
    (r : Outcome History) (files : FS) :
  model u = Some m ->
  outcome_of (fit_arguments u w) = Ok args ->
  Model_fit m args (fs w) = (r, m', files) ->
  fit u w =
    (r, set_model (Some m') u,
     set_fs files (log_event (EvFit m args) (world_of (fit_arguments u w)))).
Proof.
  intros Hm Hargs Hfit. destruct (fit_arguments_frame u w) as (Hu & Hfs & _).
  unfold fit. run. rewrite Hm.
  destruct (fit_arguments u w) as [[[a|e] u'] w']; cbn [fst snd] in *;
    [|discriminate Hargs].
  injection Hargs as ->. subst u'. unfold run_fit. cbn [log_event fs].
  rewrite Hfs, Hfit. reflexivity.
Qed.

Lemma train_after_fit (u : UNet) (w : World) :
  train u w =
    match fit u w with
    | (Ok h, u1, w1) => (Raise (dump_history_error default_mode u1 w1), u1, w1)
    | (Raise e, u1, w1) => (Raise e, u1, w1)
    end.
Proof.
  unfold train. run. destruct (fit u w) as [[[h|e] u1] w1]; [|reflexivity].
  rewrite (dump_history_raises default_mode h u1 w1).
  destruct (Py.os_path_join _ _) as [path|e]; [|reflexivity].
  rewrite open_read_files by reflexivity. rewrite set_fs_same. reflexivity.
Qed.

End MoreTrain.

(** X11. [train] never returns: on every object, in every world and
    with every framework, it ends by raising. *)
Theorem train_always_raises `{Framework} (u : UNet) (w : World) :
  exists e, outcome_of (train u w) = Raise e.
Proof.
  rewrite train_after_fit. destruct (fit u w) as [[[h|e] u1] w1]; eexists; reflexivity.
Qed.

(** X12. Once the fit loop has been entered, what it did stays although
    [train] raises: the object holds the model as the loop left it, its
    data and hyper-parameters are as before, and the files are the
    loop's. *)
Theorem train_keeps_trained_model `{Framework} (u : UNet) (w : World)
    (m m' : KModel) (args : FitArgs) (r : Outcome History) (files : FS) :
  model u = Some m ->
  outcome_of (fit_arguments u w) = Ok args ->
  Model_fit m args (fs w) = (r, m', files) ->
  model (self_of (train u w)) = Some m' /\
  same_data_and_hyperparameters u (self_of (train u w)) /\
  fs (world_of (train u w)) = files /\
  exists e, outcome_of (train u w) = Raise e.
Proof.
  intros Hm Hargs Hfit.
  rewrite train_after_fit, (fit_enters_loop u w m m' args r files Hm Hargs Hfit).
  unfold same_data_and_hyperparameters.
  destruct r as [h|e]; unfold self_of, world_of, outcome_of; cbn [fst snd set_fs fs];
    (split; [reflexivity|]); (split; [destruct u; repeat split|]);
    (split; [reflexivity|]); eexists; reflexivity.
Qed.

Lemma train_keeps_trained_model_witness :
  let u := Sample.ready.1 in
  let w := Sample.ready.2 in
  let r := @train Sample.framework u w in
  exists m args,
    model u = Some m /\
    outcome_of (@fit_arguments Sample.framework u w) = Ok args /\
    model (self_of r) = Some (Sample.trained m) /\
    is_Some (fs (world_of r) !! "models/exp1/checkpoints/weights-01-0.5000-0.2500") /\
    exists e, outcome_of r = Raise e.
Proof.
  intros u w r.
  destruct (model u) as [m|] eqn:Hm; [|vm_compute in Hm; discriminate Hm].
  destruct (outcome_of (@fit_arguments Sample.framework u w)) as [args|e] eqn:Hargs;
    [|vm_compute in Hargs; discriminate Hargs].
  destruct (@train_keeps_trained_model Sample.framework u w m _ args _ _
              Hm Hargs eq_refl) as (Hs & _ & Hfs & He).
  exists m, args. split; [reflexivity|]. split; [reflexivity|].
  subst r. rewrite Hs, Hfs. split; [reflexivity|]. split; [|exact He].
  assert (Hmm : Some m = model u) by (symmetry; exact Hm).
  assert (Ha : Ok args = outcome_of (@fit_arguments Sample.framework u w))
    by (symmetry; exact Hargs).
  injection Hmm as ->. vm_compute in Ha. injection Ha as ->. vm_compute. eexists. reflexivity.
Defined.

(** X13. With a model but no training data, [train] raises before the
    fit loop is entered: object and files are untouched, and the only
    calls made are those for the iterators. *)
Theorem train_without_data `{Framework} (u : UNet) (w : World) (m : KModel) :
  model u = Some m ->
  train_input u = None ->
  exists e evs,
    outcome_of (train u w) = Raise e /\
    self_of (train u w) = u /\
    fs (world_of (train u w)) = fs w /\
    events (world_of (train u w)) = (events w ++ evs)%list /\
    forallb is_flow evs = true.
Proof.
  intros Hm Hx. destruct (fit_arguments_frame u w) as (Hu & Hfs & evs & Hev & Hflow).
  assert (Hargs : exists e, outcome_of (fit_arguments u w) = Raise e).
  { unfold fit_arguments, flow. run. unfold log_event. cbn [fst snd]. rewrite Hx.
    destruct (NumpyArrayIterator_check _); [|eexists; reflexivity].
    destruct (NumpyArrayIterator_check _); eexists; reflexivity. }
  destruct Hargs as [e Hargs].
  rewrite train_after_fit, (fit_stops_at_arguments u w m e Hm Hargs).
  exists e, evs. unfold outcome_of, self_of, world_of in *. cbn [fst snd] in *. auto.
Qed.

Lemma train_without_data_witness :
  let u := Sample.built_only.1 in
  let w := Sample.built_only.2 in
  (exists m, model u = Some m) /\
  train_input u = None /\
  self_of (@train Sample.framework u w) = u /\
  fs (world_of (@train Sample.framework u w)) = fs w /\
  exists e, outcome_of (@train Sample.framework u w) = Raise e.
Proof.
  intros u w.
  destruct (model u) as [m|] eqn:Hm; [|vm_compute in Hm; discriminate Hm].
  destruct (@train_without_data Sample.framework u w m Hm eq_refl)
    as (e & evs & He & Hs & Hfs & _).
  split; [exists m; reflexivity|]. split; [reflexivity|].
  split; [exact Hs|]. split; [exact Hfs|]. exists e. exact He.
Defined.

(** X14. When the two batch sizes are integers that add up to zero,
    and the data is loaded and both iterators are accepted, [train]
    raises [ZeroDivisionError] while computing the step count; the fit
    loop is not entered and object and files are untouched. *)
Theorem train_zero_batch `{Framework} (u : UNet) (w : World) (m : KModel)
    (n a b : Z) :
  model u = Some m ->
  len (train_input u) = Ok n ->
  train_batch_size u = VInt a ->
  val_batch_size u = VInt b ->
  (a + b = 0)%Z ->
  (forall size subset,
     NumpyArrayIterator_check
       {| it_generator := data_generator u; it_x := train_input u;
          it_y := train_output u; it_batch_size := size; it_subset := subset |}
     = Ok tt) ->
  outcome_of (train u w) = Raise (ZeroDivisionError "division by zero") /\
  self_of (train u w) = u /\
  fs (world_of (train u w)) = fs w.
Proof.
  intros Hm Hn Ha Hb Hab Hcheck.
  destruct (fit_arguments_frame u w) as (Hu & Hfs & _).
  assert (Hargs : outcome_of (fit_arguments u w)
                  = Raise (ZeroDivisionError "division by zero")).
  { unfold fit_arguments, flow. run. unfold log_event. cbn [fst snd].
    rewrite !Hcheck, Hn, Ha, Hb. cbn [Py.add]. rewrite Hab. reflexivity. }
  rewrite train_after_fit, (fit_stops_at_arguments u w m _ Hm Hargs).
  unfold outcome_of, self_of, world_of in *. cbn [fst snd] in *. auto.
Qed.

Lemma train_zero_batch_witness :
  let u := Sample.ready_zero_batch.1 in
  let w := Sample.ready_zero_batch.2 in
  (exists m, model u = Some m) /\
  len (train_input u) = Ok 10%Z /\
  train_batch_size u = VInt 4 /\ val_batch_size u = VInt (-4) /\
  outcome_of (@train Sample.framework u w) =
    Raise (ZeroDivisionError "division by zero") /\
  self_of (@train Sample.framework u w) = u.
Proof.
  intros u w.
  destruct (model u) as [m|] eqn:Hm; [|vm_compute in Hm; discriminate Hm].
  destruct (@train_zero_batch Sample.framework u w m 10 4 (-4)
              Hm eq_refl eq_refl eq_refl eq_refl (fun _ _ => eq_refl))
    as (Ho & Hs & _).
  split; [exists m; reflexivity|]. do 3 (split; [reflexivity|]).
  split; [exact Ho | exact Hs].
Defined.

(** X15. What [train] asks of the framework when its arguments
    evaluate: two iterators, both over the training arrays and the
    object's generator, with the training and the validation batch size
    and the subsets ["training"] and ["validation"]; then the fit loop,
    with these iterators, shuffling on, the configured epochs, and as
    callbacks the checkpoint and the TensorBoard callback in this order,
    [None] standing for one never configured.  It makes no other call. *)
Theorem fit_arguments_content `{Framework} (u : UNet) (w : World) (m : KModel)
    (args : FitArgs) :
  model u = Some m ->
  outcome_of (fit_arguments u w) = Ok args ->
  fit_x args =
    {| it_generator := data_generator u; it_x := train_input u;
       it_y := train_output u; it_batch_size := train_batch_size u;
       it_subset := "training" |} /\
  fit_validation_data args =
    {| it_generator := data_generator u; it_x := train_input u;
       it_y := train_output u; it_batch_size := val_batch_size u;
       it_subset := "validation" |} /\
  fit_shuffle args = true /\
  fit_epochs args = epochs u /\
  fit_callbacks args =
    [as_callback_1 (checkpoint_callback u); as_callback_2 (tensorboard_callback u)] /\
  events (world_of (train u w)) =
    (events w ++ [EvFlow (fit_x args); EvFlow (fit_validation_data args);
                  EvFit m args])%list.
Proof.
  intros Hm Hargs.
  assert (Hev : events (world_of (train u w)) =
                (events (world_of (fit_arguments u w)) ++ [EvFit m args])%list).
  { rewrite train_after_fit. unfold fit. run. rewrite Hm.
    destruct (fit_arguments u w) as [[[a|e] u'] w']; cbn [fst snd] in *;
      [|discriminate Hargs].
    injection Hargs as ->. unfold run_fit. cbn [log_event fs].
    destruct (Model_fit m args (fs w')) as [[[h|e] m'] files]; reflexivity. }
  rewrite Hev. clear Hev. revert Hargs.
  unfold fit_arguments, flow. run. unfold log_event. cbn [fst snd].
  destruct (NumpyArrayIterator_check _); cbn [fst snd]; [|discriminate].
  destruct (NumpyArrayIterator_check _); cbn [fst snd]; [|discriminate].
  destruct (len (train_input u)); cbn [fst snd]; [|discriminate].
  destruct (Py.add _ _); cbn [fst snd]; [|discriminate].
  destruct (Py.truediv _ _); cbn [fst snd]; [|discriminate].
  intros Hargs. injection Hargs as <-. cbn. rewrite <- !app_assoc.
  repeat split.
Qed.

Lemma fit_arguments_content_witness :
  let r := @run_ops Sample.framework [OpLoadData false; OpBuild]
             Sample.constructed Sample.start in
  exists m args,
    model r.1 = Some m /\
    outcome_of (@fit_arguments Sample.framework r.1 r.2) = Ok args /\
    fit_callbacks args = [CbNone; CbNone] /\
    it_x (fit_validation_data args) = Some (Sample.images 10 2 1) /\
    fit_epochs args = VInt 1 /\
    In (EvFit m args) (events (world_of (@train Sample.framework r.1 r.2))).
Proof.
  intros r.
  destruct (model r.1) as [m|] eqn:Hm; [|vm_compute in Hm; discriminate Hm].
  destruct (outcome_of (@fit_arguments Sample.framework r.1 r.2)) as [args|e] eqn:Hargs;
    [|vm_compute in Hargs; discriminate Hargs].
  destruct (@fit_arguments_content Sample.framework r.1 r.2 m args Hm Hargs)
    as (_ & Hv & _ & He & Hc & Hev).
  exists m, args. split; [reflexivity|]. split; [reflexivity|].
  rewrite Hc, Hv, He, Hev.
  split; [vm_compute; reflexivity|]. split; [vm_compute; reflexivity|].
  split; [vm_compute; reflexivity|].
  apply in_or_app. right. right. right. left. reflexivity.
Defined.

(** ** More on [evaluate] *)

(** X16. After construction and any calls other than [build],
    [evaluate] raises the [AttributeError] of looking up [predict] on
    [None]; it makes no call out and changes nothing. *)
Theorem evaluate_before_build `{Framework} (w0 : World) (u0 : UNet)
    (ops : list Op) (w : World) :
  __init__ w0 = Ok u0 ->
  forallb (fun o => negb (is_build o)) ops = true ->
  let u := (run_ops ops u0 w).1 in
  let w' := (run_ops ops u0 w).2 in
  evaluate u w' =
    (Raise (AttributeError "'NoneType' object has no attribute 'predict'"), u, w').
Proof.
  intros Hinit Hops u w'. apply evaluate_no_model.
  apply run_ops_keeps_no_model; [exact Hops|]. exact (init_no_model w0 u0 Hinit).
Qed.

Lemma evaluate_before_build_witness :
  let ops := [OpLoadData true; OpTensorboard; OpTrain] in
  let u := (@run_ops Sample.framework ops Sample.constructed Sample.start).1 in
  let w' := (@run_ops Sample.framework ops Sample.constructed Sample.start).2 in
  __init__ Sample.start = Ok Sample.constructed /\
  forallb (fun o => negb (is_build o)) ops = true /\
  @evaluate Sample.framework u w' =
    (Raise (AttributeError "'NoneType' object has no attribute 'predict'"), u, w').
Proof.
  intros ops u w'.
  assert (Hinit : __init__ Sample.start = Ok Sample.constructed)
    by (vm_compute; reflexivity).
  split; [exact Hinit|]. split; [reflexivity|].
  exact (@evaluate_before_build Sample.framework Sample.start Sample.constructed
           ops Sample.start Hinit eq_refl).
Defined.

(** X18. When the model cannot predict on [test_input], [evaluate]
    raises what [predict] raised and nothing is plotted: the only call
    out is the prediction, and the files are untouched. *)
Theorem evaluate_predict_fails `{Framework} (u : UNet) (w : World)
    (m : KModel) (e : Exn) :
  model u = Some m ->
  Model_predict m (test_input u) = Raise e ->
  evaluate u w = (Raise e, u, log_event (EvPredict m (test_input u)) w).
Proof.
  intros Hm Hp. unfold evaluate. run. rewrite Hm. cbn [fst snd].
  rewrite Hp. reflexivity.
Qed.

Lemma evaluate_predict_fails_witness :
  let u := Sample.built_only.1 in
  let w := Sample.built_only.2 in
  let e := ValueError "Failed to find data adapter that can handle input" in
  test_input u = None /\
  exists m,
    model u = Some m /\
    @Model_predict Sample.framework m (test_input u) = Raise e /\
    @evaluate Sample.framework u w = (Raise e, u, log_event (EvPredict m None) w).
Proof.
  intros u w e. split; [reflexivity|].
  destruct (model u) as [m|] eqn:Hm; [|vm_compute in Hm; discriminate Hm].
  exists m. split; [reflexivity|]. split; [reflexivity|].
  exact (@evaluate_predict_fails Sample.framework u w m e Hm eq_refl).
Defined.

(** ** [_one_cnn_layer] *)

Lemma positive_dims_3 (a b c : Z) :
  positive_dims [a; b; c] = true <-> (0 < a /\ 0 < b /\ 0 < c)%Z.
Proof.
  unfold positive_dims. cbn [forallb]. rewrite !andb_true_iff, !Z.ltb_lt. tauto.
Qed.

(** The sides of a tensor after a stride-1 convolution. *)
Lemma conv_output_length_valid (n k : Z) :
  conv_output_length n k VALID 1 = (n - k + 1)%Z.
Proof. unfold conv_output_length. rewrite Z.div_1_r. lia. Qed.

(** X19. On a tensor of height [h], width [w] and any depth, one block
    with a positive kernel size and a padding the framework knows gives
    a tensor of depth [num_filters]: of the same height and width for
    ["same"], and [kernel_size - 1] less for ["valid"], in any letter
    case; its graph is the convolution, then the batch normalisation,
    then the ReLU. *)
Theorem one_cnn_layer_shape (x : KerasTensor) (h w c num_filters kernel_size : Z)
    (padding : string) (p : Padding) :
  kt_shape x = [h; w; c] ->
  normalize_padding padding = Ok p ->
  (0 < kernel_size)%Z ->
  let shrink := match p with SAME => 0 | VALID => kernel_size - 1 end in
  (0 < h - shrink)%Z -> (0 < w - shrink)%Z -> (0 < num_filters)%Z ->
  exists t,
    _one_cnn_layer x num_filters kernel_size padding = Ok t /\
    kt_shape t = [h - shrink; w - shrink; num_filters] /\
    kt_history t = Topology.block num_filters kernel_size p (kt_history x).
Proof.
  intros Hx Hp _ shrink Hh Hw Hf.
  unfold _one_cnn_layer, on, Conv2D, BatchNormalization, Activation, call. run.
  rewrite Hp. cbn [map]. rewrite Hx. cbn [compute_output_shape].
  assert (Hlen : forall n, conv_output_length n kernel_size p 1 = (n - shrink)%Z).
  { intros n. subst shrink. destruct p;
      [rewrite conv_output_length_valid | rewrite conv_output_length_same]; lia. }
  rewrite !Hlen. unfold checked.
  rewrite (proj2 (positive_dims_3 _ _ _) (conj Hh (conj Hw Hf))).
  eexists. split; [reflexivity|]. split; reflexivity.
Qed.

Lemma one_cnn_layer_shape_witness :
  let x := {| kt_shape := [50; 50; 2]; kt_history := InputLayer [50; 50; 2] |} in
  kt_shape x = [50; 50; 2] /\
  normalize_padding "Valid" = Ok VALID /\
  (0 < 3)%Z /\ (0 < 50 - (3 - 1))%Z /\ (0 < 64)%Z /\
  exists t, _one_cnn_layer x 64 3 "Valid" = Ok t /\ kt_shape t = [48; 48; 64].
Proof.
  intros x.
  destruct (one_cnn_layer_shape x 50 50 2 64 3 "Valid" VALID
              eq_refl eq_refl eq_refl eq_refl eq_refl eq_refl) as (t & Ht & Hs & _).
  split; [reflexivity|]. split; [reflexivity|]. split; [reflexivity|].
  split; [reflexivity|]. split; [reflexivity|]. exists t. split; [exact Ht | exact Hs].
Defined.

(** X20. One block raises [ValueError] when the padding is not one the
    framework knows, and when the kernel does not fit into the tensor
    under ["valid"] padding; the later layers of the block are not
    reached. *)
Theorem one_cnn_layer_rejects (x : KerasTensor) (h w c num_filters kernel_size : Z)
    (padding : string) :
  kt_shape x = [h; w; c] ->
  (normalize_padding padding = Raise (ValueError "invalid padding") ->
   _one_cnn_layer x num_filters kernel_size padding =
     Raise (ValueError "invalid padding")) /\
  (normalize_padding padding = Ok VALID ->
   (h < kernel_size \/ w < kernel_size)%Z ->
   _one_cnn_layer x num_filters kernel_size padding =
     Raise (ValueError "output dimension is not positive")).
Proof.
  intros Hx.
  unfold _one_cnn_layer, on, Conv2D, BatchNormalization, Activation, call. run.
  split.
  - intros ->. reflexivity.
  - intros -> Hsmall. cbn [map]. rewrite Hx. cbn [compute_output_shape].
    rewrite !conv_output_length_valid. unfold checked.
    destruct (positive_dims _) eqn:Hpos; [|reflexivity].
    apply positive_dims_3 in Hpos. lia.
Qed.

Lemma one_cnn_layer_rejects_witness :
  let x := {| kt_shape := [2; 2; 8]; kt_history := InputLayer [2; 2; 8] |} in
  kt_shape x = [2; 2; 8] /\
  normalize_padding "reflect" = Raise (ValueError "invalid padding") /\
  _one_cnn_layer x 64 3 "reflect" = Raise (ValueError "invalid padding") /\
  normalize_padding "VALID" = Ok VALID /\ (2 < 3)%Z /\
  _one_cnn_layer x 64 3 "VALID" = Raise (ValueError "output dimension is not positive").
Proof.
  intros x.
  destruct (one_cnn_layer_rejects x 2 2 8 64 3 "reflect" eq_refl) as [Hbad _].
  destruct (one_cnn_layer_rejects x 2 2 8 64 3 "VALID" eq_refl) as [_ Hsmall].
  split; [reflexivity|]. split; [reflexivity|]. split; [exact (Hbad eq_refl)|].
  split; [reflexivity|]. split; [reflexivity|].
  exact (Hsmall eq_refl (or_introl eq_refl)).
Defined.

(** ** The intended sequence of calls *)

(** X21. On an object whose model path and experiment name are strings,
    in a world where the loader returns four arrays and the three
    schedule keys hold a positive float, a positive number of steps (a
    float, or an integer below [2^31]) and a positive float, the calls [load_data], [build], [checkpoint],
    [tensorboard] leave the object with these arrays, a model compiled
    on that schedule and both callbacks, and the configuration as it
    was. *)
Theorem setup_succeeds `{Framework} (u0 : UNet) (w : World) (show_data : bool)
    (x y tx ty : ndarray) (files : FS) (root name : string) (a b c : PyVal) :
  model_path u0 = VStr root ->
  experiment_name u0 = VStr name ->
  DataLoader_main show_data (fs w) = (Ok (x, y, tx, ty), files) ->
  schedule_of (config w) = [Ok a; Ok b; Ok c] ->
  positive_float a = true ->
  positive_steps b = true ->
  positive_float c = true ->
  let r := run_ops [OpLoadData show_data; OpBuild; OpCheckpoint; OpTensorboard] u0 w in
  train_input r.1 = Some x /\ train_output r.1 = Some y /\
  test_input r.1 = Some tx /\ test_output r.1 = Some ty /\
  learning_rate_of r.1 = Some (ExponentialDecay a b c) /\
  is_Some (checkpoint_callback r.1) /\ is_Some (tensorboard_callback r.1) /\
  config r.2 = config w.
Proof.
  intros Hroot Hname Hload Hsched _ _ _ r. subst r.
  unfold schedule_of in Hsched. injection Hsched as Ha Hb Hc.
  destruct create_model_ok as (m0 & Hm0 & _).
  destruct (join_strings root name "checkpoints" checkpoint_template) as [p1 Hp1].
  destruct (join_strings root "logs" name (now w)) as [p2 Hp2].
  cbn [run_ops run_op].
  assert (H1 : load_data show_data u0 w =
               (Ok VNone, set_data (Some x) (Some y) (Some tx) (Some ty) u0,
                set_fs files (log_event (EvLoadData show_data) w))).
  { unfold load_data. run. cbn [log_event fs]. rewrite Hload. reflexivity. }
  rewrite H1. unfold self_of, world_of. cbn [fst snd].
  rewrite (build_cases _ _ m0 Hm0). cbn [set_fs log_event config].
  rewrite Ha, Hb, Hc. cbn [fst snd].
  unfold checkpoint. run.
  cbn [set_model set_data model_path experiment_name]. rewrite Hroot, Hname, Hp1.
  change (ModelCheckpoint_init p1 "val_loss" 0 true false "auto" (VStr "epoch") (Some 1))
    with (Ok (best_only_callback p1)).
  cbn [fst snd].
  unfold tensorboard. run.
  cbn [set_checkpoint_callback set_model set_data model_path experiment_name
       now set_fs log_event].
  rewrite Hroot, Hname, Hp2. cbn [fst snd].
  unfold learning_rate_of. cbn. repeat split; eexists; reflexivity.
Qed.

Lemma setup_succeeds_witness :
  let u0 := Sample.constructed in
  let w := Sample.start in
  let r := @run_ops Sample.framework
             [OpLoadData false; OpBuild; OpCheckpoint; OpTensorboard] u0 w in
  model_path u0 = VStr "models" /\ experiment_name u0 = VStr "exp1" /\
  @DataLoader_main Sample.framework false (fs w) =
    (Ok (Sample.images 10 2 1, Sample.images 10 1 2,
         Sample.images 3 2 3, Sample.images 3 1 4), ∅) /\
  schedule_of (config w) = [Ok (VFloat (1 # 1000)); Ok (VInt 1000); Ok (VFloat (9 # 10))] /\
  positive_float (VFloat (1 # 1000)) = true /\
  positive_steps (VInt 1000) = true /\
  positive_float (VFloat (9 # 10)) = true /\
  train_input r.1 = Some (Sample.images 10 2 1) /\
  is_Some (checkpoint_callback r.1) /\ is_Some (tensorboard_callback r.1).
Proof.
  intros u0 w r.
  assert (Hs : schedule_of (config w) =
               [Ok (VFloat (1 # 1000)); Ok (VInt 1000); Ok (VFloat (9 # 10))])
    by (vm_compute; reflexivity).
  destruct (@setup_succeeds Sample.framework u0 w false _ _ _ _ _ "models" "exp1" _ _ _
              eq_refl eq_refl eq_refl Hs eq_refl eq_refl eq_refl)
    as (Hx & _ & _ & _ & _ & Hc & Ht & _).
  split; [reflexivity|]. split; [reflexivity|]. split; [reflexivity|].
  split; [exact Hs|]. do 3 (split; [reflexivity|]).
  split; [exact Hx|]. split; [exact Hc | exact Ht].
Defined.

(** ** After [train] *)

(** [os.path.join] of three plain components. *)
Lemma join_plain3 (root name b : string) :
  plain_root root = true -> plain_name name = true ->
  Py.startswith_sep b = false ->
  Py.os_path_join (VStr root) [VStr name; VStr b] = Ok (root ++ "/" ++ name ++ "/" ++ b).
Proof.
  intros Hr Hn Hb. destruct (plain_name_parts name Hn) as (Hne & Hs & He).
  unfold plain_root in Hr. apply andb_true_iff in Hr as [Hr1 Hr2].
  apply negb_true_iff in Hr1, Hr2.
  assert (Hroot : root <> "") by (now apply String.eqb_neq).
  unfold Py.os_path_join, Py.fspath. run. cbn [Py.join_loop Py.fspath]. run.
  rewrite Hs, Hr1, Hr2. cbn [orb]. rewrite Hb, (append_nonempty root _ Hroot).
  rewrite (endswith_sep_app root (Py.sep ++ name)) by (unfold Py.sep; discriminate).
  unfold Py.sep. rewrite append_cons. cbn [Py.endswith_sep].
  change ("" ++ name) with name.
  destruct name as [|ch name]; [congruence|]. rewrite He. cbn [orb].
  rewrite !append_assoc. reflexivity.
Qed.

(** X22. For plain path components, when the fit loop returns, [train]
    looks for <model_path>/<experiment_name>/model_history.pkl: if the
    loop left no such file it raises [FileNotFoundError] for this very
    path, and otherwise the [TypeError] of [pickle.dump]; either way the
    content under this path is what the loop left. *)
Theorem train_history_path `{Framework} (u : UNet) (w : World) (m m' : KModel)
    (args : FitArgs) (h : History) (files : FS) (root name : string) :
  model u = Some m ->
  outcome_of (fit_arguments u w) = Ok args ->
  Model_fit m args (fs w) = (Ok h, m', files) ->
  model_path u = VStr root -> experiment_name u = VStr name ->
  plain_root root = true -> plain_name name = true ->
  let path := root ++ "/" ++ name ++ "/model_history.pkl" in
  outcome_of (train u w) =
    Raise (match files !! path with
           | None => FileNotFoundError path
           | Some _ => TypeError "file must have a 'write' attribute"
           end) /\
  fs (world_of (train u w)) !! path = files !! path.
Proof.
  intros Hm Hargs Hfit Hroot Hname Hpr Hpn path.
  rewrite train_after_fit, (fit_enters_loop u w m m' args (Ok h) files Hm Hargs Hfit).
  unfold outcome_of, world_of. cbn [fst snd set_fs fs]. split; [|reflexivity].
  unfold dump_history_error. cbn [set_model model_path experiment_name].
  rewrite Hroot, Hname, (join_plain3 root name "model_history.pkl" Hpr Hpn eq_refl).
  unfold open. cbn [kind default_mode set_fs fs].
  change (root ++ "/" ++ name ++ "/" ++ "model_history.pkl") with path.
  destruct (files !! path); reflexivity.
Qed.

Lemma train_history_path_witness :
  let u := Sample.ready.1 in
  let w := Sample.ready.2 in
  exists m args,
    model u = Some m /\
    outcome_of (@fit_arguments Sample.framework u w) = Ok args /\
    model_path u = VStr "models" /\ experiment_name u = VStr "exp1" /\
    plain_root "models" = true /\ plain_name "exp1" = true /\
    outcome_of (@train Sample.framework u w) =
      Raise (FileNotFoundError "models/exp1/model_history.pkl").
Proof.
  intros u w.
  destruct (model u) as [m|] eqn:Hm; [|vm_compute in Hm; discriminate Hm].
  destruct (outcome_of (@fit_arguments Sample.framework u w)) as [args|e] eqn:Hargs;
    [|vm_compute in Hargs; discriminate Hargs].
  destruct (@train_history_path Sample.framework u w m _ args _ _ "models" "exp1"
              Hm Hargs eq_refl eq_refl eq_refl eq_refl eq_refl) as [Ho _].
  exists m, args. do 6 (split; [reflexivity|]).
  rewrite Ho.
  assert (Hmm : Some m = model u) by (symmetry; exact Hm).
  assert (Ha : Ok args = outcome_of (@fit_arguments Sample.framework u w))
    by (symmetry; exact Hargs).
  injection Hmm as ->. vm_compute in Ha. injection Ha as ->. vm_compute. reflexivity.
Defined.

(** X23. [evaluate] after [train] works on what training left: when the
    fit loop returned or raised with the model [m'], the prediction is
    asked of [m'] on [test_input], and the plot gets [test_output],
    [test_input] and that prediction; the model of the object is still
    [m']. *)
Theorem evaluate_after_train `{Framework} (u : UNet) (w : World) (m m' : KModel)
    (args : FitArgs) (r : Outcome History) (files : FS) (pred_output : ndarray) :
  model u = Some m ->
  outcome_of (fit_arguments u w) = Ok args ->
  Model_fit m args (fs w) = (r, m', files) ->
  Model_predict m' (test_input u) = Ok pred_output ->
  let t := train u w in
  let e := evaluate (self_of t) (world_of t) in
  model (self_of e) = Some m' /\
  events (world_of e) =
    (events (world_of t) ++
     [EvPredict m' (test_input u);
      EvPlot (test_output u) (test_input u) pred_output])%list.
Proof.
  intros Hm Hargs Hfit Hp t e. subst e t.
  rewrite train_after_fit, (fit_enters_loop u w m m' args r files Hm Hargs Hfit).
  assert (He : forall o : Outcome PyVal,
            let t := (o, set_model (Some m') u,
                      set_fs files (log_event (EvFit m args)
                                      (world_of (fit_arguments u w)))) in
            model (self_of (evaluate (self_of t) (world_of t))) = Some m' /\
            events (world_of (evaluate (self_of t) (world_of t))) =
              (events (world_of t) ++
               [EvPredict m' (test_input u);
                EvPlot (test_output u) (test_input u) pred_output])%list).
  { intros o t. subst t. unfold evaluate. run.
    cbn [set_model model test_input test_output]. rewrite Hp.
    unfold log_event. cbn [fst snd set_fs fs events].
    destruct (PlotUtils_plot_results _ _ _ _) as [[v|e] files'];
      cbn [fst snd set_fs events]; rewrite <- app_assoc; split; reflexivity. }
  destruct r as [h|e]; apply He.
Qed.

Lemma evaluate_after_train_witness :
  let u := Sample.ready.1 in
  let w := Sample.ready.2 in
  let t := @train Sample.framework u w in
  let e := @evaluate Sample.framework (self_of t) (world_of t) in
  exists m args,
    model u = Some m /\
    outcome_of (@fit_arguments Sample.framework u w) = Ok args /\
    @Model_predict Sample.framework (Sample.trained m) (test_input u) =
      Ok (Sample.images 3 1 5) /\
    model (self_of e) = Some (Sample.trained m) /\
    outcome_of e = Ok VNone.
Proof.
  intros u w t e.
  destruct (model u) as [m|] eqn:Hm; [|vm_compute in Hm; discriminate Hm].
  destruct (outcome_of (@fit_arguments Sample.framework u w)) as [args|ex] eqn:Hargs;
    [|vm_compute in Hargs; discriminate Hargs].
  destruct (@evaluate_after_train Sample.framework u w m _ args _ _ (Sample.images 3 1 5)
              Hm Hargs eq_refl eq_refl) as [Hs _].
  exists m, args. do 3 (split; [reflexivity|]). split; [exact Hs|].
  subst e t. vm_compute. reflexivity.
Defined.
